(** * Task-management backend: authentication and task controllers

    A shallow embedding of [src/controllers/user.controller.js] (both
    revisions kept in the repository) and [src/controllers/task.controller.js].

    Documents live in two MongoDB collections, modelled as finite maps keyed
    by [_id].  A request handler is a function from the database to an
    outcome (a response, or the error handed to Express) and the database it
    leaves behind.  Every [await] of the refresh handler is also modelled as
    a separate atomic step, so that overlapping requests can be interleaved. *)

From Stdlib Require Import NArith Ascii String Bool List.
From stdpp Require Import gmap strings list fin_maps pretty.

Local Open Scope string_scope.
Local Open Scope N_scope.

(** ** JavaScript strings and truthiness *)

Module JS.

(** Code units below 256 that [String.prototype.trim] removes. *)
Definition isWhiteSpace (c : ascii) : bool :=
  let n := N_of_ascii c in
  ((9 <=? n) && (n <=? 13)) || (n =? 32) || (n =? 160).

Fixpoint trimStart (s : string) : string :=
  match s with
  | EmptyString => EmptyString
  | String c rest => if isWhiteSpace c then trimStart rest else s
  end.

Fixpoint trimEnd (s : string) : string :=
  match s with
  | EmptyString => EmptyString
  | String c rest =>
      match trimEnd rest with
      | EmptyString => if isWhiteSpace c then EmptyString else String c EmptyString
      | kept => String c kept
      end
  end.

Definition trim (s : string) : string := trimEnd (trimStart s).

(** [String.prototype.toLowerCase] on code units below 256. *)
Definition lowerChar (c : ascii) : ascii :=
  let n := N_of_ascii c in
  if ((65 <=? n) && (n <=? 90))
     || ((192 <=? n) && (n <=? 222) && negb (n =? 215))
  then ascii_of_N (n + 32) else c.

Fixpoint toLowerCase (s : string) : string :=
  match s with
  | EmptyString => EmptyString
  | String c rest => String (lowerChar c) (toLowerCase rest)
  end.

(** A string is falsy exactly when it is empty. *)
Definition truthyStr (s : string) : bool := negb (String.eqb s "").

(** [field?.trim() === ""] for a field that may be [undefined]. *)
Definition trimsToEmpty (field : option string) : bool :=
  match field with
  | Some s => String.eqb (trim s) ""
  | None => false
  end.

(** [!field] for a field that is a string or [undefined]. *)
Definition falsy (field : option string) : bool :=
  match field with
  | Some s => negb (truthyStr s)
  | None => true
  end.

(** [a || b] on strings. *)
Definition orStr (a b : string) : string := if truthyStr a then a else b.

End JS.

(** ** Tokens *)

Definition ObjectId := N.
Definition Time := N.

Inductive TokenClass := Access | Refresh.

#[global] Instance TokenClass_eq_dec : EqDecision TokenClass.
Proof. solve_decision. Defined.

(** What a token says, before it is signed. *)
Record Payload := mkPayload {
  subject : ObjectId;
  class : TokenClass;
  issued_at : Time;
  expires_at : Time;
}.

#[global] Instance Payload_eq_dec : EqDecision Payload.
Proof. solve_decision. Defined.

Record Token := mkToken {
  payload : Payload;
  signature : string;
}.

#[global] Instance Token_eq_dec : EqDecision Token.
Proof. solve_decision. Defined.

(** A token as it travels in a cookie, a body field or a header: either the
    encoding of a token, or a string that does not decode to one.  Equality
    of two values of this type stands for equality of the strings. *)
Inductive TokenString :=
  | Undecodable (raw : string)
  | Encoded (t : Token).

#[global] Instance TokenString_eq_dec : EqDecision TokenString.
Proof. solve_decision. Defined.

(** ** Documents

    A collection is a finite map from [_id] to the other paths of the
    document; a document loaded by a handler is the pair of both. *)

Record UserDoc := mkUser {
  email : string;
  username : string;
  fullName : string;
  password : string;
  refreshToken : option TokenString;
}.

#[global] Instance UserDoc_eq_dec : EqDecision UserDoc.
Proof. solve_decision. Defined.

(** [src/models/task.model.js], without the timestamps Mongoose maintains. *)
Record TaskDoc := mkTask {
  title : string;
  description : option string;
  status : string;
  priority : string;
  dueDate : string;
  userId : ObjectId;
}.

#[global] Instance TaskDoc_eq_dec : EqDecision TaskDoc.
Proof. solve_decision. Defined.

Definition _id {A} (doc : ObjectId * A) : ObjectId := fst doc.

Record Db := mkDb {
  users : gmap N UserDoc;
  tasks : gmap N TaskDoc;
}.

Definition set_users (f : gmap N UserDoc -> gmap N UserDoc) (db : Db) : Db :=
  {| users := f (users db); tasks := tasks db |}.

Definition set_tasks (f : gmap N TaskDoc -> gmap N TaskDoc) (db : Db) : Db :=
  {| users := users db; tasks := f (tasks db) |}.

(** ** What the controllers rely on and the repository keeps elsewhere *)

Inductive UserPath := PEmail | PUsername | PFullName.

(** The pieces of [user.model.js], of the password hash and of the drivers
    that the controllers call.  They are parameters of the development. *)
Class Platform := {
  (** keyed signature over a payload *)
  sign : string -> Payload -> string;
  (** the hash stored for a plaintext, for a salt chosen at the call *)
  hashPassword : N -> string -> string;
  (** [user.isPasswordCorrect(candidate)] on a stored hash *)
  comparePassword : string -> string -> bool;
  (** setters of a path of the user schema; Mongoose applies them to the
      values it stores and to the values of a filter *)
  schemaCast : UserPath -> string -> string;
  (** validators and unique indexes of the user schema: the message of the
      error raised for a document, if the collection refuses it *)
  schemaRejects : gmap N UserDoc -> UserDoc -> option string;
  (** cast of a route parameter to an [ObjectId] *)
  castObjectId : string -> option ObjectId;
  castObjectId_empty : castObjectId "" = None;
}.

(** [process.env] as far as the controllers and the codec read it. *)
Record Config := mkConfig {
  NODE_ENV : string;
  signing_key : string;
  access_ttl : N;
  refresh_ttl : N;
}.

(** ** Token Codec *)

Module TokenCodec.
Section Codec.
Context `{!Platform}.
Variable cfg : Config.

Inductive ErrorKind := Malformed | Expired | WrongClass.

Definition ttl (c : TokenClass) : N :=
  match c with
  | Access => access_ttl cfg
  | Refresh => refresh_ttl cfg
  end.

(** Modelled from the spec: [user.generateAccessToken] and
    [user.generateRefreshToken] of [user.model.js] are not among the
    sources embedded here.  "[mint(subject, class, now)] produces a signed
    token with [issued_at = now] and [expires_at = now + ttl(class)]", the
    signature being made with the deployment's symmetric secret. *)
Definition mint (sub : ObjectId) (c : TokenClass) (now : Time) : Token :=
  let p := {| subject := sub; class := c;
              issued_at := now; expires_at := now + ttl c |} in
  {| payload := p; signature := sign (signing_key cfg) p |}.

(** Modelled from the spec: the check behind [jwt.verify].  "Fails with
    [Malformed] if the signature does not verify or the payload cannot be
    decoded; fails with [Expired] if [now > expires_at]; fails with
    [WrongClass] if the token's class does not match [expected_class]." *)
Definition validate (s : TokenString) (expected : TokenClass) (now : Time)
  : ErrorKind + Token :=
  match s with
  | Undecodable _ => inl Malformed
  | Encoded t =>
      if negb (String.eqb (sign (signing_key cfg) (payload t)) (signature t))
      then inl Malformed
      else if expires_at (payload t) <? now then inl Expired
      else if negb (bool_decide (class (payload t) = expected)) then inl WrongClass
      else inr t
  end.

(** The [message] of the error [jwt.verify] throws. *)
Definition errorMessage (k : ErrorKind) : string :=
  match k with
  | Malformed => "jwt malformed"
  | Expired => "jwt expired"
  | WrongClass => "invalid signature"
  end.

End Codec.
End TokenCodec.

(** ** Outcomes of a handler *)

Inductive Thrown :=
  | ApiError (statusCode : N) (message : string)
  | JwtError (k : TokenCodec.ErrorKind)
  | JsError (name : string) (message : string).

Definition thrownMessage (e : Thrown) : string :=
  match e with
  | ApiError _ m => m
  | JwtError k => TokenCodec.errorMessage k
  | JsError _ m => m
  end.

(** A user document after [.select("-password -refreshToken")]. *)
Record PublicUser := mkPublic {
  pub_id : ObjectId;
  pub_email : string;
  pub_username : string;
  pub_fullName : string;
}.

Definition select (u : ObjectId * UserDoc) : PublicUser :=
  {| pub_id := _id u; pub_email := email (snd u);
     pub_username := username (snd u); pub_fullName := fullName (snd u) |}.

#[warnings="-register-all"]
Inductive Value :=
  | VUndefined
  | VNull
  | VToken (t : Token)
  | VUser (u : PublicUser)
  | VTask (t : ObjectId * TaskDoc)
  | VObject (fields : list (string * Value)).

Record CookieOptions := mkOptions {
  httpOnly : bool;
  secure : bool;
  sameSite : option string;
  maxAge : option N;
  domain : option string;
}.

Record Cookie := mkCookie {
  cookie_name : string;
  cookie_value : Value;
  cookie_options : CookieOptions;
}.

(** [new ApiResponse(statusCode, data, message)] *)
Record ApiResponse := mkApiResponse {
  statusCode : N;
  data : Value;
  message : string;
}.

Record Response := mkResponse {
  res_status : N;
  res_cookies : list Cookie;
  res_json : ApiResponse;
}.

(** ** A monad for handlers: the database is threaded through, and a thrown
    error keeps the writes made before it. *)

Definition M (A : Type) : Type := Db -> (Thrown + A) * Db.

Definition ret {A} (a : A) : M A := fun db => (inr a, db).

Definition throw {A} (e : Thrown) : M A := fun db => (inl e, db).

Definition bind {A B} (m : M A) (k : A -> M B) : M B :=
  fun db =>
    match m db with
    | (inl e, db') => (inl e, db')
    | (inr a, db') => k a db'
    end.

(** [try { body } catch (error) { handler(error) }] *)
Definition tryCatch {A} (body : M A) (handler : Thrown -> M A) : M A :=
  fun db =>
    match body db with
    | (inl e, db') => handler e db'
    | (inr a, db') => (inr a, db')
    end.

Definition gets {A} (f : Db -> A) : M A := fun db => (inr (f db), db).

Definition modify (f : Db -> Db) : M unit := fun db => (inr tt, f db).

Declare Scope handler_scope.
Delimit Scope handler_scope with handler.
Notation "'let*' x ':=' m 'in' k" := (bind m (fun x => k))
  (at level 10, x name, m at level 100, k at level 200) : handler_scope.

Definition succeeded {A} (r : (Thrown + A) * Db) : bool :=
  match fst r with inr _ => true | inl _ => false end.

Definition failsWith {A} (code : N) (r : (Thrown + A) * Db) : Prop :=
  exists msg, fst r = inl (ApiError code msg).

(** ** Requests *)

Record Body := mkBody {
  b_email : option string;
  b_username : option string;
  b_fullName : option string;
  b_password : option string;
  b_oldPassword : option string;
  b_newPassword : option string;
  b_refreshToken : option TokenString;
  b_token : option TokenString;
  b_title : option string;
  b_description : option string;
  b_status : option string;
  b_dueDate : option string;
  b_priority : option string;
}.

Definition emptyBody : Body :=
  mkBody None None None None None None None None None None None None None.

Record Request := mkRequest {
  body : Body;
  (** [req.cookies.refreshToken] *)
  cookie_refreshToken : option TokenString;
  (** [req.header("Authorization")] once its first ["Bearer "] is removed *)
  header_bearer : option TokenString;
  (** [req.params.id] *)
  params_id : string;
  (** [req.user], set by the [verifyJWT] middleware *)
  user : option PublicUser;
}.

Definition emptyRequest : Request := mkRequest emptyBody None None "" None.

(** The request as [verifyJWT] hands it on for an authenticated caller. *)
Definition calledBy (who : PublicUser) (req : Request) : Request :=
  {| body := body req; cookie_refreshToken := cookie_refreshToken req;
     header_bearer := header_bearer req; params_id := params_id req;
     user := Some who |}.

(** Truthiness of a token-carrying field, and [a || b] on such fields. *)
Definition truthyTok (f : option TokenString) : bool :=
  match f with
  | None => false
  | Some (Undecodable raw) => JS.truthyStr raw
  | Some (Encoded _) => true
  end.

Definition orTok (a b : option TokenString) : option TokenString :=
  if truthyTok a then a else b.

Inductive Variant := V1 | V2.

(** ** user.controller.js *)

Module UserController.
Section Handlers.
Context `{!Platform}.
Variable cfg : Config.

Local Open Scope handler_scope.

(** *** The [User] model as the controller uses it *)

Definition User_findById (id : ObjectId) : M (option (ObjectId * UserDoc)) :=
  gets (fun db => (fun d => (id, d)) <$> users db !! id).

(** [User.findOne(filter)]: the first document of the collection that the
    filter selects. *)
Definition User_findOne (selects : ObjectId * UserDoc -> bool)
  : M (option (ObjectId * UserDoc)) :=
  gets (fun db => List.find selects (map_to_list (users db))).

(** A condition [{ path: value }] of a filter.  Every stored document has
    the path, so an [undefined] value selects none. *)
Definition pathIs (p : UserPath) (value : option string) (d : ObjectId * UserDoc) : bool :=
  match value with
  | None => false
  | Some v =>
      String.eqb
        (match p with
         | PEmail => email (snd d)
         | PUsername => username (snd d)
         | PFullName => fullName (snd d)
         end)
        (schemaCast p v)
  end.

(** A document with one path assigned. *)
Definition withRefreshToken (tok : option TokenString) (d : UserDoc) : UserDoc :=
  {| email := email d; username := username d; fullName := fullName d;
     password := password d; refreshToken := tok |}.

Definition withPassword (hash : string) (d : UserDoc) : UserDoc :=
  {| email := email d; username := username d; fullName := fullName d;
     password := hash; refreshToken := refreshToken d |}.

(** [user.save({ validateBeforeSave: false })] after an assignment to one
    path, and [findByIdAndUpdate] of one path: the path is written to the
    stored document, whatever the other paths hold by then. *)
Definition save_refreshToken (id : ObjectId) (tok : option TokenString) : M unit :=
  modify (set_users (alter (withRefreshToken tok) id)).

Definition save_password (id : ObjectId) (hash : string) : M unit :=
  modify (set_users (alter (withPassword hash) id)).

(** Modelled from the spec: [User.create] runs the schema of
    [user.model.js], which is not among the sources embedded here.
    "[Register(email, username, display_name, plaintext_password)] ... stores
    a freshly salted-and-hashed credential": a document needs all four
    values, the stored password is the hash, and no refresh token is set.
    The collection picks an [_id] it does not hold yet. *)
Definition User_create (salt : N) (e : option string) (u : string)
    (f p : option string) : M (ObjectId * UserDoc) :=
  match e, f, p with
  | Some e, Some f, Some p =>
      fun db =>
        let candidate :=
          {| email := schemaCast PEmail e; username := schemaCast PUsername u;
             fullName := schemaCast PFullName f; password := p;
             refreshToken := None |} in
        match schemaRejects (users db) candidate with
        | Some msg => (inl (JsError "MongooseError" msg), db)
        | None =>
            let id := fresh (dom (users db)) in
            let doc :=
              {| email := email candidate; username := username candidate;
                 fullName := fullName candidate; password := hashPassword salt p;
                 refreshToken := None |} in
            (inr (id, doc), set_users (insert id doc) db)
        end
  | _, _, _ => throw (JsError "ValidationError" "User validation failed")
  end.

(** [user.isPasswordCorrect(candidate)] *)
Definition isPasswordCorrect (u : ObjectId * UserDoc) (candidate : option string) : M bool :=
  match candidate with
  | Some c => ret (comparePassword (password (snd u)) c)
  | None => throw (JsError "Error" "data and hash arguments required")
  end.

(** The document [generateAccessAndRefreshToken] leaves for a user. *)
Definition rotated (now : Time) (who : ObjectId) (doc : UserDoc) : UserDoc :=
  withRefreshToken (Some (Encoded (TokenCodec.mint cfg who Refresh now))) doc.

(** *** Lines 8-28 and 328-348 *)

Definition generateAccessAndRefreshToken (now : Time) (userId : ObjectId)
  : M (Token * Token) :=
  tryCatch
    ((* [User.findOne(userId)]: an ObjectId given as the filter selects by [_id] *)
     let* found := User_findById userId in
     match found with
     | None => throw (JsError "TypeError" "Cannot read properties of null")
     | Some user =>
         let accessToken := TokenCodec.mint cfg (_id user) Access now in
         let refreshToken := TokenCodec.mint cfg (_id user) Refresh now in
         let* _ := save_refreshToken (_id user) (Some (Encoded refreshToken)) in
         ret (accessToken, refreshToken)
     end)
    (fun _ => throw (ApiError 500
       "Something went wrong while generating refresh and access token")).

(** *** Lines 31-78 and 351-389 *)

Definition fillAllFields (fields : list (option string)) : bool :=
  existsb JS.trimsToEmpty fields.

(** The filter [{ $or: [{ email }, { username }] }]. *)
Definition emailOrUsername (b : Body) (d : ObjectId * UserDoc) : bool :=
  pathIs PEmail (b_email b) d || pathIs PUsername (b_username b) d.

Definition fieldsMissing : Thrown := ApiError 400 "Please fill all the fields".

Definition alreadyExists : Thrown :=
  ApiError 400 "User with email or username already exists".

(** From [User.create] to the response. *)
Definition createAndRespond (v : Variant) (salt : N) (b : Body) (u : string) : M Response :=
  let* created :=
    User_create salt (b_email b) (JS.toLowerCase (JS.trim u))
                (b_fullName b) (b_password b) in
  let* createdUser := User_findById (_id created) in
  match createdUser with
  | None => throw (ApiError 500 "User creation failed")
  | Some cu =>
      match v with
      | V1 =>
          (* the response names [accessToken] and [refreshToken], which
             this handler does not declare *)
          throw (JsError "ReferenceError" "accessToken is not defined")
      | V2 =>
          ret {| res_status := 200; res_cookies := [];
                 res_json := mkApiResponse 200 (VUser (select cu))
                               "User created successfully" |}
      end
  end.

Definition usernameMissing : Thrown :=
  JsError "TypeError" "Cannot read properties of undefined (reading 'trim')".

Definition registerUser (v : Variant) (salt : N) (req : Request) : M Response :=
  let b := body req in
  if fillAllFields [b_email b; b_username b; b_fullName b; b_password b]
  then throw fieldsMissing
  else
    let* existingUser := User_findOne (emailOrUsername b) in
    match existingUser with
    | Some _ => throw alreadyExists
    | None =>
        match b_username b with
        | None => throw usernameMissing
        | Some u => createAndRespond v salt b u
        end
    end.

(** The fields the validation of [registerUser] looks at. *)
Definition registrationFields (b : Body) : list (option string) :=
  [b_email b; b_username b; b_fullName b; b_password b].

(** The account the duplicate check finds, if any. *)
Definition existingUser (b : Body) (db : Db) : option (ObjectId * UserDoc) :=
  List.find (emailOrUsername b) (map_to_list (users db)).

(** The document [User.create] stores for a registration. *)
Definition newUser (salt : N) (e u f p : string) : UserDoc :=
  {| email := schemaCast PEmail e;
     username := schemaCast PUsername (JS.toLowerCase (JS.trim u));
     fullName := schemaCast PFullName f;
     password := hashPassword salt p;
     refreshToken := None |}.

(** *** Lines 81-143 and 392-447 *)

Definition production : bool := String.eqb (NODE_ENV cfg) "production".

Definition sessionCookieOptions (v : Variant) : CookieOptions :=
  match v with
  | V1 => {| httpOnly := true; secure := production;
             sameSite := Some (if production then "none" else "lax");
             maxAge := Some (24 * 60 * 60 * 1000);
             domain := if production then None else Some "localhost" |}
  | V2 => {| httpOnly := true; secure := true;
             sameSite := None; maxAge := None; domain := None |}
  end.

(** The credential the revision looks the account up by. *)
Definition loginIdentifier (v : Variant) (b : Body) : option string :=
  match v with V1 => b_username b | V2 => b_email b end.

Definition loginPath (v : Variant) : UserPath :=
  match v with V1 => PUsername | V2 => PEmail end.

Definition credentialsMissing (v : Variant) : Thrown :=
  ApiError 400 match v with
               | V1 => "Please provide username and password"
               | V2 => "Please provide email and password"
               end.

Definition noSuchAccount (v : Variant) : Thrown :=
  ApiError 401 match v with
               | V1 => "Invalid username or password"
               | V2 => "Invalid email or password"
               end.

Definition wrongPassword : Thrown := ApiError 401 "Invalid Credentials".

Definition loginResponse (v : Variant) (profile : Value) (accessToken refreshToken : Token)
  : Response :=
  let options := sessionCookieOptions v in
  {| res_status := 200;
     res_cookies := [ mkCookie "accessToken" (VToken accessToken) options;
                      mkCookie "refreshToken" (VToken refreshToken) options ];
     res_json := mkApiResponse 200
       match v with
       | V1 => VObject [ ("user", profile);
                         ("token", VToken accessToken);
                         ("accessToken", VToken accessToken);
                         ("refreshToken", VToken refreshToken) ]
       | V2 => VObject [ ("user", profile) ]
       end
       "User logged In Successfully" |}.

Definition loginUser (v : Variant) (now : Time) (req : Request) : M Response :=
  let b := body req in
  let identifier := loginIdentifier v b in
  if JS.falsy identifier || JS.falsy (b_password b)
  then throw (credentialsMissing v)
  else if fillAllFields [identifier; b_password b]
  then throw fieldsMissing
  else
    let* found := User_findOne (pathIs (loginPath v) identifier) in
    match found with
    | None => throw (noSuchAccount v)
    | Some user =>
        let* isCorrect := isPasswordCorrect user (b_password b) in
        if negb isCorrect then throw wrongPassword
        else
          let* tokens := generateAccessAndRefreshToken now (_id user) in
          let* loggedInUser := User_findById (_id user) in
          let profile := match loggedInUser with
                         | Some u => VUser (select u)
                         | None => VNull
                         end in
          ret (loginResponse v profile (fst tokens) (snd tokens))
    end.

(** The request names both credentials and neither is blank. *)
Definition credentialsGiven (v : Variant) (req : Request) : Prop :=
  JS.falsy (loginIdentifier v (body req)) || JS.falsy (b_password (body req)) = false
  /\ fillAllFields [loginIdentifier v (body req); b_password (body req)] = false.

(** The account the login request selects, if any. *)
Definition accountOf (v : Variant) (req : Request) (db : Db) : option (ObjectId * UserDoc) :=
  List.find (pathIs (loginPath v) (loginIdentifier v (body req))) (map_to_list (users db)).

(** *** Lines 146-179 and 450-483 *)

Definition clearedCookieOptions : CookieOptions :=
  {| httpOnly := true; secure := true;
     sameSite := None; maxAge := None; domain := None |}.

Definition logoutUser (req : Request) : M Response :=
  match user req with
  | None => throw (JsError "TypeError" "Cannot read properties of undefined (reading '_id')")
  | Some reqUser =>
      let userId := pub_id reqUser in
      let* found := User_findById userId in
      match found with
      | None => throw (ApiError 401 "User not found")
      | Some _ =>
          (* [findByIdAndUpdate(userId, { $unset: { refreshToken: 1 } })] *)
          let* _ := save_refreshToken userId None in
          ret {| res_status := 200;
                 res_cookies := [ mkCookie "accessToken" VNull clearedCookieOptions;
                                  mkCookie "refreshToken" VNull clearedCookieOptions ];
                 res_json := mkApiResponse 200 (VObject [])
                               "User logged out successfully" |}
      end
  end.

(** *** Lines 182-233 and 486-541 *)

Definition incomingRefreshToken (v : Variant) (req : Request) : option TokenString :=
  match v with
  | V1 => orTok (cookie_refreshToken req)
            (orTok (b_refreshToken (body req))
               (orTok (b_token (body req)) (header_bearer req)))
  | V2 => orTok (cookie_refreshToken req) (b_refreshToken (body req))
  end.

(** [jwt.verify(incomingRefreshToken, process.env.REFRESH_TOKEN_SECRET)] *)
Definition jwt_verify (now : Time) (incoming : option TokenString) : M Token :=
  match incoming with
  | None => throw (JwtError TokenCodec.Malformed)
  | Some s =>
      match TokenCodec.validate cfg s Refresh now with
      | inl k => throw (JwtError k)
      | inr t => ret t
      end
  end.

(** The error thrown when no token is presented. *)
Definition noTokenPresented (v : Variant) : Thrown :=
  ApiError 401 match v with
               | V1 => "Unauthorized request"
               | V2 => "Please login to access this resource"
               end.

Definition userNotFound (v : Variant) : Thrown :=
  ApiError 401 match v with
               | V1 => "Invalid refresh token"
               | V2 => "User not found"
               end.

Definition tokenNotCurrent (v : Variant) : Thrown :=
  ApiError 401 match v with
               | V1 => "Refresh token is expired or used"
               | V2 => "Invalid or expired refresh token"
               end.

(** The [catch (error)] clause around the body of the handler. *)
Definition catchClause (v : Variant) (error : Thrown) : Thrown :=
  ApiError 401
    match v with
    | V1 => JS.orStr (thrownMessage error) "Invalid refresh token"
    | V2 => "Invalid refresh token " ++ thrownMessage error
    end.

Definition refreshResponse (v : Variant) (accessToken refreshToken : Token) : Response :=
  let options := sessionCookieOptions v in
  match v with
  | V1 =>
      let newRefreshToken := VToken refreshToken in
      {| res_status := 200;
         res_cookies := [ mkCookie "accessToken" (VToken accessToken) options;
                          mkCookie "refreshToken" newRefreshToken options ];
         res_json := mkApiResponse 200
           (VObject [ ("accessToken", VToken accessToken);
                      ("refreshToken", newRefreshToken);
                      ("token", VToken accessToken) ])
           "Access token refreshed" |}
  | V2 =>
      (* the result of [generateAccessAndRefreshToken] is destructured as
         [{ accessToken, newRefreshToken }]; it has no such property *)
      let newRefreshToken := VUndefined in
      {| res_status := 200;
         res_cookies := [ mkCookie "accessToken" (VToken accessToken) options;
                          mkCookie "refreshToken" newRefreshToken options ];
         res_json := mkApiResponse 200
           (VObject [ ("accessToken", VToken accessToken);
                      ("newRefreshToken", newRefreshToken) ])
           "Access token refreshed successfully" |}
  end.

Definition refreshAccessToken (v : Variant) (now : Time) (req : Request) : M Response :=
  let incoming := incomingRefreshToken v req in
  if negb (truthyTok incoming) then throw (noTokenPresented v)
  else
    tryCatch
      (let* decodedToken := jwt_verify now incoming in
       let* found := User_findById (subject (payload decodedToken)) in
       match found with
       | None => throw (userNotFound v)
       | Some user =>
           if negb (bool_decide (refreshToken (snd user) = incoming))
           then throw (tokenNotCurrent v)
           else
             let* tokens := generateAccessAndRefreshToken now (_id user) in
             ret (refreshResponse v (fst tokens) (snd tokens))
       end)
      (fun error => throw (catchClause v error)).

(** *** Lines 236-261 and 544-569 *)

Definition changeUserPassword (salt : N) (req : Request) : M Response :=
  let oldPassword := b_oldPassword (body req) in
  let newPassword := b_newPassword (body req) in
  match user req with
  | None => throw (JsError "TypeError" "Cannot read properties of undefined (reading '_id')")
  | Some reqUser =>
      let* found := User_findById (pub_id reqUser) in
      match found with
      | None => throw (JsError "TypeError" "Cannot read properties of null")
      | Some user =>
          let* isCorrect := isPasswordCorrect user oldPassword in
          if negb isCorrect then throw (ApiError 401 "Invalid old password")
          else if bool_decide (oldPassword = newPassword)
          then throw (ApiError 400 "New password cannot be same as old password")
          else
            match newPassword with
            | None => throw (JsError "Error" "data and salt arguments required")
            | Some plaintext =>
                (* [user.password = newPassword], hashed when saved *)
                let* _ := save_password (_id user) (hashPassword salt plaintext) in
                ret {| res_status := 200; res_cookies := [];
                       res_json := mkApiResponse 200 (VObject [])
                                     "Password changed successfully" |}
            end
      end
  end.

End Handlers.
End UserController.

(** ** task.controller.js: the handlers of [/:id] and [/status/:id] *)

Module TaskController.
Section Handlers.
Context `{!Platform}.

Local Open Scope handler_scope.

Definition statusValues : list string := ["pending"; "in-progress"; "completed"].
Definition priorityValues : list string := ["High"; "Medium"; "Low"].

(** [values.includes(x)] *)
Definition includes (values : list string) (x : string) : bool :=
  existsb (String.eqb x) values.

(** [field && !values.includes(field)] *)
Definition invalidChoice (values : list string) (field : option string) : bool :=
  match field with
  | Some x => JS.truthyStr x && negb (includes values x)
  | None => false
  end.

(** [status || "pending"] *)
Definition statusOrPending (field : option string) : string :=
  match field with
  | Some x => JS.orStr x "pending"
  | None => "pending"
  end.

(** The cast of [req.params.id] that every query by [_id] starts with. *)
Definition castId (taskId : string) : M ObjectId :=
  match castObjectId taskId with
  | Some oid => ret oid
  | None => throw (JsError "CastError" "Cast to ObjectId failed")
  end.

Definition Task_findById (taskId : string) : M (option (ObjectId * TaskDoc)) :=
  let* oid := castId taskId in
  gets (fun db => (fun d => (oid, d)) <$> tasks db !! oid).

(** The cast of a [dueDate] to the [Date] of the schema: whether the
    string is one the cast takes. *)
Variable dateAccepted : string -> bool.

(** The cast of the update document of [updateTaskById] to the schema.
    [dueDate] is its one path that is not a [String]: the document casts
    when the request carries no [dueDate] or one the [Date] cast takes. *)
Definition updateCasts (b : Body) : bool :=
  match b_dueDate b with
  | Some due => dateAccepted due
  | None => true
  end.

(** The update document of [updateTaskById] applied to a task: a path
    whose value is [undefined] is left as it is, and the string paths are
    trimmed as the schema says.  A [dueDate] that casts is kept as the
    string the request carried (an empty one stands for the [null] the
    cast makes of it). *)
Definition applyUpdate (b : Body) (t : TaskDoc) : TaskDoc :=
  {| title := match b_title b with Some x => JS.trim x | None => title t end;
     description := match b_description b with
                    | Some x => Some (JS.trim x)
                    | None => description t
                    end;
     status := statusOrPending (b_status b);
     priority := default (priority t) (b_priority b);
     dueDate := default (dueDate t) (b_dueDate b);
     userId := userId t |}.

(** [Task.findByIdAndUpdate(taskId, update, { new: true })]: the [_id] and
    then the update document are cast before anything is sent to the
    collection, and either cast throws a [CastError]. *)
Definition Task_findByIdAndUpdate (taskId : string) (b : Body)
  : M (option (ObjectId * TaskDoc)) :=
  let* oid := castId taskId in
  if negb (updateCasts b) then throw (JsError "CastError" "Cast to date failed")
  else
    let* _ := modify (set_tasks (alter (applyUpdate b) oid)) in
    gets (fun db => (fun d => (oid, d)) <$> tasks db !! oid).

Definition Task_findByIdAndDelete (taskId : string)
  : M (option (ObjectId * TaskDoc)) :=
  let* oid := castId taskId in
  let* found := gets (fun db => (fun d => (oid, d)) <$> tasks db !! oid) in
  let* _ := modify (set_tasks (delete oid)) in
  ret found.

Definition setStatus (s : option string) (t : TaskDoc) : TaskDoc :=
  {| title := title t; description := description t;
     status := default (status t) s;
     priority := priority t; dueDate := dueDate t; userId := userId t |}.

(** [Task.findOneAndUpdate({ userId, _id }, { status }, { new: true })] *)
Definition Task_findOneAndUpdate (owner : ObjectId) (taskId : string)
    (s : option string) : M (option (ObjectId * TaskDoc)) :=
  let* oid := castId taskId in
  let* found := gets (fun db => tasks db !! oid) in
  match found with
  | Some t =>
      if bool_decide (userId t = owner)
      then
        let* _ := modify (set_tasks (insert oid (setStatus s t))) in
        ret (Some (oid, setStatus s t))
      else ret None
  | None => ret None
  end.

Definition notAuthenticated (msg : string) : Thrown := ApiError 401 msg.

(** The body passes the three checks [updateTaskById] makes before it
    touches the collection. *)
Definition updateAccepted (b : Body) : bool :=
  negb (JS.falsy (b_title b) && JS.falsy (b_dueDate b) && JS.falsy (b_priority b))
  && negb (invalidChoice statusValues (b_status b))
  && negb (invalidChoice priorityValues (b_priority b)).

Definition respond (code : N) (payload : Value) (msg : string) : Response :=
  {| res_status := code; res_cookies := [];
     res_json := mkApiResponse code payload msg |}.

(** *** Lines 122-144 *)

Definition getTaskById (req : Request) : M Response :=
  if negb (bool_decide (is_Some (user req)))
  then throw (notAuthenticated "User not authenticated.")
  else
    let taskId := params_id req in
    if negb (JS.truthyStr taskId) then throw (ApiError 400 "Task ID is required.")
    else
      let* task := Task_findById taskId in
      match task with
      | None => throw (ApiError 404 "Task not found.")
      | Some t =>
          ret {| res_status := 200; res_cookies := [];
                 res_json := mkApiResponse 200 (VTask t) "Task retrieved successfully." |}
      end.

(** *** Lines 147-197 *)

Definition updateTaskById (req : Request) : M Response :=
  if negb (bool_decide (is_Some (user req)))
  then throw (notAuthenticated "User not authenticated.")
  else
    let taskId := params_id req in
    if negb (JS.truthyStr taskId) then throw (ApiError 400 "Task ID is required.")
    else
      let b := body req in
      if JS.falsy (b_title b) && JS.falsy (b_dueDate b) && JS.falsy (b_priority b)
      then throw (ApiError 400 "At least one field is required to update.")
      else if invalidChoice statusValues (b_status b)
      then throw (ApiError 400 "Invalid status value.")
      else if invalidChoice priorityValues (b_priority b)
      then throw (ApiError 400 "Invalid priority value.")
      else
        let* task := Task_findByIdAndUpdate taskId b in
        match task with
        | None => throw (ApiError 404 "Task not found.")
        | Some t =>
            ret {| res_status := 200; res_cookies := [];
                   res_json := mkApiResponse 200 (VTask t) "Task updated successfully." |}
        end.

(** *** Lines 200-217 *)

Definition deleteTaskById (req : Request) : M Response :=
  if negb (bool_decide (is_Some (user req)))
  then throw (notAuthenticated "User not authenticated.")
  else
    let taskId := params_id req in
    if negb (JS.truthyStr taskId) then throw (ApiError 400 "Task ID is required.")
    else
      let* _ := Task_findByIdAndDelete taskId in
      ret {| res_status := 200; res_cookies := [];
             res_json := mkApiResponse 200 (VObject []) "Task deleted successfully." |}.

(** *** Lines 219-251 *)

Definition updateTaskStatus (req : Request) : M Response :=
  let newStatus := b_status (body req) in
  let userId := params_id req in
  match user req with
  | None => throw (notAuthenticated "User not authenticated")
  | Some reqUser =>
      let* task := Task_findOneAndUpdate (pub_id reqUser) userId newStatus in
      match task with
      | None => throw (ApiError 404 "Task not found.")
      | Some t =>
          ret {| res_status := 200; res_cookies := [];
                 res_json := mkApiResponse 200 (VTask t) "Task status updated." |}
      end
  end.

End Handlers.
End TaskController.

(** ** Overlapping refresh requests

    Node runs a handler without interruption up to its next [await]; the
    awaited database operation is atomic, and other requests may run before
    the handler resumes.  [refreshAccessToken] awaits three operations:
    [User.findById], then, inside [generateAccessAndRefreshToken],
    [User.findOne] and [user.save].  A step below is one of these operations
    together with the uninterrupted code around it, which only touches the
    handler's own variables. *)

Module Overlap.
Section Steps.
Context `{!Platform}.
Variable cfg : Config.

Import UserController.

Inductive Progress :=
  | Pending                      (* the request has arrived *)
  | Checked (userId : ObjectId)  (* the presented token was found current *)
  | Loaded (userId : ObjectId)   (* the user was read again, to be saved *)
  | Finished (outcome : Thrown + Response).

Definition generationFailed : Thrown :=
  ApiError 500 "Something went wrong while generating refresh and access token".

Definition step (v : Variant) (now : Time) (req : Request) (at_ : Progress) (db : Db)
  : Progress * Db :=
  match at_ with
  | Pending =>
      let incoming := incomingRefreshToken v req in
      if negb (truthyTok incoming) then (Finished (inl (noTokenPresented v)), db)
      else
        match jwt_verify cfg now incoming db with
        | (inl error, _) => (Finished (inl (catchClause v error)), db)
        | (inr decodedToken, _) =>
            (* await User.findById(decodedToken?._id) *)
            match users db !! subject (payload decodedToken) with
            | None => (Finished (inl (catchClause v (userNotFound v))), db)
            | Some doc =>
                if negb (bool_decide (refreshToken doc = incoming))
                then (Finished (inl (catchClause v (tokenNotCurrent v))), db)
                else (Checked (subject (payload decodedToken)), db)
            end
        end
  | Checked userId =>
      (* await User.findOne(userId) *)
      match users db !! userId with
      | None => (Finished (inl (catchClause v generationFailed)), db)
      | Some _ => (Loaded userId, db)
      end
  | Loaded userId =>
      let accessToken := TokenCodec.mint cfg userId Access now in
      let refreshToken := TokenCodec.mint cfg userId Refresh now in
      (* user.refreshToken = refreshToken; await user.save(...) *)
      (Finished (inr (refreshResponse cfg v accessToken refreshToken)),
       snd (save_refreshToken userId (Some (Encoded refreshToken)) db))
  | Finished outcome => (Finished outcome, db)
  end.

(** Two requests in flight, and the database they share. *)
Record Flight := mkFlight {
  shared : Db;
  first : Progress;
  second : Progress;
}.

Inductive Turn := FirstRuns | SecondRuns.

Definition advance (v : Variant) (now1 now2 : Time) (req1 req2 : Request)
    (t : Turn) (f : Flight) : Flight :=
  match t with
  | FirstRuns =>
      let next := step v now1 req1 (first f) (shared f) in
      {| shared := snd next; first := fst next; second := second f |}
  | SecondRuns =>
      let next := step v now2 req2 (second f) (shared f) in
      {| shared := snd next; first := first f; second := fst next |}
  end.

Fixpoint schedule (v : Variant) (now1 now2 : Time) (req1 req2 : Request)
    (turns : list Turn) (f : Flight) : Flight :=
  match turns with
  | [] => f
  | t :: rest => schedule v now1 now2 req1 req2 rest (advance v now1 now2 req1 req2 t f)
  end.

Definition answered (p : Progress) : bool :=
  match p with
  | Finished (inr _) => true
  | _ => false
  end.

Definition refused (p : Progress) : Prop :=
  exists msg, p = Finished (inl (ApiError 401 msg)).

(** Both requests have just arrived. *)
Definition arrival (db : Db) : Flight :=
  {| shared := db; first := Pending; second := Pending |}.

(** The first request runs to its end before the second starts. *)
Definition inTurn : list Turn :=
  [FirstRuns; FirstRuns; FirstRuns; SecondRuns; SecondRuns; SecondRuns].

(** The two requests take their steps alternately. *)
Definition alternately : list Turn :=
  [FirstRuns; SecondRuns; FirstRuns; SecondRuns; FirstRuns; SecondRuns].

(** A request that runs alone, from arrival to its outcome. *)
Definition alone (v : Variant) (now : Time) (req : Request) (db : Db) : Progress * Db :=
  let s1 := step v now req Pending db in
  let s2 := step v now req (fst s1) (snd s1) in
  step v now req (fst s2) (snd s2).

End Steps.
End Overlap.

(** ** Sequences of session operations *)

Module Session.
Section Ops.
Context `{!Platform}.
Variable cfg : Config.

Import UserController.




(** The request that presents a token in the [refreshToken] cookie. *)
Definition presenting (tok : TokenString) : Request :=
  {| body := emptyBody; cookie_refreshToken := Some tok;
     header_bearer := None; params_id := ""; user := None |}.

(** A refresh token is accepted in a database when the refresh request
    presenting it is answered with tokens. *)
Definition accepts (v : Variant) (now : Time) (db : Db) (tok : TokenString) : bool :=
  succeeded (refreshAccessToken cfg v now (presenting tok) db).

(** The identity a presented token speaks for. *)
Definition identityOf (tok : TokenString) : option ObjectId :=
  match tok with
  | Encoded t => Some (subject (payload t))
  | Undecodable _ => None
  end.

Definition storedToken (db : Db) (who : ObjectId) : option TokenString :=
  users db !! who ≫= refreshToken.



End Ops.
End Session.

(** ** A small platform, to run the handlers on examples *)

Module Demo.

Fixpoint digits (acc : N) (s : string) : option N :=
  match s with
  | EmptyString => Some acc
  | String c rest =>
      let n := N_of_ascii c in
      if (48 <=? n) && (n <=? 57) then digits (10 * acc + (n - 48)) rest else None
  end.

Definition parseId (s : string) : option ObjectId :=
  match s with
  | EmptyString => None
  | _ => digits 0 s
  end.

(** What follows the first ["$"] of a string. *)
Fixpoint afterDollar (s : string) : string :=
  match s with
  | EmptyString => EmptyString
  | String c rest => if Ascii.eqb c "$" then rest else afterDollar rest
  end.

Definition classTag (c : TokenClass) : string :=
  match c with Access => "A" | Refresh => "R" end.

#[local] Instance platform : Platform := {|
  sign key p := key ++ "." ++ classTag (class p) ++ pretty (subject p)
                    ++ "." ++ pretty (issued_at p) ++ "." ++ pretty (expires_at p);
  hashPassword salt plaintext := "$" ++ pretty salt ++ "$" ++ plaintext;
  comparePassword stored candidate :=
    String.eqb (afterDollar (afterDollar stored)) candidate;
  schemaCast p value :=
    match p with
    | PEmail | PUsername => JS.toLowerCase (JS.trim value)
    | PFullName => JS.trim value
    end;
  schemaRejects _ _ := None;
  castObjectId := parseId;
  castObjectId_empty := eq_refl;
|}.

Definition config : Config :=
  {| NODE_ENV := "development"; signing_key := "s3cret";
     access_ttl := 900; refresh_ttl := 86400 |}.

Definition alice : UserDoc :=
  {| email := "alice@x.com"; username := "alice"; fullName := "Alice";
     password := "$1$secret123"; refreshToken := None |}.

Definition bob : UserDoc :=
  {| email := "bob@x.com"; username := "bob"; fullName := "Bob";
     password := "$2$hunter2"; refreshToken := None |}.

Definition noDocuments : Db := {| users := ∅; tasks := ∅ |}.

Definition twoUsers : Db :=
  {| users := <[1 := alice]> (<[2 := bob]> ∅); tasks := ∅ |}.

Definition asUser (id : ObjectId) (u : UserDoc) : PublicUser := select (id, u).

(** Bodies and requests of the user routes. *)
Definition profile (e u f p : option string) : Body :=
  mkBody e u f p None None None None None None None None None.

Definition passwords (old new : option string) : Body :=
  mkBody None None None None old new None None None None None None None.

Definition anonymous (b : Body) : Request := mkRequest b None None "" None.

Definition authenticated (who : PublicUser) (b : Body) : Request :=
  mkRequest b None None "" (Some who).

(** A task of Bob's, and a request of the task routes about it. *)
Definition bobsTask : TaskDoc :=
  {| title := "Pay rent"; description := None; status := "pending";
     priority := "High"; dueDate := "2026-01-31"; userId := 2 |}.

Definition oneTask : Db :=
  {| users := <[1 := alice]> (<[2 := bob]> ∅); tasks := <[10 := bobsTask]> ∅ |}.

Definition retitle : Body :=
  mkBody None None None None None None None None
         (Some "Pay the rent") None (Some "completed") None None.

Definition aboutTask10 : Request := mkRequest retitle None None "10" None.

(** Alice holds the refresh token of a login at time 100. *)
Definition aliceToken : Token := TokenCodec.mint config 1 Refresh 100.

Definition aliceLoggedIn : Db :=
  {| users := <[1 := UserController.withRefreshToken (Some (Encoded aliceToken)) alice]>
                (<[2 := bob]> ∅);
     tasks := ∅ |}.

End Demo.

(** ** task.controller.js: creating and listing tasks *)

Module TaskCreation.
Section Handlers.
Context `{!Platform}.

Import TaskController.

Local Open Scope handler_scope.

(** The cast of a [dueDate] to the [Date] of the schema: whether the
    string is one the cast takes. *)
Variable dateAccepted : string -> bool.

Definition validationFailed : Thrown :=
  JsError "ValidationError" "Task validation failed".

(** [Task.create] under [src/models/task.model.js]: the string paths are
    trimmed as they are set; then [title] must not be empty, [status] and
    [priority] must be among the values of their [enum], and [dueDate]
    must cast.  The collection picks an [_id] it does not hold yet. *)
Definition Task_create (t : string) (d : option string) (s p due : string)
    (owner : ObjectId) : M (ObjectId * TaskDoc) :=
  fun db =>
    let doc := {| title := JS.trim t; description := JS.trim <$> d;
                  status := s; priority := p; dueDate := due; userId := owner |} in
    if String.eqb (title doc) ""
       || negb (includes statusValues s)
       || negb (includes priorityValues p)
       || negb (dateAccepted due)
    then (inl validationFailed, db)
    else
      let id := fresh (dom (tasks db)) in
      (inr (id, doc), set_tasks (insert id doc) db).

Definition requiredMissing : Thrown :=
  ApiError 400 "Title, due date, and priority are required.".

(** *** Lines 8-49 *)

Definition createTask (req : Request) : M Response :=
  let b := body req in
  if JS.falsy (b_title b) || JS.falsy (b_dueDate b) || JS.falsy (b_priority b)
  then throw requiredMissing
  else if invalidChoice statusValues (b_status b)
  then throw (ApiError 400 "Invalid status value.")
  else if invalidChoice priorityValues (b_priority b)
  then throw (ApiError 400 "Invalid priority value.")
  else
    match user req with
    | None => throw (notAuthenticated "User not authenticated.")
    | Some reqUser =>
        (* the three fields are present here: they are truthy *)
        let* task := Task_create (default "" (b_title b)) (b_description b)
                       (statusOrPending (b_status b))
                       (default "" (b_priority b)) (default "" (b_dueDate b))
                       (pub_id reqUser) in
        ret (respond 201 (VTask task) "Task created successfully.")
    end.

(** Every task of the collection has a [status] and a [priority] among
    the values of the schema. *)
Definition wellFormedTask (t : TaskDoc) : Prop :=
  includes statusValues (status t) = true
  /\ includes priorityValues (priority t) = true.

Definition wellFormedTasks (db : Db) : Prop :=
  forall id t, tasks db !! id = Some t -> wellFormedTask t.

End Handlers.
End TaskCreation.

(** ** The first revision of [getAllTasks]: all tasks of the caller *)

Module TaskListing.
Section Handlers.
Context `{!Platform}.

Import TaskController.

Local Open Scope handler_scope.

(** The answer of a route that lists tasks. *)
Record Listing := mkListing {
  listing_status : N;
  listing_tasks : list (ObjectId * TaskDoc);
  listing_message : string;
}.

(** [Task.find({ userId })]: the documents of that owner, in the order of
    the collection. *)
Definition Task_findByOwner (owner : ObjectId) : M (list (ObjectId * TaskDoc)) :=
  gets (fun db =>
          List.filter (fun d => bool_decide (userId (snd d) = owner))
                      (map_to_list (tasks db))).

Definition getAllTasks (req : Request) : M Listing :=
  match user req with
  | None => throw (notAuthenticated "User not authenticated.")
  | Some reqUser =>
      let* found := Task_findByOwner (pub_id reqUser) in
      (* [!tasks || tasks.length === 0] *)
      if (length found =? 0)%nat then throw (ApiError 404 "No tasks found.")
      else ret {| listing_status := 200; listing_tasks := found;
                  listing_message := "Tasks retrieved successfully." |}
  end.

End Handlers.
End TaskListing.

(** ** The aggregating revision of [getAllTasks], up to the call of
    [Task.aggregatePaginate] *)

Module TaskAggregation.

(** [parseInt(string)] without a radix: leading white space, a sign, an
    optional [0x] for base 16, then the longest run of digits; [None] is
    [NaN].  The value is the integer read.  JavaScript keeps the double
    nearest to it, which is below 1 exactly when the integer is; the
    handler only compares the number with 1 and hands it on. *)
Definition digitValue (radix : N) (c : ascii) : option N :=
  let n := N_of_ascii c in
  let v := if (48 <=? n) && (n <=? 57) then Some (n - 48)
           else if (97 <=? n) && (n <=? 122) then Some (n - 87)
           else if (65 <=? n) && (n <=? 90) then Some (n - 55)
           else None in
  match v with
  | Some d => if d <? radix then Some d else None
  | None => None
  end.

Fixpoint readDigits (radix : N) (acc : option N) (s : string) : option N :=
  match s with
  | EmptyString => acc
  | String c rest =>
      match digitValue radix c with
      | Some d => readDigits radix (Some (radix * default 0 acc + d)) rest
      | None => acc
      end
  end.

Definition parseInt (s : string) : option Z :=
  let s1 := JS.trimStart s in
  let signed :=
    match s1 with
    | String "-"%char rest => (true, rest)
    | String "+"%char rest => (false, rest)
    | _ => (false, s1)
    end in
  let based :=
    match snd signed with
    | String "0"%char (String "x"%char rest) => (16, rest)
    | String "0"%char (String "X"%char rest) => (16, rest)
    | other => (10, other)
    end in
  match readDigits (fst based) None (snd based) with
  | None => None
  | Some n => Some (if fst signed then (- Z.of_N n)%Z else Z.of_N n)
  end.

(** [req.query] of the route. *)
Record TaskQuery := mkTaskQuery {
  q_page : option string;
  q_limit : option string;
  q_query : option string;
  q_sortByPriority : option string;
  q_sortByStatus : option string;
  q_sortByDueDate : option string;
}.

(** [{ $cond: [{ $eq: ["$path", value] }, hit, miss] }], or a number. *)
Inductive Expr :=
  | Num (n : Z)
  | Cond (path value : string) (hit miss : Expr).

(** [{ userId, $or: [{ title: { $regex, $options: "i" } },
                      { description: { $regex, $options: "i" } }] }] *)
Record MatchQuery := mkMatch {
  match_userId : ObjectId;
  match_regex : option string;
}.

Inductive Stage :=
  | StageMatch (q : MatchQuery)
  | StageAddFields (fields : list (string * Expr))
  | StageSort (criteria : list (string * Z)).

Record Plan := mkPlan {
  pipeline : list Stage;
  plan_page : Z;
  plan_limit : Z;
  customLabels : list (string * string);
}.

(** [field && ...] on a query parameter. *)
Definition given (field : option string) : bool := negb (JS.falsy field).

(** [field.toLowerCase() === "desc"] *)
Definition descending (field : option string) : bool :=
  match field with
  | Some s => String.eqb (JS.toLowerCase s) "desc"
  | None => false
  end.

(** [... === "desc" ? -1 : 1] *)
Definition direction (field : option string) : Z :=
  if descending field then (-1)%Z else 1%Z.

Definition prioritySort (sortByPriority : option string) : Expr :=
  let high := if descending sortByPriority then 3%Z else 1%Z in
  let medium := 2%Z in
  let low := if descending sortByPriority then 1%Z else 3%Z in
  Cond "priority" "High" (Num high) (Cond "priority" "Medium" (Num medium) (Num low)).

Definition statusSort (sortByStatus : option string) : Expr :=
  let pending := if descending sortByStatus then 3%Z else 1%Z in
  let inProgress := 2%Z in
  let completed := if descending sortByStatus then 1%Z else 3%Z in
  Cond "status" "pending" (Num pending)
       (Cond "status" "in-progress" (Num inProgress) (Num completed)).

Definition addFields (q : TaskQuery) : list (string * Expr) :=
  (if given (q_sortByPriority q)
   then [("prioritySort", prioritySort (q_sortByPriority q))] else [])
  ++ (if given (q_sortByStatus q)
      then [("statusSort", statusSort (q_sortByStatus q))] else []).

Definition sortCriteria (q : TaskQuery) : list (string * Z) :=
  (if given (q_sortByPriority q)
   then [("prioritySort", direction (q_sortByPriority q))] else [])
  ++ (if given (q_sortByStatus q)
      then [("statusSort", direction (q_sortByStatus q))] else [])
  ++ (if given (q_sortByDueDate q)
      then [("dueDate", direction (q_sortByDueDate q))] else [])
  ++ (if negb (given (q_sortByPriority q)) && negb (given (q_sortByStatus q))
         && negb (given (q_sortByDueDate q))
      then [("createdAt", (-1)%Z)] else []).

(** [if (Object.keys(object).length > 0) pipeline.push(stage)] *)
Definition pushIfAny {A} (entries : list A) (stage : list A -> Stage) : list Stage :=
  match entries with
  | [] => []
  | _ => [stage entries]
  end.

Definition labels : list (string * string) :=
  [ ("totalDocs", "totalTasks"); ("docs", "tasks"); ("totalPages", "totalPages");
    ("page", "currentPage"); ("nextPage", "nextPage"); ("prevPage", "prevPage");
    ("hasNextPage", "hasNextPage"); ("hasPrevPage", "hasPrevPage") ].

(** [isNaN(n) || n < 1] *)
Definition belowOne (n : option Z) : bool :=
  match n with
  | None => true
  | Some z => (z <? 1)%Z
  end.

(** Lines 53-188 of the aggregating revision: from the query to the
    arguments of [Task.aggregatePaginate]. *)
Definition getAllTasks (q : TaskQuery) (caller : option PublicUser) : Thrown + Plan :=
  (* [page = 1] and [limit = 10] when the query has none *)
  let pageNumber := match q_page q with Some s => parseInt s | None => Some 1%Z end in
  let limitNumber := match q_limit q with Some s => parseInt s | None => Some 10%Z end in
  if belowOne pageNumber then inl (ApiError 400 "Invalid page number.")
  else if belowOne limitNumber then inl (ApiError 400 "Invalid limit number.")
  else
    match caller with
    | None => inl (ApiError 401 "User not authenticated.")
    | Some reqUser =>
        let matchQuery :=
          {| match_userId := pub_id reqUser;
             match_regex := if given (q_query q) then q_query q else None |} in
        inr {| pipeline := [StageMatch matchQuery]
                           ++ pushIfAny (addFields q) StageAddFields
                           ++ pushIfAny (sortCriteria q) StageSort;
               plan_page := default 0%Z pageNumber;
               plan_limit := default 0%Z limitNumber;
               customLabels := labels |}
    end.

(** The value of [$path] in a task document. *)
Definition pathValue (path : string) (t : TaskDoc) : option string :=
  if String.eqb path "title" then Some (title t)
  else if String.eqb path "description" then description t
  else if String.eqb path "status" then Some (status t)
  else if String.eqb path "priority" then Some (priority t)
  else if String.eqb path "dueDate" then Some (dueDate t)
  else None.

Fixpoint evaluate (e : Expr) (t : TaskDoc) : Z :=
  match e with
  | Num n => n
  | Cond path value hit miss =>
      if bool_decide (pathValue path t = Some value)
      then evaluate hit t else evaluate miss t
  end.

(** A document on its way through the stages of a pipeline: the stored
    document and the fields added to it so far. *)
Record Passing := mkPassing {
  stored : ObjectId * TaskDoc;
  added : list (string * Z);
}.

(** [$addFields]: each expression is evaluated on the document, and the
    field is added under its name. *)
Definition runAddFields (fields : list (string * Expr)) (d : Passing) : Passing :=
  {| stored := stored d;
     added := map (fun field => (fst field, evaluate (snd field) (snd (stored d)))) fields
              ++ added d |}.

Section Order.

(** The place, in the order MongoDB sorts values, of what a stored
    document holds under a path: [dueDate] is a date, and [createdAt] a
    timestamp Mongoose maintains. *)
Variable placeOf : string -> ObjectId * TaskDoc -> Z.

(** The value a [$sort] compares under a key: the added field of that
    name, or else the stored path. *)
Definition sortKey (key : string) (d : Passing) : Z :=
  match List.find (fun field => String.eqb (fst field) key) (added d) with
  | Some field => snd field
  | None => placeOf key (stored d)
  end.

(** One criterion of a [$sort]: with direction 1 the smaller key comes
    first, with direction -1 the larger one. *)
Definition oriented (dir : Z) (c : comparison) : comparison :=
  if (dir =? 1)%Z then c else CompOpp c.

(** [$sort] by several criteria, in the order of the keys of the object:
    a later criterion decides between documents the earlier ones hold
    equal.  [Lt] puts [a] before [b]. *)
Fixpoint compareBy (criteria : list (string * Z)) (a b : Passing) : comparison :=
  match criteria with
  | [] => Eq
  | criterion :: rest =>
      match oriented (snd criterion)
              (sortKey (fst criterion) a ?= sortKey (fst criterion) b)%Z with
      | Eq => compareBy rest a b
      | decided => decided
      end
  end.

(** The order in which the stages hand on two documents that pass every
    [$match]: [Lt] when [a] comes before [b], [Gt] when it comes after,
    [Eq] when the stages leave it open. *)
Fixpoint orderThrough (stages : list Stage) (a b : Passing) (sofar : comparison)
  : comparison :=
  match stages with
  | [] => sofar
  | StageMatch _ :: rest => orderThrough rest a b sofar
  | StageAddFields fields :: rest =>
      orderThrough rest (runAddFields fields a) (runAddFields fields b) sofar
  | StageSort criteria :: rest => orderThrough rest a b (compareBy criteria a b)
  end.

Definition orderOf (stages : list Stage) (a b : ObjectId * TaskDoc) : comparison :=
  orderThrough stages (mkPassing a []) (mkPassing b []) Eq.

End Order.

End TaskAggregation.

(** ** user.controller.js: the profile routes *)

Module UserProfile.
Section Handlers.
Context `{!Platform}.

Import UserController.

Local Open Scope handler_scope.

(** The unique indexes of the collection, as an update meets them: the
    message of the duplicate-key error for the document an update would
    leave under an [_id], if there is one. *)
Variable indexRejects : gmap N UserDoc -> ObjectId -> UserDoc -> option string.

(** [{ $set: { email, username, fullName } }] applied to a document: a
    path whose value is [undefined] is left as it is, the others go
    through the setters of the schema. *)
Definition setProfile (e u f : option string) (d : UserDoc) : UserDoc :=
  {| email := default (email d) (schemaCast PEmail <$> e);
     username := default (username d) (schemaCast PUsername <$> u);
     fullName := default (fullName d) (schemaCast PFullName <$> f);
     password := password d;
     refreshToken := refreshToken d |}.

(** [User.findOneAndUpdate(req.user._id, { $set }, { new: true })]: an
    ObjectId given as the filter selects by [_id]. *)
Definition User_findOneAndUpdate (id : ObjectId) (e u f : option string)
  : M (option (ObjectId * UserDoc)) :=
  fun db =>
    match users db !! id with
    | None => (inr None, db)
    | Some doc =>
        match indexRejects (users db) id (setProfile e u f doc) with
        | Some msg => (inl (JsError "MongoServerError" msg), db)
        | None => (inr (Some (id, setProfile e u f doc)),
                   set_users (insert id (setProfile e u f doc)) db)
        end
    end.

(** *** Lines 271-298 and 579-606 *)

Definition updateUserProfile (v : Variant) (req : Request) : M Response :=
  let b := body req in
  match user req with
  | None => throw (JsError "TypeError" "Cannot read properties of undefined (reading '_id')")
  | Some reqUser =>
      if fillAllFields [b_email b; b_username b; b_fullName b]
      then throw fieldsMissing
      else
        let newUsername :=
          match v with
          | V1 => inr (b_username b)
          | V2 =>
              (* [username.trim().toLowerCase()] *)
              match b_username b with
              | Some u => inr (Some (JS.toLowerCase (JS.trim u)))
              | None => inl usernameMissing
              end
          end in
        match newUsername with
        | inl error => throw error
        | inr u =>
            let* updated := User_findOneAndUpdate (pub_id reqUser) (b_email b) u (b_fullName b) in
            ret {| res_status := 200; res_cookies := [];
                   res_json := mkApiResponse 200
                     match updated with
                     | Some d => VUser (select d)
                     | None => VNull
                     end
                     "User profile updated successfully" |}
        end
  end.

End Handlers.
End UserProfile.

(** ** What session handlers may change *)

Module Frame.

(** Two databases hold the same tasks and the same users, up to the
    [refreshToken] path of the user documents. *)
Definition sameButTokens (db db' : Db) : Prop :=
  tasks db' = tasks db
  /\ forall id, UserController.withRefreshToken None <$> users db' !! id
                = UserController.withRefreshToken None <$> users db !! id.

(** Two databases hold the same documents except under one [_id] of the
    task collection. *)
Definition sameButTask (oid : ObjectId) (db db' : Db) : Prop :=
  users db' = users db
  /\ forall id, id <> oid -> tasks db' !! id = tasks db !! id.

End Frame.

(** ** How far a refresh request has to go *)

Module Progressing.

Import Overlap.

(** The awaited operations a request still has before it. *)
Definition stepsLeft (p : Progress) : nat :=
  match p with
  | Pending => 3
  | Checked _ => 2
  | Loaded _ => 1
  | Finished _ => 0
  end.

Definition runsFirst (t : Turn) : bool :=
  match t with FirstRuns => true | SecondRuns => false end.

(** The turns a schedule gives to the first and to the second request. *)
Definition turnsOfFirst (turns : list Turn) : nat :=
  length (List.filter runsFirst turns).

Definition turnsOfSecond (turns : list Turn) : nat :=
  length (List.filter (fun t => negb (runsFirst t)) turns).

End Progressing.

(** ** More documents for examples *)

Module Samples.

Definition always (_ : string) : bool := true.

(** Stored paths ordered as the documents were inserted. *)
Definition byId (_ : string) (d : ObjectId * TaskDoc) : Z := Z.of_N (fst d).

(** A cast that takes the strings that start with a digit. *)
Definition startsWithDigit (s : string) : bool :=
  match s with
  | String c _ => let n := N_of_ascii c in (48 <=? n) && (n <=? 57)
  | EmptyString => false
  end.

Definition noIndex (_ : gmap N UserDoc) (_ : ObjectId) (_ : UserDoc) : option string := None.

Definition groceries : Body :=
  mkBody None None None None None None None None
         (Some " Buy milk ") (Some "two litres") None (Some "2026-02-01") (Some "Low").

Definition blankTitle : Body :=
  mkBody None None None None None None None None
         (Some "   ") None None (Some "2026-02-01") (Some "Low").

Definition onlyTitle : Body :=
  mkBody None None None None None None None None
         (Some "Pay the rent") None None None None.

Definition noDate : Body :=
  mkBody None None None None None None None None
         (Some "Pay the rent") None None (Some "not a date") None.

Definition untitled : Body :=
  mkBody None None None None None None None None
         None (Some "no title") (Some "completed") None None.

Definition onlyPriority : Body :=
  mkBody None None None None None None None None
         None None None None (Some "Medium").

Definition strangeStatus : Body :=
  mkBody None None None None None None None None
         None None (Some "archived") None None.

Definition bobsDoneTask : TaskDoc :=
  {| title := "Pay rent"; description := None; status := "completed";
     priority := "High"; dueDate := "2026-01-31"; userId := 2 |}.

Definition alicesTask : TaskDoc :=
  {| title := "Call mum"; description := Some "on Sunday"; status := "in-progress";
     priority := "Low"; dueDate := "2026-02-08"; userId := 1 |}.

Definition twoTasks : Db :=
  {| users := <[1 := Demo.alice]> (<[2 := Demo.bob]> ∅);
     tasks := <[10 := bobsDoneTask]> (<[11 := alicesTask]> ∅) |}.

Definition aliceCredentials : Request :=
  Demo.anonymous (Demo.profile (Some "alice@x.com") (Some "alice") None (Some "secret123")).

Definition rename : Body :=
  mkBody (Some "Alice@Y.com") None (Some " Alice L. ") None
         None None None None None None None None None.

End Samples.

(** * Properties *)

(** ** The token codec *)

Section CodecProperties.
Context `{!Platform}.
Variable cfg : Config.

Import TokenCodec.

Lemma validate_inr s c now t :
  validate cfg s c now = inr t ->
  s = Encoded t /\ class (payload t) = c /\ now <= expires_at (payload t)
  /\ signature t = sign (signing_key cfg) (payload t).
Proof.
  unfold validate. destruct s as [raw|t']; [discriminate|].
  destruct (String.eqb _ _) eqn:Hsig; simpl; [|discriminate].
  destruct (N.ltb_spec (expires_at (payload t')) now); [discriminate|].
  case_bool_decide; simpl; [|discriminate].
  intros [= <-]. apply String.eqb_eq in Hsig. auto.
Qed.

Lemma validate_mint sub c t0 now :
  now <= t0 + ttl cfg c ->
  validate cfg (Encoded (mint cfg sub c t0)) c now = inr (mint cfg sub c t0).
Proof.
  intros Hnow. unfold validate, mint. simpl.
  rewrite String.eqb_refl. simpl.
  destruct (N.ltb_spec (t0 + ttl cfg c) now); [lia|].
  by rewrite bool_decide_eq_true_2.
Qed.

(** C5: a token minted for a subject and a class at [t0] validates at [t0]
    for that class and gives back the subject; at any time after
    [issued_at + ttl(class)] its validation fails with [Expired]. *)
Theorem mint_validate_roundtrip (sub : ObjectId) (c : TokenClass) (t0 t1 : Time) :
  let tok := mint cfg sub c t0 in
  validate cfg (Encoded tok) c t0 = inr tok
  /\ subject (payload tok) = sub
  /\ (issued_at (payload tok) + ttl cfg c < t1 ->
      validate cfg (Encoded tok) c t1 = inl Expired).
Proof.
  simpl. split; [apply validate_mint; lia|]. split; [reflexivity|].
  intros Hlate. unfold validate, mint in *. simpl in *.
  rewrite String.eqb_refl. simpl.
  destruct (N.ltb_spec (t0 + ttl cfg c) t1); [reflexivity|lia].
Qed.

End CodecProperties.

Section CodecExamples.
#[local] Existing Instance Demo.platform.

Lemma mint_validate_roundtrip_witness :
let tok := TokenCodec.mint Demo.config 1 Refresh 100 in
TokenCodec.validate Demo.config (Encoded tok) Refresh 100 = inr tok
/\ subject (payload tok) = 1
/\ TokenCodec.validate Demo.config (Encoded tok) Refresh 86501 = inl TokenCodec.Expired.
Proof.
pose proof (mint_validate_roundtrip Demo.config 1 Refresh 100 86501) as (Hok & Hsub & Hexp).
split; [exact Hok|]. split; [exact Hsub|].
apply Hexp. vm_compute. reflexivity.
Defined.

End CodecExamples.

(** ** Password change and logout *)

Section AccountProperties.
Context `{!Platform}.
Variable cfg : Config.

Import UserController.

Lemma findById_found id doc db :
  users db !! id = Some doc -> User_findById id db = (inr (Some (id, doc)), db).
Proof. intros Hdoc. unfold User_findById, gets. by rewrite Hdoc. Qed.

Lemma findById_missing id db :
  users db !! id = None -> User_findById id db = (inr None, db).
Proof. intros Hdoc. unfold User_findById, gets. by rewrite Hdoc. Qed.

(** C8: when the old password verifies against the stored credential and
    the new password is the same string, the change is refused with the
    400 "same password" error and the database is left as it was. *)
Theorem changeUserPassword_same_password
    (salt : N) (req : Request) (db : Db) (reqUser : PublicUser) (doc : UserDoc)
    (plaintext : string) :
  user req = Some reqUser ->
  users db !! pub_id reqUser = Some doc ->
  b_oldPassword (body req) = Some plaintext ->
  b_newPassword (body req) = Some plaintext ->
  comparePassword (password doc) plaintext = true ->
  changeUserPassword salt req db
  = (inl (ApiError 400 "New password cannot be same as old password"), db).
Proof.
  intros Huser Hdoc Hold Hnew Hverify.
  unfold changeUserPassword. rewrite Huser, Hold, Hnew.
  unfold bind at 1. rewrite (findById_found _ _ _ Hdoc).
  unfold bind, isPasswordCorrect, ret, throw. simpl.
  rewrite Hverify. simpl.
  by rewrite bool_decide_eq_true_2.
Qed.

Lemma alter_found {A} (f : A -> A) (m : gmap N A) k x :
  m !! k = Some x -> alter f k m = <[k := f x]> m.
Proof.
  intros Hk. apply map_eq. intros j. rewrite lookup_alter, lookup_insert.
  destruct (decide (k = j)) as [<-|Hne].
  - by rewrite Hk.
  - reflexivity.
Qed.

Lemma logoutUser_found req db reqUser doc :
  user req = Some reqUser ->
  users db !! pub_id reqUser = Some doc ->
  logoutUser req db
  = (inr {| res_status := 200;
            res_cookies := [ mkCookie "accessToken" VNull clearedCookieOptions;
                             mkCookie "refreshToken" VNull clearedCookieOptions ];
            res_json := mkApiResponse 200 (VObject []) "User logged out successfully" |},
     set_users (insert (pub_id reqUser) (withRefreshToken None doc)) db).
Proof.
  intros Huser Hdoc. unfold logoutUser. rewrite Huser.
  unfold bind at 1. rewrite (findById_found _ _ _ Hdoc).
  unfold bind, save_refreshToken, modify, ret. simpl.
  f_equal. unfold set_users. f_equal. by apply alter_found.
Qed.

Lemma logoutUser_missing req db reqUser :
  user req = Some reqUser ->
  users db !! pub_id reqUser = None ->
  logoutUser req db = (inl (ApiError 401 "User not found"), db).
Proof.
  intros Huser Hdoc. unfold logoutUser. rewrite Huser.
  unfold bind at 1. by rewrite (findById_missing _ _ Hdoc).
Qed.

(** C6: logging out twice leaves the database that logging out once leaves
    and gives the same outcome; for an identity that has an account both
    calls succeed with status 200 and no refresh token stays stored. *)
Theorem logoutUser_idempotent (req : Request) (db : Db) :
  let once := logoutUser req db in
  let twice := logoutUser req (snd once) in
  snd twice = snd once
  /\ fst twice = fst once
  /\ (forall reqUser,
        user req = Some reqUser ->
        is_Some (users db !! pub_id reqUser) ->
        succeeded once = true /\ succeeded twice = true
        /\ Session.storedToken (snd once) (pub_id reqUser) = None
        /\ Session.storedToken (snd twice) (pub_id reqUser) = None).
Proof.
  simpl. destruct (user req) as [reqUser|] eqn:Huser.
  - destruct (users db !! pub_id reqUser) as [doc|] eqn:Hdoc.
    + assert (Hdoc' : users (set_users (insert (pub_id reqUser) (withRefreshToken None doc)) db)
                      !! pub_id reqUser = Some (withRefreshToken None doc))
        by (simpl; apply lookup_insert_eq).
      rewrite (logoutUser_found _ _ _ _ Huser Hdoc). simpl.
      rewrite (logoutUser_found _ _ _ _ Huser Hdoc'). simpl.
      assert (Hsame : set_users (insert (pub_id reqUser)
                          (withRefreshToken None (withRefreshToken None doc)))
                        (set_users (insert (pub_id reqUser) (withRefreshToken None doc)) db)
                      = set_users (insert (pub_id reqUser) (withRefreshToken None doc)) db).
      { unfold set_users. simpl. f_equal. apply insert_insert_eq. }
      rewrite Hsame. split; [reflexivity|]. split; [reflexivity|].
      intros ? [= <-] _. unfold succeeded, Session.storedToken. simpl.
      rewrite lookup_insert_eq. auto.
    + rewrite (logoutUser_missing _ _ _ Huser Hdoc). simpl.
      rewrite (logoutUser_missing _ _ _ Huser Hdoc). simpl.
      split; [reflexivity|]. split; [reflexivity|].
      intros ? [= <-] [? ?]. congruence.
  - unfold logoutUser. rewrite Huser. simpl.
    split; [reflexivity|]. split; [reflexivity|]. intros ? [=].
Qed.

End AccountProperties.

Section AccountExamples.
#[local] Existing Instance Demo.platform.
Import UserController.

Lemma changeUserPassword_same_password_witness :
  changeUserPassword 7
    (Demo.authenticated (Demo.asUser 1 Demo.alice)
       (Demo.passwords (Some "secret123") (Some "secret123")))
    Demo.twoUsers
  = (inl (ApiError 400 "New password cannot be same as old password"), Demo.twoUsers).
Proof.
  apply (changeUserPassword_same_password 7 _ _ (Demo.asUser 1 Demo.alice)
           Demo.alice "secret123"); vm_compute; reflexivity.
Defined.

Lemma logoutUser_idempotent_witness :
  let req := Demo.authenticated (Demo.asUser 1 Demo.alice) emptyBody in
  let once := logoutUser req Demo.aliceLoggedIn in
  let twice := logoutUser req (snd once) in
  snd twice = snd once /\ fst twice = fst once
  /\ succeeded once = true /\ succeeded twice = true
  /\ Session.storedToken (snd once) 1 = None
  /\ Session.storedToken (snd twice) 1 = None.
Proof.
  intros req once twice.
  destruct (logoutUser_idempotent req Demo.aliceLoggedIn) as (Hdb & Hout & Hok).
  split; [exact Hdb|]. split; [exact Hout|].
  apply (Hok (Demo.asUser 1 Demo.alice)).
  - reflexivity.
  - vm_compute. eauto.
Defined.

End AccountExamples.

(** ** Login *)

Section LoginProperties.
Context `{!Platform}.
Variable cfg : Config.

Import UserController.

(** C3, as the handlers have it: a login for an account that does not exist
    and a login with a password that does not verify are both refused with
    status 401 and leave the database as it was, but the two errors carry
    different messages. *)
Theorem loginUser_refusals (v : Variant) (now : Time) (req : Request) (db : Db) :
  credentialsGiven v req ->
  (accountOf v req db = None ->
     loginUser cfg v now req db = (inl (noSuchAccount v), db))
  /\ (forall account plaintext,
        accountOf v req db = Some account ->
        b_password (body req) = Some plaintext ->
        comparePassword (password (snd account)) plaintext = false ->
        loginUser cfg v now req db = (inl wrongPassword, db))
  /\ (exists m1 m2, noSuchAccount v = ApiError 401 m1
                    /\ wrongPassword = ApiError 401 m2 /\ m1 <> m2).
Proof.
  intros [Hgiven Hfilled]. split; [|split].
  - intros Hnone. unfold loginUser. rewrite Hgiven, Hfilled.
    unfold bind at 1. unfold User_findOne at 1, gets. cbv beta iota.
    fold (accountOf v req db). by rewrite Hnone.
  - intros account plaintext Hfound Hpw Hverify.
    unfold loginUser. rewrite Hgiven, Hfilled.
    unfold bind at 1. unfold User_findOne at 1, gets. cbv beta iota.
    fold (accountOf v req db). rewrite Hfound.
    unfold bind, isPasswordCorrect, ret, throw. rewrite Hpw, Hverify. reflexivity.
  - destruct v; do 2 eexists; (split; [reflexivity|]); (split; [reflexivity|]);
      discriminate.
Qed.

End LoginProperties.

Section LoginExamples.
#[local] Existing Instance Demo.platform.
Import UserController.

Lemma loginUser_refusals_witness :
  loginUser Demo.config V1 100
    (Demo.anonymous (Demo.profile None (Some "zed") None (Some "secret123"))) Demo.twoUsers
  = (inl (ApiError 401 "Invalid username or password"), Demo.twoUsers)
  /\ loginUser Demo.config V1 100
       (Demo.anonymous (Demo.profile None (Some "alice") None (Some "letmein"))) Demo.twoUsers
     = (inl (ApiError 401 "Invalid Credentials"), Demo.twoUsers).
Proof.
  split.
  - refine (proj1 (loginUser_refusals Demo.config V1 100 _ Demo.twoUsers _) _).
    + split; reflexivity.
    + vm_compute. reflexivity.
  - refine (proj1 (proj2 (loginUser_refusals Demo.config V1 100 _ Demo.twoUsers _))
              (1, Demo.alice) "letmein" _ _ _).
    + split; reflexivity.
    + vm_compute. reflexivity.
    + reflexivity.
    + vm_compute. reflexivity.
Defined.

(** C3 as stated fails: "zed" has no account, "alice" has one and "letmein"
    is not her password, and the two refusals are different values. *)
Lemma loginUser_refusals_differ :
  let unknown := Demo.anonymous (Demo.profile None (Some "zed") None (Some "secret123")) in
  let mistyped := Demo.anonymous (Demo.profile None (Some "alice") None (Some "letmein")) in
  accountOf V1 unknown Demo.twoUsers = None
  /\ accountOf V1 mistyped Demo.twoUsers = Some (1, Demo.alice)
  /\ comparePassword (password Demo.alice) "letmein" = false
  /\ fst (loginUser Demo.config V1 100 unknown Demo.twoUsers)
     <> fst (loginUser Demo.config V1 100 mistyped Demo.twoUsers).
Proof.
  simpl. split; [vm_compute; reflexivity|]. split; [vm_compute; reflexivity|].
  split; [vm_compute; reflexivity|].
  vm_compute. discriminate.
Qed.

End LoginExamples.

(** ** Registration *)

Section RegisterProperties.
Context `{!Platform}.

Import UserController.

Lemma fillAllFields_spec (fields : list (option string)) :
  fillAllFields fields = true <-> exists s, In (Some s) fields /\ JS.trim s = "".
Proof.
  unfold fillAllFields. rewrite existsb_exists. split.
  - intros ([s|] & Hin & Hblank); [|discriminate].
    exists s. split; [exact Hin|]. by apply String.eqb_eq.
  - intros (s & Hin & Hblank). exists (Some s). split; [exact Hin|].
    simpl. by apply String.eqb_eq.
Qed.

Lemma registerUser_validated v salt req db :
  fillAllFields (registrationFields (body req)) = false ->
  registerUser v salt req db
  = match existingUser (body req) db with
    | Some _ => (inl alreadyExists, db)
    | None =>
        match b_username (body req) with
        | None => (inl usernameMissing, db)
        | Some u => createAndRespond v salt (body req) u db
        end
    end.
Proof.
  intros Hvalid. unfold registerUser, registrationFields in *. rewrite Hvalid.
  unfold bind at 1. unfold User_findOne, gets. cbv beta iota.
  fold (existingUser (body req) db).
  destruct (existingUser (body req) db); [reflexivity|].
  destruct (b_username (body req)); reflexivity.
Qed.

Lemma registerUser_rejected v salt req db :
  fillAllFields (registrationFields (body req)) = true ->
  registerUser v salt req db = (inl fieldsMissing, db).
Proof.
  intros Hblank. unfold registerUser, registrationFields in *. by rewrite Hblank.
Qed.

Lemma createAndRespond_outcome v salt b u db :
  fst (createAndRespond v salt b u db) <> inl fieldsMissing.
Proof.
  unfold createAndRespond, bind, User_create, User_findById, gets, throw, ret.
  destruct (b_email b), (b_fullName b), (b_password b); simpl; try discriminate.
  destruct (schemaRejects _ _); simpl; [discriminate|].
  rewrite lookup_insert_eq. simpl. destruct v; discriminate.
Qed.

(** What [createAndRespond] does once the schema takes the document. *)
Lemma createAndRespond_created v salt b e u f p db :
  b_email b = Some e -> b_fullName b = Some f -> b_password b = Some p ->
  schemaRejects (users db)
    (withPassword p (newUser salt e u f p)) = None ->
  let id := fresh (dom (users db)) in
  let doc := newUser salt e u f p in
  createAndRespond v salt b u db
  = (match v with
     | V1 => inl (JsError "ReferenceError" "accessToken is not defined")
     | V2 => inr {| res_status := 200; res_cookies := [];
                    res_json := mkApiResponse 200 (VUser (select (id, doc)))
                                  "User created successfully" |}
     end,
     set_users (insert id doc) db).
Proof.
  intros He Hf Hp Haccepted. simpl.
  unfold createAndRespond, bind, User_create, User_findById, gets, throw, ret.
  rewrite He, Hf, Hp. unfold withPassword, newUser in Haccepted. simpl in *.
  rewrite Haccepted. simpl. rewrite lookup_insert_eq. simpl.
  destruct v; reflexivity.
Qed.

(** C10, as the handler has it: [registerUser] raises the "fill all the
    fields" error, with nothing stored, exactly when a field that is
    present trims to the empty string, so an absent field never raises it.
    When no present field is blank the request goes on to the duplicate
    check; past that check it goes on to [User.create] if the username is
    present, and with the username absent [username.trim()] throws before
    anything is stored. *)
Theorem registerUser_absent_fields (v : Variant) (salt : N) (req : Request) (db : Db) :
  let b := body req in
  let out := registerUser v salt req db in
  (fst out = inl fieldsMissing
   <-> exists s, In (Some s) (registrationFields b) /\ JS.trim s = "")
  /\ (fst out = inl fieldsMissing -> snd out = db)
  /\ ((forall s, In (Some s) (registrationFields b) -> JS.trim s <> "") ->
      (is_Some (existingUser b db) -> out = (inl alreadyExists, db))
      /\ (existingUser b db = None -> b_username b = None ->
          out = (inl usernameMissing, db))
      /\ (forall u, existingUser b db = None -> b_username b = Some u ->
          out = createAndRespond v salt b u db)).
Proof.
  cbv zeta.
  destruct (fillAllFields (registrationFields (body req))) eqn:Hblank.
  - pose proof (proj1 (fillAllFields_spec _) Hblank) as Hsome.
    rewrite (registerUser_rejected _ _ _ _ Hblank).
    split; [by split|]. split; [reflexivity|].
    intros Hnone. destruct Hsome as (s & Hin & Hs). by destruct (Hnone s Hin).
  - assert (Hnot : fst (registerUser v salt req db) <> inl fieldsMissing).
    { rewrite (registerUser_validated _ _ _ _ Hblank).
      destruct (existingUser (body req) db); [discriminate|].
      destruct (b_username (body req)); [apply createAndRespond_outcome|discriminate]. }
    split; [|split].
    + split; [by intros Hraised|].
      intros Hsome. apply fillAllFields_spec in Hsome. congruence.
    + by intros Hraised.
    + intros _. rewrite (registerUser_validated _ _ _ _ Hblank).
      split; [|split].
      * intros [found ->]. reflexivity.
      * intros -> ->. reflexivity.
      * intros u -> ->. reflexivity.
Qed.

(** C7, the defect of the first revision: a registration that passes the
    validation and the duplicate check, and whose document the schema
    takes, stores the account and then throws a [ReferenceError] where the
    second revision answers with the public profile. *)
Theorem registerUser_V1_throws_after_create
    (salt : N) (req : Request) (db : Db) (e u f p : string) :
  let b := body req in
  b_email b = Some e -> b_username b = Some u ->
  b_fullName b = Some f -> b_password b = Some p ->
  fillAllFields (registrationFields b) = false ->
  existingUser b db = None ->
  schemaRejects (users db) (withPassword p (newUser salt e u f p)) = None ->
  let id := fresh (dom (users db)) in
  let doc := newUser salt e u f p in
  registerUser V1 salt req db
  = (inl (JsError "ReferenceError" "accessToken is not defined"),
     set_users (insert id doc) db)
  /\ registerUser V2 salt req db
     = (inr {| res_status := 200; res_cookies := [];
               res_json := mkApiResponse 200 (VUser (select (id, doc)))
                             "User created successfully" |},
        set_users (insert id doc) db).
Proof.
  cbv zeta. intros He Hu Hf Hp Hvalid Hnew Haccepted.
  rewrite !(registerUser_validated _ _ _ _ Hvalid), Hnew, Hu.
  split.
  - exact (createAndRespond_created V1 salt _ e u f p db He Hf Hp Haccepted).
  - exact (createAndRespond_created V2 salt _ e u f p db He Hf Hp Haccepted).
Qed.

End RegisterProperties.

Section RegisterExamples.
#[local] Existing Instance Demo.platform.
Import UserController.

(** A registration without an email is not stopped by the validation; one
    with a blank full name is, and nothing is stored. *)
Lemma registerUser_absent_fields_witness :
  let req := Demo.anonymous (Demo.profile None (Some "dave") (Some "Dave") (Some "pw")) in
  let blank := Demo.anonymous
                 (Demo.profile (Some "dave@x.com") (Some "dave") (Some "  ") (Some "pw")) in
  registerUser V2 5 req Demo.twoUsers
  = createAndRespond V2 5 (body req) "dave" Demo.twoUsers
  /\ fst (registerUser V2 5 blank Demo.twoUsers) = inl fieldsMissing
  /\ snd (registerUser V2 5 blank Demo.twoUsers) = Demo.twoUsers.
Proof.
  intros req blank.
  destruct (registerUser_absent_fields V2 5 req Demo.twoUsers) as (_ & _ & Hgoes).
  destruct (registerUser_absent_fields V2 5 blank Demo.twoUsers) as (Hexactly & Hkept & _).
  assert (Hraised : fst (registerUser V2 5 blank Demo.twoUsers) = inl fieldsMissing).
  { apply Hexactly. exists "  ". split; [|reflexivity]. right. right. by left. }
  split; [|split; [exact Hraised|exact (Hkept Hraised)]].
  destruct Hgoes as (_ & _ & Hcreate).
  - intros s [Hs|[Hs|[Hs|[Hs|[]]]]]; try discriminate;
      injection Hs as <-; vm_compute; discriminate.
  - apply Hcreate; vm_compute; reflexivity.
Defined.

(** C10 as stated fails for an absent username: the validation lets the
    request through, no account matches, and the handler throws a
    [TypeError] instead of reaching [User.create]. *)
Lemma registerUser_absent_username :
  let req := Demo.anonymous
               (Demo.profile (Some "dave@x.com") None (Some "Dave") (Some "pw")) in
  b_username (body req) = None
  /\ fillAllFields (registrationFields (body req)) = false
  /\ existingUser (body req) Demo.noDocuments = None
  /\ (forall v, registerUser v 5 req Demo.noDocuments = (inl usernameMissing, Demo.noDocuments))
  /\ (forall v u, registerUser v 5 req Demo.noDocuments
                  <> createAndRespond v 5 (body req) u Demo.noDocuments).
Proof.
  intros req.
  assert (Hthrows : forall v,
    registerUser v 5 req Demo.noDocuments = (inl usernameMissing, Demo.noDocuments))
    by (intros []; vm_compute; reflexivity).
  split; [reflexivity|]. split; [reflexivity|]. split; [vm_compute; reflexivity|].
  split; [exact Hthrows|].
  intros v u. rewrite Hthrows.
  rewrite (createAndRespond_created v 5 (body req) "dave@x.com" u "Dave" "pw"
             Demo.noDocuments) by reflexivity.
  destruct v; discriminate.
Qed.

(** The failing input of C7: Carol registers with fresh credentials. *)
Lemma registerUser_V1_throws_after_create_witness :
  let req := Demo.anonymous (Demo.profile (Some "carol@x.com") (Some " Carol ")
                               (Some "Carol") (Some "pw")) in
  let carol := {| email := "carol@x.com"; username := "carol"; fullName := "Carol";
                  password := "$3$pw"; refreshToken := None |} in
  registerUser V1 3 req Demo.twoUsers
  = (inl (JsError "ReferenceError" "accessToken is not defined"),
     set_users (insert 3 carol) Demo.twoUsers)
  /\ registerUser V2 3 req Demo.twoUsers
     = (inr {| res_status := 200; res_cookies := [];
               res_json := mkApiResponse 200 (VUser (select (3, carol)))
                             "User created successfully" |},
        set_users (insert 3 carol) Demo.twoUsers).
Proof.
  intros req carol.
  assert (Hfree : existingUser (body req) Demo.twoUsers = None)
    by (vm_compute; reflexivity).
  pose proof (registerUser_V1_throws_after_create 3 req Demo.twoUsers
                "carol@x.com" " Carol " "Carol" "pw"
                eq_refl eq_refl eq_refl eq_refl eq_refl Hfree eq_refl) as Hruns.
  vm_compute in Hruns. vm_compute. exact Hruns.
Defined.

End RegisterExamples.

(** ** Tasks addressed by [_id] *)

Section TaskProperties.
Context `{!Platform}.
Variable dateAccepted : string -> bool.

Import TaskController.

Lemma castObjectId_truthy (taskId : string) (oid : ObjectId) :
  castObjectId taskId = Some oid -> JS.truthyStr taskId = true.
Proof.
  intros Hcast. destruct taskId; [|reflexivity].
  rewrite castObjectId_empty in Hcast. discriminate.
Qed.

Lemma bool_decide_called (who : PublicUser) (req : Request) :
  bool_decide (is_Some (user (calledBy who req))) = true.
Proof. apply bool_decide_eq_true_2. simpl. eauto. Qed.

(** The three handlers of [/:id] never look at the caller. *)
Lemma by_id_caller_irrelevant (caller other : PublicUser) (req : Request) (db : Db) :
  getTaskById (calledBy caller req) db = getTaskById (calledBy other req) db
  /\ updateTaskById dateAccepted (calledBy caller req) db
     = updateTaskById dateAccepted (calledBy other req) db
  /\ deleteTaskById (calledBy caller req) db = deleteTaskById (calledBy other req) db.
Proof.
  unfold getTaskById, updateTaskById, deleteTaskById.
  rewrite !bool_decide_called. simpl. auto.
Qed.

(** C9: for a task that exists, whoever the authenticated caller is and
    whoever owns the task, [getTaskById] answers with the task,
    [updateTaskById] rewrites it (given a body that passes its field
    checks and casts to the schema; when the [dueDate] does not cast, a
    [CastError] is thrown and nothing is written) and [deleteTaskById]
    removes it, and the outcome is the same for any two callers; only
    [updateTaskStatus] answers 404 when the caller is not the owner. *)
Theorem task_by_id_ignores_owner
    (caller other : PublicUser) (req : Request) (db : Db)
    (oid : ObjectId) (t : TaskDoc) :
  castObjectId (params_id req) = Some oid ->
  tasks db !! oid = Some t ->
  (getTaskById (calledBy caller req) db
   = (inr (respond 200 (VTask (oid, t)) "Task retrieved successfully."), db)
   /\ getTaskById (calledBy other req) db = getTaskById (calledBy caller req) db)
  /\ (updateAccepted (body req) = true ->
      updateCasts dateAccepted (body req) = true ->
      updateTaskById dateAccepted (calledBy caller req) db
      = (inr (respond 200 (VTask (oid, applyUpdate (body req) t))
                "Task updated successfully."),
         set_tasks (insert oid (applyUpdate (body req) t)) db))
  /\ (updateAccepted (body req) = true ->
      updateCasts dateAccepted (body req) = false ->
      updateTaskById dateAccepted (calledBy caller req) db
      = (inl (JsError "CastError" "Cast to date failed"), db))
  /\ updateTaskById dateAccepted (calledBy other req) db
     = updateTaskById dateAccepted (calledBy caller req) db
  /\ (deleteTaskById (calledBy caller req) db
      = (inr (respond 200 (VObject []) "Task deleted successfully."),
         set_tasks (delete oid) db)
      /\ deleteTaskById (calledBy other req) db = deleteTaskById (calledBy caller req) db)
  /\ (userId t <> pub_id caller ->
      updateTaskStatus (calledBy caller req) db
      = (inl (ApiError 404 "Task not found."), db))
  /\ (userId t = pub_id caller ->
      updateTaskStatus (calledBy caller req) db
      = (inr (respond 200 (VTask (oid, setStatus (b_status (body req)) t))
                "Task status updated."),
         set_tasks (insert oid (setStatus (b_status (body req)) t)) db)).
Proof.
  intros Hcast Hfound.
  pose proof (castObjectId_truthy _ _ Hcast) as Htruthy.
  destruct (by_id_caller_irrelevant caller other req db) as (Hget & Hupd & Hdel).
  split; [split; [|by rewrite Hget]|].
  { unfold getTaskById. rewrite bool_decide_called. simpl. rewrite Htruthy. simpl.
    unfold bind, Task_findById, castId, gets, ret, bind. rewrite Hcast. simpl.
    by rewrite Hfound. }
  assert (Hchecked : updateAccepted (body req) = true ->
            updateTaskById dateAccepted (calledBy caller req) db
            = let found := Task_findByIdAndUpdate dateAccepted (params_id req)
                             (body req) db in
              match fst found with
              | inl error => (inl error, snd found)
              | inr None => (inl (ApiError 404 "Task not found."), snd found)
              | inr (Some t') =>
                  (inr (respond 200 (VTask t') "Task updated successfully."), snd found)
              end).
  { intros Hbody. unfold updateAccepted in Hbody.
    apply andb_true_iff in Hbody as [Hbody Hpriority].
    apply andb_true_iff in Hbody as [Hfields Hstatus].
    apply negb_true_iff in Hfields, Hstatus, Hpriority.
    unfold updateTaskById. rewrite bool_decide_called. simpl. rewrite Htruthy. simpl.
    rewrite Hfields, Hstatus, Hpriority. unfold bind at 1.
    destruct (Task_findByIdAndUpdate _ _ _ db) as [[error|[t'|]] db']; reflexivity. }
  split.
  { intros Hbody Hcasts. rewrite (Hchecked Hbody). cbv zeta.
    unfold bind, Task_findByIdAndUpdate, castId, gets, modify, ret, bind.
    rewrite Hcast, Hcasts. simpl.
    unfold set_tasks. rewrite !(alter_found _ _ _ _ Hfound), lookup_insert_eq.
    reflexivity. }
  split.
  { intros Hbody Hcasts. rewrite (Hchecked Hbody). cbv zeta.
    unfold bind, Task_findByIdAndUpdate, castId, gets, modify, ret, bind.
    rewrite Hcast, Hcasts. reflexivity. }
  split; [by rewrite Hupd|].
  split; [split; [|by rewrite Hdel]|].
  { unfold deleteTaskById. rewrite bool_decide_called. simpl. rewrite Htruthy. simpl.
    unfold bind, Task_findByIdAndDelete, castId, gets, modify, ret, bind.
    rewrite Hcast. reflexivity. }
  split.
  - intros Hother. unfold updateTaskStatus. simpl.
    unfold bind, Task_findOneAndUpdate, castId, gets, modify, ret, bind.
    rewrite Hcast. simpl. rewrite Hfound.
    by rewrite bool_decide_eq_false_2.
  - intros Howner. unfold updateTaskStatus. simpl.
    unfold bind, Task_findOneAndUpdate, castId, gets, modify, ret, bind.
    rewrite Hcast. simpl. rewrite Hfound.
    by rewrite bool_decide_eq_true_2.
Qed.

End TaskProperties.

Section TaskExamples.
#[local] Existing Instance Demo.platform.
Import TaskController.

(** Alice reads, rewrites and deletes Bob's task; only the status route
    turns her away.  A due date that is no date stops her update as it
    would stop Bob's. *)
Lemma task_by_id_ignores_owner_witness :
  let alice := Demo.asUser 1 Demo.alice in
  let req := calledBy alice Demo.aboutTask10 in
  let undated := mkRequest Samples.noDate None None "10" None in
  let rewritten := {| title := "Pay the rent"; description := None;
                      status := "completed"; priority := "High";
                      dueDate := "2026-01-31"; userId := 2 |} in
  getTaskById req Demo.oneTask
  = (inr (respond 200 (VTask (10, Demo.bobsTask)) "Task retrieved successfully."),
     Demo.oneTask)
  /\ updateTaskById Samples.always req Demo.oneTask
     = (inr (respond 200 (VTask (10, rewritten)) "Task updated successfully."),
        set_tasks (insert 10 rewritten) Demo.oneTask)
  /\ deleteTaskById req Demo.oneTask
     = (inr (respond 200 (VObject []) "Task deleted successfully."),
        set_tasks (delete 10) Demo.oneTask)
  /\ updateTaskStatus req Demo.oneTask
     = (inl (ApiError 404 "Task not found."), Demo.oneTask)
  /\ updateTaskById Samples.startsWithDigit (calledBy alice undated) Demo.oneTask
     = (inl (JsError "CastError" "Cast to date failed"), Demo.oneTask)
  /\ updateTaskById Samples.startsWithDigit (calledBy (Demo.asUser 2 Demo.bob) undated)
       Demo.oneTask
     = updateTaskById Samples.startsWithDigit (calledBy alice undated) Demo.oneTask.
Proof.
  intros alice req undated rewritten.
  assert (Hcast : castObjectId (params_id Demo.aboutTask10) = Some 10) by reflexivity.
  assert (Hfound : tasks Demo.oneTask !! 10 = Some Demo.bobsTask)
    by (vm_compute; reflexivity).
  destruct (task_by_id_ignores_owner Samples.always alice (Demo.asUser 2 Demo.bob)
              Demo.aboutTask10 Demo.oneTask 10 Demo.bobsTask Hcast Hfound)
    as ((Hget & _) & Hupd & _ & _ & (Hdel & _) & Hstatus & _).
  destruct (task_by_id_ignores_owner Samples.startsWithDigit alice (Demo.asUser 2 Demo.bob)
              undated Demo.oneTask 10 Demo.bobsTask Hcast Hfound)
    as (_ & _ & Hthrown & Hsame & _).
  split; [exact Hget|]. split; [exact (Hupd eq_refl eq_refl)|]. split; [exact Hdel|].
  split; [apply Hstatus; vm_compute; discriminate|].
  split; [exact (Hthrown eq_refl eq_refl)|exact Hsame].
Defined.

End TaskExamples.

(** ** Refresh-token rotation *)

Section RefreshProperties.
Context `{!Platform}.
Variable cfg : Config.

Import UserController.

Lemma generate_found now id doc db :
  users db !! id = Some doc ->
  generateAccessAndRefreshToken cfg now id db
  = (inr (TokenCodec.mint cfg id Access now, TokenCodec.mint cfg id Refresh now),
     set_users (insert id (rotated cfg now id doc)) db).
Proof.
  intros Hdoc. unfold generateAccessAndRefreshToken, tryCatch.
  unfold bind at 1. rewrite (findById_found _ _ _ Hdoc).
  unfold bind, save_refreshToken, modify, ret, set_users, _id. simpl.
  by rewrite (alter_found _ _ _ _ Hdoc).
Qed.

(** When [refreshAccessToken] answers. *)
Lemma refresh_success v now req db t doc :
  incomingRefreshToken v req = Some (Encoded t) ->
  TokenCodec.validate cfg (Encoded t) Refresh now = inr t ->
  users db !! subject (payload t) = Some doc ->
  refreshToken doc = Some (Encoded t) ->
  refreshAccessToken cfg v now req db
  = (inr (refreshResponse cfg v
            (TokenCodec.mint cfg (subject (payload t)) Access now)
            (TokenCodec.mint cfg (subject (payload t)) Refresh now)),
     set_users (insert (subject (payload t))
                  (rotated cfg now (subject (payload t)) doc)) db).
Proof.
  intros Hinc Hvalid Hdoc Hcurrent.
  unfold refreshAccessToken. rewrite Hinc. cbn [truthyTok negb].
  unfold tryCatch. unfold bind at 1. unfold jwt_verify. rewrite Hvalid.
  unfold ret at 1. unfold bind at 1. rewrite (findById_found _ _ _ Hdoc).
  cbn [snd]. rewrite Hcurrent, bool_decide_eq_true_2 by reflexivity. cbn [negb].
  unfold bind, _id. cbn [fst]. rewrite (generate_found _ _ _ _ Hdoc). reflexivity.
Qed.

(** It answers only when the presented token decodes, validates as a
    refresh token and is the one stored for its subject. *)
Lemma refresh_answers_inv v now req db :
  succeeded (refreshAccessToken cfg v now req db) = true ->
  exists t doc,
    incomingRefreshToken v req = Some (Encoded t)
    /\ TokenCodec.validate cfg (Encoded t) Refresh now = inr t
    /\ users db !! subject (payload t) = Some doc
    /\ refreshToken doc = Some (Encoded t).
Proof.
  unfold refreshAccessToken, succeeded.
  destruct (truthyTok (incomingRefreshToken v req)); simpl; [|discriminate].
  unfold tryCatch. unfold bind at 1. unfold jwt_verify.
  destruct (incomingRefreshToken v req) as [s|]; [|simpl; discriminate].
  destruct (TokenCodec.validate cfg s Refresh now) as [k|t] eqn:Hvalid;
    [simpl; discriminate|].
  destruct (validate_inr _ _ _ _ _ Hvalid) as (-> & _).
  unfold ret at 1. unfold bind at 1. unfold User_findById, gets.
  destruct (users db !! subject (payload t)) as [doc|] eqn:Hdoc;
    [|simpl; discriminate].
  simpl. case_bool_decide as Hcurrent; simpl; [|discriminate].
  intros _. eauto 10.
Qed.

(** Every other outcome is a 401 that leaves the database alone. *)
Lemma refresh_refuses v now req db :
  succeeded (refreshAccessToken cfg v now req db) = false ->
  exists msg, refreshAccessToken cfg v now req db = (inl (ApiError 401 msg), db).
Proof.
  intros Hfail.
  destruct (truthyTok (incomingRefreshToken v req)) eqn:Htruthy.
  2:{ unfold refreshAccessToken. rewrite Htruthy. unfold throw, noTokenPresented.
      simpl. eauto. }
  destruct (incomingRefreshToken v req) as [s|] eqn:Hinc; [|discriminate].
  destruct (TokenCodec.validate cfg s Refresh now) as [k|t] eqn:Hvalid.
  { unfold refreshAccessToken. rewrite Hinc, Htruthy. cbn [negb].
    unfold tryCatch. unfold bind at 1. unfold jwt_verify. rewrite Hvalid.
    unfold throw, catchClause. eauto. }
  destruct (validate_inr _ _ _ _ _ Hvalid) as (-> & _).
  destruct (users db !! subject (payload t)) as [doc|] eqn:Hdoc.
  2:{ unfold refreshAccessToken. rewrite Hinc. cbn [truthyTok negb].
      unfold tryCatch. unfold bind at 1. unfold jwt_verify. rewrite Hvalid.
      unfold ret at 1. unfold bind at 1. rewrite (findById_missing _ _ Hdoc).
      unfold throw, catchClause. eauto. }
  destruct (decide (refreshToken doc = Some (Encoded t))) as [Hcurrent|Hstale].
  - rewrite (refresh_success _ _ _ _ _ _ Hinc Hvalid Hdoc Hcurrent) in Hfail.
    discriminate.
  - unfold refreshAccessToken. rewrite Hinc. cbn [truthyTok negb].
    unfold tryCatch. unfold bind at 1. unfold jwt_verify. rewrite Hvalid.
    unfold ret at 1. unfold bind at 1. rewrite (findById_found _ _ _ Hdoc).
    cbn [snd]. rewrite bool_decide_eq_false_2 by exact Hstale.
    unfold throw, catchClause. cbn [negb]. eauto.
Qed.

Lemma mint_differs who now t :
  issued_at (payload t) <> now -> TokenCodec.mint cfg who Refresh now <> t.
Proof. intros Hthen <-. apply Hthen. reflexivity. Qed.

Lemma storedToken_rotated now who doc db :
  Session.storedToken (set_users (insert who (rotated cfg now who doc)) db) who
  = Some (Encoded (TokenCodec.mint cfg who Refresh now)).
Proof. unfold Session.storedToken. simpl. by rewrite lookup_insert_eq. Qed.

(** C1, as the handlers have it: a presented token that fails validation
    or is not the stored one is refused with 401 and nothing changes; an
    answered request has minted an access and a refresh token for the
    current time, the new refresh token is the stored one, the access token
    is returned, and the first revision returns the refresh token as well;
    when the current time is not the presented token's [issued_at] the new
    refresh token differs from the presented one, and presenting the old one
    again is refused with 401. *)
Theorem refreshAccessToken_rotation (v : Variant) (now : Time) (req : Request) (db : Db) :
  let out := refreshAccessToken cfg v now req db in
  (forall presented,
     incomingRefreshToken v req = Some presented ->
     (forall t, TokenCodec.validate cfg presented Refresh now = inr t ->
                Session.storedToken db (subject (payload t)) <> Some presented) ->
     failsWith 401 out /\ snd out = db)
  /\ (succeeded out = true ->
      exists t res,
        incomingRefreshToken v req = Some (Encoded t)
        /\ fst out = inr res
        /\ let who := subject (payload t) in
           let access := TokenCodec.mint cfg who Access now in
           let renewed := TokenCodec.mint cfg who Refresh now in
           Session.storedToken (snd out) who = Some (Encoded renewed)
           /\ head (res_cookies res)
              = Some (mkCookie "accessToken" (VToken access) (sessionCookieOptions cfg v))
           /\ (v = V1 ->
               res_cookies res
               = [ mkCookie "accessToken" (VToken access) (sessionCookieOptions cfg v);
                   mkCookie "refreshToken" (VToken renewed) (sessionCookieOptions cfg v) ]
               /\ data (res_json res)
                  = VObject [ ("accessToken", VToken access);
                              ("refreshToken", VToken renewed);
                              ("token", VToken access) ])
           /\ (issued_at (payload t) <> now ->
               renewed <> t
               /\ forall v' now' req',
                    incomingRefreshToken v' req' = Some (Encoded t) ->
                    failsWith 401 (refreshAccessToken cfg v' now' req' (snd out)))).
Proof.
  cbv zeta. split.
  - intros presented Hinc Hstale.
    destruct (succeeded (refreshAccessToken cfg v now req db)) eqn:Hout.
    + destruct (refresh_answers_inv _ _ _ _ Hout) as (t & doc & Hinc' & Hvalid & Hdoc & Hcur).
      rewrite Hinc in Hinc'. injection Hinc' as ->.
      exfalso. apply (Hstale t Hvalid).
      unfold Session.storedToken. rewrite Hdoc. exact Hcur.
    + destruct (refresh_refuses _ _ _ _ Hout) as (msg & ->).
      split; [by exists msg|reflexivity].
  - intros Hout.
    destruct (refresh_answers_inv _ _ _ _ Hout) as (t & doc & Hinc & Hvalid & Hdoc & Hcur).
    rewrite (refresh_success _ _ _ _ _ _ Hinc Hvalid Hdoc Hcur).
    exists t. eexists. split; [exact Hinc|]. split; [reflexivity|].
    cbn [fst snd]. split; [apply storedToken_rotated|].
    split; [by destruct v|]. split; [by intros ->|].
    intros Hthen. split; [by apply mint_differs|].
    intros v' now' req' Hinc'.
    destruct (succeeded (refreshAccessToken cfg v' now' req'
                (set_users (insert (subject (payload t))
                   (rotated cfg now (subject (payload t)) doc)) db))) eqn:Hagain.
    + destruct (refresh_answers_inv _ _ _ _ Hagain)
        as (t' & doc' & Hinc'' & _ & Hdoc' & Hcur').
      rewrite Hinc' in Hinc''. injection Hinc'' as <-.
      simpl in Hdoc'. rewrite lookup_insert_eq in Hdoc'. injection Hdoc' as <-.
      simpl in Hcur'. injection Hcur' as Hsame.
      exfalso. by apply (mint_differs (subject (payload t)) now t).
    + destruct (refresh_refuses _ _ _ _ Hagain) as (msg & ->). by exists msg.
Qed.

End RefreshProperties.

Section RefreshExamples.
#[local] Existing Instance Demo.platform.
Import UserController.

(** Alice refreshes at time 200 with the token of her login at time 100:
    the token minted at 200 is stored, and the old one is then refused.
    Bob's forged token is refused at once. *)
Lemma refreshAccessToken_rotation_witness :
  let req := Session.presenting (Encoded Demo.aliceToken) in
  let out := refreshAccessToken Demo.config V1 200 req Demo.aliceLoggedIn in
  Session.storedToken (snd out) 1
  = Some (Encoded (TokenCodec.mint Demo.config 1 Refresh 200))
  /\ failsWith 401 (refreshAccessToken Demo.config V1 300 req (snd out))
  /\ failsWith 401
       (refreshAccessToken Demo.config V1 200
          (Session.presenting (Undecodable "not.a.token")) Demo.aliceLoggedIn).
Proof.
  intros req out.
  destruct (refreshAccessToken_rotation Demo.config V1 200 req Demo.aliceLoggedIn)
    as (_ & Hanswered).
  destruct Hanswered as (t & res & Hinc & _ & Hstored & _ & _ & Hold);
    [vm_compute; reflexivity|].
  injection Hinc as <-.
  split; [exact Hstored|]. split.
  - apply Hold; [vm_compute; discriminate|reflexivity].
  - apply (proj1 (refreshAccessToken_rotation Demo.config V1 200
                    (Session.presenting (Undecodable "not.a.token"))
                    Demo.aliceLoggedIn) (Undecodable "not.a.token"));
      [reflexivity|]. intros t. vm_compute. discriminate.
Defined.

(** C1 as stated fails when the refresh happens at the time the presented
    token was issued, here the time of the login that stored it: the request
    is answered, the "new" refresh token is the presented one, and presenting
    it a second time is answered again. *)
Lemma refreshAccessToken_same_instant :
  let login := Demo.anonymous (Demo.profile None (Some "alice") None (Some "secret123")) in
  let req := Session.presenting (Encoded Demo.aliceToken) in
  let out := refreshAccessToken Demo.config V1 100 req Demo.aliceLoggedIn in
  snd (loginUser Demo.config V1 100 login Demo.twoUsers) = Demo.aliceLoggedIn
  /\ fst out = inr (refreshResponse Demo.config V1
                      (TokenCodec.mint Demo.config 1 Access 100) Demo.aliceToken)
  /\ Session.storedToken (snd out) 1 = Some (Encoded Demo.aliceToken)
  /\ succeeded (refreshAccessToken Demo.config V1 100 req (snd out)) = true.
Proof. vm_compute. auto. Qed.

(** The second revision answers without the new refresh token: its cookie
    and its body field are [undefined]. *)
Lemma refreshAccessToken_V2_drops_refresh_token :
  let req := Session.presenting (Encoded Demo.aliceToken) in
  let access := TokenCodec.mint Demo.config 1 Access 200 in
  fst (refreshAccessToken Demo.config V2 200 req Demo.aliceLoggedIn)
  = inr {| res_status := 200;
           res_cookies :=
             [ mkCookie "accessToken" (VToken access) (sessionCookieOptions Demo.config V2);
               mkCookie "refreshToken" VUndefined (sessionCookieOptions Demo.config V2) ];
           res_json := mkApiResponse 200
             (VObject [ ("accessToken", VToken access);
                        ("newRefreshToken", VUndefined) ])
             "Access token refreshed successfully" |}.
Proof. vm_compute. reflexivity. Qed.

End RefreshExamples.

(** ** The single stored refresh token *)

Section SessionProperties.
Context `{!Platform}.
Variable cfg : Config.

Import UserController.

Lemma presenting_incoming v tok t :
  incomingRefreshToken v (Session.presenting tok) = Some (Encoded t) -> tok = Encoded t.
Proof.
  unfold incomingRefreshToken, Session.presenting, orTok. simpl.
  destruct v, tok as [raw|t']; simpl;
    try destruct (JS.truthyStr raw); simpl; congruence.
Qed.


Lemma presenting_encoded v t :
  incomingRefreshToken v (Session.presenting (Encoded t)) = Some (Encoded t).
Proof. by destruct v. Qed.

(** A token is accepted exactly when it validates as a refresh token and
    is the one stored for its subject. *)
Lemma accepts_iff v now db tok :
  Session.accepts cfg v now db tok = true
  <-> exists t, tok = Encoded t
                /\ TokenCodec.validate cfg tok Refresh now = inr t
                /\ Session.storedToken db (subject (payload t)) = Some tok.
Proof.
  unfold Session.accepts. split.
  - intros Hacc.
    destruct (refresh_answers_inv _ _ _ _ _ Hacc) as (t & doc & Hinc & Hvalid & Hdoc & Hcur).
    apply presenting_incoming in Hinc as ->.
    exists t. split; [reflexivity|]. split; [exact Hvalid|].
    unfold Session.storedToken. by rewrite Hdoc.
  - intros (t & -> & Hvalid & Hstored). unfold Session.storedToken in Hstored.
    destruct (users db !! subject (payload t)) as [doc|] eqn:Hdoc; [|discriminate].
    by rewrite (refresh_success _ _ _ _ _ _ _ (presenting_encoded v t) Hvalid Hdoc Hstored).
Qed.

(** Whether a token is accepted only depends on the stored tokens. *)
Lemma accepts_same_tokens v now db db' tok :
  (forall who, Session.storedToken db' who = Session.storedToken db who) ->
  Session.accepts cfg v now db' tok = Session.accepts cfg v now db tok.
Proof.
  intros Hsame. apply eq_true_iff_eq. rewrite !accepts_iff.
  split; intros (t & Htok & Hvalid & Hstored); exists t;
    (split; [exact Htok|]); (split; [exact Hvalid|]); congruence.
Qed.

Lemma select_rotated now who doc :
  select (who, rotated cfg now who doc) = select (who, doc).
Proof. reflexivity. Qed.

(** What an answered login has done. *)
Lemma login_answered v now req db :
  succeeded (loginUser cfg v now req db) = true ->
  exists who doc,
    accountOf v req db = Some (who, doc)
    /\ users db !! who = Some doc
    /\ loginUser cfg v now req db
       = (inr (loginResponse cfg v (VUser (select (who, doc)))
                 (TokenCodec.mint cfg who Access now)
                 (TokenCodec.mint cfg who Refresh now)),
          set_users (insert who (rotated cfg now who doc)) db).
Proof.
  intros Hout. unfold succeeded in Hout. unfold loginUser in *.
  destruct (JS.falsy _ || JS.falsy _); [discriminate|].
  destruct (fillAllFields _); [discriminate|].
  unfold bind, User_findOne, User_findById, gets, isPasswordCorrect, ret, throw, _id in *.
  destruct (find _ _) as [[who doc]|] eqn:Hfind; [|discriminate].
  pose proof Hfind as Haccount.
  apply find_some in Hfind as [Hin _].
  apply list_elem_of_In, elem_of_map_to_list in Hin.
  destruct (b_password (body req)) as [plaintext|]; [|discriminate].
  cbn [fst snd] in *.
  destruct (comparePassword (password doc) plaintext); cbn [negb] in *; [|discriminate].
  rewrite (generate_found _ _ _ _ _ Hin). cbn [fst snd set_users users].
  rewrite lookup_insert_eq. cbn [fmap option_fmap option_map].
  exists who, doc. split; [exact Haccount|]. split; [exact Hin|].
  by rewrite select_rotated.
Qed.

(** A login that is not answered has changed nothing. *)
Lemma login_refused v now req db :
  succeeded (loginUser cfg v now req db) = false ->
  snd (loginUser cfg v now req db) = db.
Proof.
  intros Hout.
  destruct (JS.falsy (loginIdentifier v (body req)) || JS.falsy (b_password (body req)))
    eqn:Hgiven; [unfold loginUser; by rewrite Hgiven|].
  destruct (fillAllFields [loginIdentifier v (body req); b_password (body req)])
    eqn:Hfilled; [unfold loginUser; by rewrite Hgiven, Hfilled|].
  unfold succeeded in Hout. unfold loginUser in *. rewrite Hgiven, Hfilled in *.
  unfold bind, User_findOne, User_findById, gets, isPasswordCorrect, ret, throw, _id in *.
  destruct (find _ _) as [[who doc]|] eqn:Hfind; [|reflexivity].
  apply find_some in Hfind as [Hin _].
  apply list_elem_of_In, elem_of_map_to_list in Hin.
  destruct (b_password (body req)) as [plaintext|]; [|reflexivity].
  cbn [fst snd] in *.
  destruct (comparePassword (password doc) plaintext); cbn [negb] in *; [|reflexivity].
  rewrite (generate_found _ _ _ _ _ Hin) in Hout. discriminate.
Qed.

(** A login with credentials that are given, select an account and verify
    is answered. *)
Lemma login_runs v now req db who doc plaintext :
  credentialsGiven v req ->
  accountOf v req db = Some (who, doc) ->
  b_password (body req) = Some plaintext ->
  comparePassword (password doc) plaintext = true ->
  loginUser cfg v now req db
  = (inr (loginResponse cfg v (VUser (select (who, doc)))
            (TokenCodec.mint cfg who Access now)
            (TokenCodec.mint cfg who Refresh now)),
     set_users (insert who (rotated cfg now who doc)) db).
Proof.
  intros [Hgiven Hfilled] Haccount Hpw Hverify.
  pose proof Haccount as Hin. unfold accountOf in Hin.
  apply find_some in Hin as [Hin _].
  apply list_elem_of_In, elem_of_map_to_list in Hin.
  unfold loginUser. rewrite Hgiven, Hfilled.
  unfold bind at 1. unfold User_findOne at 1, gets. cbv beta iota.
  fold (accountOf v req db). rewrite Haccount.
  unfold bind, isPasswordCorrect, User_findById, gets, ret, throw, _id.
  rewrite Hpw. cbn [fst snd]. rewrite Hverify. cbn [negb].
  rewrite (generate_found _ _ _ _ _ Hin). cbn [fst snd set_users users].
  by rewrite lookup_insert_eq.
Qed.

Lemma changeUserPassword_keeps_token salt req db who :
  Session.storedToken (snd (changeUserPassword salt req db)) who
  = Session.storedToken db who.
Proof.
  unfold changeUserPassword.
  destruct (user req) as [reqUser|]; [|reflexivity].
  unfold bind at 1. unfold User_findById at 1, gets.
  destruct (users db !! pub_id reqUser) as [doc|] eqn:Hdoc; [|reflexivity].
  cbn [fmap option_fmap option_map]. unfold bind at 1. unfold isPasswordCorrect.
  destruct (b_oldPassword (body req)) as [old|]; [|reflexivity].
  unfold ret at 1. cbn [snd].
  destruct (comparePassword (password doc) old); cbn [negb]; [|reflexivity].
  case_bool_decide; [reflexivity|].
  destruct (b_newPassword (body req)) as [new|]; [|reflexivity].
  unfold bind, save_password, modify, ret, Session.storedToken, _id. simpl.
  rewrite lookup_alter. destruct (decide (pub_id reqUser = who)) as [<-|Hne].
  - by rewrite Hdoc.
  - reflexivity.
Qed.






End SessionProperties.

Section SessionExamples.
#[local] Existing Instance Demo.platform.
Import UserController.


End SessionExamples.

(** ** Refresh requests that overlap *)

Section OverlapProperties.
Context `{!Platform}.
Variable cfg : Config.

Import UserController Overlap.

(** The steps of a request that runs alone add up to the handler. *)
Lemma alone_is_handler v now req db :
  alone cfg v now req db
  = (Finished (fst (refreshAccessToken cfg v now req db)),
     snd (refreshAccessToken cfg v now req db)).
Proof.
  destruct (truthyTok (incomingRefreshToken v req)) eqn:Htruthy.
  2:{ unfold alone, refreshAccessToken. cbn [step]. rewrite Htruthy. reflexivity. }
  destruct (incomingRefreshToken v req) as [s|] eqn:Hinc; [|discriminate].
  destruct (TokenCodec.validate cfg s Refresh now) as [k|t] eqn:Hvalid.
  { unfold alone, refreshAccessToken. cbn [step]. rewrite Hinc, Htruthy. cbn [negb].
    unfold tryCatch, bind, jwt_verify, throw. rewrite Hvalid. reflexivity. }
  destruct (users db !! subject (payload t)) as [doc|] eqn:Hdoc.
  2:{ unfold alone, refreshAccessToken. cbn [step]. rewrite Hinc, Htruthy. cbn [negb].
      unfold tryCatch, bind, jwt_verify, throw, ret, User_findById, gets.
      rewrite Hvalid, Hdoc. reflexivity. }
  destruct (bool_decide (refreshToken doc = Some s)) eqn:Hcurrent.
  2:{ unfold alone, refreshAccessToken. cbn [step]. rewrite Hinc, Htruthy. cbn [negb].
      unfold tryCatch, bind, jwt_verify, throw, ret, User_findById, gets.
      rewrite Hvalid, Hdoc. cbn [fmap option_fmap option_map snd].
      rewrite Hcurrent. reflexivity. }
  unfold alone, refreshAccessToken. cbn [step]. rewrite Hinc, Htruthy. cbn [negb].
  unfold tryCatch, bind, jwt_verify, throw, ret, User_findById, gets, _id.
  rewrite Hvalid, Hdoc. cbn [fmap option_fmap option_map fst snd].
  rewrite Hcurrent. cbn [negb fst snd step]. rewrite Hdoc. cbn [fst snd step].
  rewrite (generate_found _ _ _ _ _ Hdoc). cbn [fst snd].
  unfold save_refreshToken, modify, set_users. cbn [snd users tasks].
  by rewrite (alter_found _ _ _ _ Hdoc).
Qed.

(** Once a token has been rotated out at another time than its own, a
    request that presents it is refused. *)
Lemma stale_token_refused v now now' req db t doc :
  users db !! subject (payload t) = Some doc ->
  issued_at (payload t) <> now ->
  incomingRefreshToken v req = Some (Encoded t) ->
  exists msg,
    fst (refreshAccessToken cfg v now' req
           (set_users (insert (subject (payload t))
                         (rotated cfg now (subject (payload t)) doc)) db))
    = inl (ApiError 401 msg).
Proof.
  intros Hdoc Hthen Hinc.
  destruct (succeeded (refreshAccessToken cfg v now' req
              (set_users (insert (subject (payload t))
                 (rotated cfg now (subject (payload t)) doc)) db))) eqn:Hagain.
  - destruct (refresh_answers_inv _ _ _ _ _ Hagain)
      as (t' & doc' & Hinc' & _ & Hdoc' & Hcur').
    rewrite Hinc in Hinc'. injection Hinc' as <-.
    simpl in Hdoc'. rewrite lookup_insert_eq in Hdoc'. injection Hdoc' as <-.
    simpl in Hcur'. injection Hcur' as Hsame.
    exfalso. by apply (mint_differs cfg (subject (payload t)) now t).
  - destruct (refresh_refuses _ _ _ _ _ Hagain) as (msg & ->). by exists msg.
Qed.

(** Two requests that run one after the other are two calls of the handler. *)
Lemma inTurn_is_sequence v now1 now2 req1 req2 db :
  schedule cfg v now1 now2 req1 req2 inTurn (arrival db)
  = let r1 := refreshAccessToken cfg v now1 req1 db in
    let r2 := refreshAccessToken cfg v now2 req2 (snd r1) in
    {| shared := snd r2; first := Finished (fst r1); second := Finished (fst r2) |}.
Proof.
  pose proof (alone_is_handler v now1 req1 db) as Hfirst.
  pose proof (alone_is_handler v now2 req2
                (snd (refreshAccessToken cfg v now1 req1 db))) as Hsecond.
  unfold alone in Hfirst, Hsecond. cbv zeta in Hfirst, Hsecond.
  cbv [schedule inTurn advance arrival first second shared].
  rewrite Hfirst. cbn [fst snd]. rewrite Hsecond. reflexivity.
Qed.

(** C4, as the handler has it: when the second request starts after the
    first has ended, and the first ran at another time than the presented
    token was issued, an answer to the first means a 401 for the second.
    Nothing makes the read, the comparison and the write of one request a
    single step. *)
Theorem refresh_in_turn_single_use
    (v : Variant) (now1 now2 : Time) (req1 req2 : Request) (db : Db) (t : Token) :
  incomingRefreshToken v req1 = Some (Encoded t) ->
  incomingRefreshToken v req2 = Some (Encoded t) ->
  issued_at (payload t) <> now1 ->
  let f := schedule cfg v now1 now2 req1 req2 inTurn (arrival db) in
  first f = Finished (fst (refreshAccessToken cfg v now1 req1 db))
  /\ (answered (first f) = true -> refused (second f)).
Proof.
  intros Hinc1 Hinc2 Hthen. cbv zeta. rewrite inTurn_is_sequence. cbv zeta.
  cbn [first second]. split; [reflexivity|].
  intros Hanswered.
  assert (Hout : succeeded (refreshAccessToken cfg v now1 req1 db) = true).
  { unfold succeeded. unfold answered in Hanswered.
    by destruct (fst (refreshAccessToken cfg v now1 req1 db)). }
  destruct (refresh_answers_inv _ _ _ _ _ Hout)
    as (t' & doc & Hinc & Hvalid & Hdoc & Hcur).
  rewrite Hinc1 in Hinc. injection Hinc as <-.
  rewrite (refresh_success _ _ _ _ _ _ _ Hinc1 Hvalid Hdoc Hcur). cbn [snd].
  destruct (stale_token_refused v now1 now2 req2 db t doc Hdoc Hthen Hinc2)
    as (msg & ->).
  by exists msg.
Qed.

End OverlapProperties.

Section OverlapExamples.
#[local] Existing Instance Demo.platform.
Import UserController Overlap.

(** Alice's token is presented at time 200 and, once that request has
    ended, at time 300: the second request is refused. *)
Lemma refresh_in_turn_single_use_witness :
  let req := Session.presenting (Encoded Demo.aliceToken) in
  let f := schedule Demo.config V1 200 300 req req inTurn (arrival Demo.aliceLoggedIn) in
  answered (first f) = true /\ refused (second f).
Proof.
  intros req f.
  destruct (refresh_in_turn_single_use Demo.config V1 200 300 req req
              Demo.aliceLoggedIn Demo.aliceToken eq_refl eq_refl)
    as (_ & Hrefused); [vm_compute; discriminate|].
  assert (Hanswered : answered (first f) = true) by (vm_compute; reflexivity).
  split; [exact Hanswered|exact (Hrefused Hanswered)].
Defined.

(** C4 as stated fails: Alice's stored token is presented by two requests
    whose steps alternate.  Both find it current before either saves, both
    are answered, with different pairs of tokens, and the token of the
    request that saved last is the stored one. *)
Lemma refresh_overlap_both_answered :
  let req := Session.presenting (Encoded Demo.aliceToken) in
  let f := schedule Demo.config V1 200 300 req req alternately
             (arrival Demo.aliceLoggedIn) in
  Session.storedToken Demo.aliceLoggedIn 1 = Some (Encoded Demo.aliceToken)
  /\ first f = Finished (inr (refreshResponse Demo.config V1
                                (TokenCodec.mint Demo.config 1 Access 200)
                                (TokenCodec.mint Demo.config 1 Refresh 200)))
  /\ second f = Finished (inr (refreshResponse Demo.config V1
                                 (TokenCodec.mint Demo.config 1 Access 300)
                                 (TokenCodec.mint Demo.config 1 Refresh 300)))
  /\ first f <> second f
  /\ Session.storedToken (shared f) 1
     = Some (Encoded (TokenCodec.mint Demo.config 1 Refresh 300)).
Proof.
  vm_compute. repeat split; try reflexivity. discriminate.
Qed.

End OverlapExamples.

(** ** Creating tasks *)

Section TaskCreationProperties.
Context `{!Platform}.
Variable dateAccepted : string -> bool.

Import TaskController TaskCreation.

Lemma user_given (req : Request) (who : PublicUser) :
  user req = Some who -> bool_decide (is_Some (user req)) = true.
Proof. intros ->. apply bool_decide_eq_true_2. eauto. Qed.

Lemma fresh_task_free (db : Db) : tasks db !! fresh (dom (tasks db)) = None.
Proof. apply not_elem_of_dom, is_fresh. Qed.

Lemma getTaskById_found req db who oid t :
  user req = Some who ->
  castObjectId (params_id req) = Some oid ->
  tasks db !! oid = Some t ->
  getTaskById req db
  = (inr (respond 200 (VTask (oid, t)) "Task retrieved successfully."), db).
Proof.
  intros Huser Hcast Hfound. unfold getTaskById.
  rewrite (user_given _ _ Huser), (castObjectId_truthy _ _ Hcast). cbn [negb].
  unfold Task_findById, castId, bind, gets, ret. rewrite Hcast. cbv beta iota zeta.
  by rewrite Hfound.
Qed.

Lemma getTaskById_missing req db who oid :
  user req = Some who ->
  castObjectId (params_id req) = Some oid ->
  tasks db !! oid = None ->
  getTaskById req db = (inl (ApiError 404 "Task not found."), db).
Proof.
  intros Huser Hcast Hfound. unfold getTaskById.
  rewrite (user_given _ _ Huser), (castObjectId_truthy _ _ Hcast). cbn [negb].
  unfold Task_findById, castId, bind, gets, ret. rewrite Hcast. cbv beta iota zeta.
  by rewrite Hfound.
Qed.

(** The two ways [createTask] can end. *)
Lemma createTask_cases (req : Request) (db : Db) :
  (exists error, createTask dateAccepted req db = (inl error, db))
  \/ (exists reqUser id t,
        user req = Some reqUser
        /\ tasks db !! id = None
        /\ userId t = pub_id reqUser
        /\ title t <> ""
        /\ wellFormedTask t
        /\ createTask dateAccepted req db
           = (inr (respond 201 (VTask (id, t)) "Task created successfully."),
              set_tasks (insert id t) db)).
Proof.
  unfold createTask.
  destruct (JS.falsy _ || JS.falsy _ || JS.falsy _); [left; by eexists|].
  destruct (invalidChoice statusValues _); [left; by eexists|].
  destruct (invalidChoice priorityValues _); [left; by eexists|].
  destruct (user req) as [reqUser|]; [|left; by eexists].
  unfold bind, Task_create, ret.
  destruct (String.eqb _ "") eqn:Htitle; [left; by eexists|].
  destruct (includes statusValues _) eqn:Hstatus; [|left; by eexists].
  destruct (includes priorityValues _) eqn:Hpriority; [|left; by eexists].
  destruct (dateAccepted _); [|left; by eexists].
  cbn [negb orb]. right.
  exists reqUser, (fresh (dom (tasks db))),
    {| title := JS.trim (default "" (b_title (body req)));
       description := JS.trim <$> b_description (body req);
       status := statusOrPending (b_status (body req));
       priority := default "" (b_priority (body req));
       dueDate := default "" (b_dueDate (body req));
       userId := pub_id reqUser |}.
  split; [reflexivity|]. split; [apply fresh_task_free|].
  split; [reflexivity|]. split.
  - cbn [title] in *. by apply String.eqb_neq.
  - split; [split; assumption|reflexivity].
Qed.

(** X1: either [createTask] fails and the database is as it was, or the
    caller is authenticated and exactly one task has been added under an
    [_id] that was free, owned by the caller, with a title that is not
    empty and a status and a priority among the values of the schema. *)
Theorem createTask_outcome (req : Request) (db : Db) :
  (exists error, createTask dateAccepted req db = (inl error, db))
  \/ (exists reqUser id t,
        user req = Some reqUser
        /\ tasks db !! id = None
        /\ userId t = pub_id reqUser
        /\ title t <> ""
        /\ wellFormedTask t
        /\ createTask dateAccepted req db
           = (inr (respond 201 (VTask (id, t)) "Task created successfully."),
              set_tasks (insert id t) db)).
Proof. apply createTask_cases. Qed.

(** X2: a task that [createTask] has answered with can be read back under
    its [_id] by any authenticated caller. *)
Theorem createTask_then_getTaskById (req : Request) (db db' : Db) (res : Response) :
  createTask dateAccepted req db = (inr res, db') ->
  exists id t,
    data (res_json res) = VTask (id, t)
    /\ tasks db' !! id = Some t
    /\ forall reader who,
         user reader = Some who ->
         castObjectId (params_id reader) = Some id ->
         getTaskById reader db'
         = (inr (respond 200 (VTask (id, t)) "Task retrieved successfully."), db').
Proof.
  intros Hcreated.
  destruct (createTask_cases req db) as [[error Hfail]|Hdone].
  - rewrite Hfail in Hcreated. discriminate.
  - destruct Hdone as (reqUser & id & t & _ & _ & _ & _ & _ & Hrun).
    rewrite Hrun in Hcreated. injection Hcreated as <- <-.
    exists id, t. split; [reflexivity|].
    assert (Hstored : tasks (set_tasks (insert id t) db) !! id = Some t)
      by (simpl; apply lookup_insert_eq).
    split; [exact Hstored|].
    intros reader who Huser Hcast.
    by apply (getTaskById_found reader _ who id t).
Qed.

End TaskCreationProperties.

Section TaskCreationExamples.
#[local] Existing Instance Demo.platform.
Import TaskController TaskCreation.

(** Alice adds a task to a collection that holds tasks 10 and 11: it is
    stored under a new [_id], trimmed and pending, and Bob can read it. *)
Lemma createTask_then_getTaskById_witness :
  let stored := {| title := "Buy milk"; description := Some "two litres";
                   status := "pending"; priority := "Low";
                   dueDate := "2026-02-01"; userId := 1 |} in
  let asAlice := calledBy (Demo.asUser 1 Demo.alice)
                   (mkRequest Samples.groceries None None "" None) in
  let out := createTask Samples.always asAlice Samples.twoTasks in
  let asBob := calledBy (Demo.asUser 2 Demo.bob) (mkRequest emptyBody None None "12" None) in
  fst out = inr (respond 201 (VTask (12, stored)) "Task created successfully.")
  /\ getTaskById asBob (snd out)
     = (inr (respond 200 (VTask (12, stored)) "Task retrieved successfully."), snd out).
Proof.
  intros stored asAlice out asBob.
  assert (Hout : createTask Samples.always asAlice Samples.twoTasks
                 = (inr (respond 201 (VTask (12, stored)) "Task created successfully."),
                    snd out)) by (vm_compute; reflexivity).
  destruct (createTask_then_getTaskById Samples.always _ _ _ _ Hout)
    as (id & t & Hdata & _ & Hread).
  injection Hdata as <- <-.
  split; [vm_compute; reflexivity|].
  apply (Hread asBob (Demo.asUser 2 Demo.bob)); reflexivity.
Defined.

End TaskCreationExamples.

(** ** What the task handlers keep *)

Section TaskFrameProperties.
Context `{!Platform}.
Variable dateAccepted : string -> bool.

Import TaskController TaskCreation.

Lemma alter_missing {A} (f : A -> A) (m : gmap N A) k :
  m !! k = None -> alter f k m = m.
Proof.
  intros Hk. apply map_eq. intros j. rewrite lookup_alter.
  case_decide; [subst j; by rewrite Hk|reflexivity].
Qed.

Lemma set_tasks_same (db : Db) : set_tasks (fun m => m) db = db.
Proof. by destruct db. Qed.

(** The two ways [updateTaskById] can end. *)
Lemma updateTaskById_cases (req : Request) (db : Db) :
  (exists error, updateTaskById dateAccepted req db = (inl error, db))
  \/ (exists oid t,
        castObjectId (params_id req) = Some oid
        /\ tasks db !! oid = Some t
        /\ updateAccepted (body req) = true
        /\ updateCasts dateAccepted (body req) = true
        /\ updateTaskById dateAccepted req db
           = (inr (respond 200 (VTask (oid, applyUpdate (body req) t))
                     "Task updated successfully."),
              set_tasks (insert oid (applyUpdate (body req) t)) db)).
Proof.
  unfold updateTaskById, updateAccepted.
  destruct (bool_decide (is_Some (user req))); cbn [negb]; [|left; by eexists].
  destruct (JS.truthyStr (params_id req)); cbn [negb]; [|left; by eexists].
  destruct (JS.falsy _ && JS.falsy _ && JS.falsy _); [left; by eexists|].
  destruct (invalidChoice statusValues _); [left; by eexists|].
  destruct (invalidChoice priorityValues _); [left; by eexists|].
  unfold Task_findByIdAndUpdate, castId, bind, gets, modify, ret, throw.
  destruct (castObjectId (params_id req)) as [oid|]; [|left; by eexists].
  cbv beta iota zeta.
  destruct (updateCasts dateAccepted (body req)); cbn [negb]; [|left; by eexists].
  unfold set_tasks. cbn [tasks users].
  destruct (tasks db !! oid) as [t|] eqn:Hfound.
  - right. exists oid, t. rewrite (alter_found _ _ _ _ Hfound), lookup_insert_eq.
    auto.
  - left. rewrite (alter_missing _ _ _ Hfound), Hfound. destruct db. by eexists.
Qed.

(** The two ways [deleteTaskById] can end. *)
Lemma deleteTaskById_cases (req : Request) (db : Db) :
  (exists error, deleteTaskById req db = (inl error, db))
  \/ (exists oid,
        castObjectId (params_id req) = Some oid
        /\ is_Some (user req)
        /\ deleteTaskById req db
           = (inr (respond 200 (VObject []) "Task deleted successfully."),
              set_tasks (delete oid) db)).
Proof.
  unfold deleteTaskById.
  case_bool_decide as Huser; cbn [negb]; [|left; by eexists].
  destruct (JS.truthyStr (params_id req)); cbn [negb]; [|left; by eexists].
  unfold Task_findByIdAndDelete, castId, bind, gets, modify, ret, throw.
  destruct (castObjectId (params_id req)) as [oid|]; [|left; by eexists].
  right. exists oid. auto.
Qed.

(** The two ways [updateTaskStatus] can end. *)
Lemma updateTaskStatus_cases (req : Request) (db : Db) :
  (exists error, updateTaskStatus req db = (inl error, db))
  \/ (exists who oid t,
        user req = Some who
        /\ castObjectId (params_id req) = Some oid
        /\ tasks db !! oid = Some t
        /\ userId t = pub_id who
        /\ updateTaskStatus req db
           = (inr (respond 200 (VTask (oid, setStatus (b_status (body req)) t))
                     "Task status updated."),
              set_tasks (insert oid (setStatus (b_status (body req)) t)) db)).
Proof.
  unfold updateTaskStatus.
  destruct (user req) as [who|]; [|left; by eexists].
  unfold Task_findOneAndUpdate, castId, bind, gets, modify, ret, throw.
  destruct (castObjectId (params_id req)) as [oid|]; [|left; by eexists].
  cbv beta iota zeta.
  destruct (tasks db !! oid) as [t|] eqn:Hfound; [|left; by eexists].
  case_bool_decide as Howner; [|left; by eexists].
  right. exists who, oid, t. auto.
Qed.

Lemma getTaskById_reads (req : Request) (db : Db) :
  snd (getTaskById req db) = db.
Proof.
  unfold getTaskById.
  destruct (bool_decide (is_Some (user req))); cbn [negb]; [|reflexivity].
  destruct (JS.truthyStr (params_id req)); cbn [negb]; [|reflexivity].
  unfold Task_findById, castId, bind, gets, ret, throw.
  destruct (castObjectId (params_id req)) as [oid|]; [|reflexivity].
  cbv beta iota zeta. by destruct (tasks db !! oid).
Qed.

Lemma statusOrPending_valid (field : option string) :
  invalidChoice statusValues field = false ->
  includes statusValues (statusOrPending field) = true.
Proof.
  unfold invalidChoice, statusOrPending, JS.orStr.
  destruct field as [s|]; [|reflexivity].
  destruct (JS.truthyStr s); [|reflexivity].
  cbn [andb]. by intros ->%negb_false_iff.
Qed.

Lemma wellFormed_insert (db : Db) (oid : ObjectId) (t : TaskDoc) :
  wellFormedTasks db -> wellFormedTask t ->
  wellFormedTasks (set_tasks (insert oid t) db).
Proof.
  intros Hall Ht id t'. cbn [set_tasks tasks]. rewrite lookup_insert.
  case_decide as Hid; [subst id|].
  - intros Heq. injection Heq as Heq. by subst t'.
  - apply Hall.
Qed.

(** X3: when every stored task has a status and a priority among the
    values of the schema, this stays so through [createTask],
    [getTaskById] and [deleteTaskById], through [updateTaskById] unless
    the body carries an empty priority, and through [updateTaskStatus] when
    the status sent is absent or one of the three values. *)
Theorem tasks_stay_well_formed (req : Request) (db : Db) :
  wellFormedTasks db ->
  wellFormedTasks (snd (createTask dateAccepted req db))
  /\ wellFormedTasks (snd (getTaskById req db))
  /\ wellFormedTasks (snd (deleteTaskById req db))
  /\ (b_priority (body req) <> Some "" ->
      wellFormedTasks (snd (updateTaskById dateAccepted req db)))
  /\ ((forall s, b_status (body req) = Some s -> includes statusValues s = true) ->
      wellFormedTasks (snd (updateTaskStatus req db))).
Proof.
  intros Hall. split; [|split; [|split; [|split]]].
  - destruct (createTask_cases dateAccepted req db) as [[e ->]|Hdone]; [exact Hall|].
    destruct Hdone as (who & id & t & _ & _ & _ & _ & Ht & ->).
    by apply wellFormed_insert.
  - by rewrite getTaskById_reads.
  - destruct (deleteTaskById_cases req db) as [[e ->]|(oid & _ & _ & ->)]; [exact Hall|].
    intros id t. cbn [snd set_tasks tasks]. rewrite lookup_delete.
    case_decide; [discriminate|apply Hall].
  - intros Hpriority.
    destruct (updateTaskById_cases req db) as [[e ->]|Hdone]; [exact Hall|].
    destruct Hdone as (oid & t & _ & Hfound & Haccepted & _ & ->).
    apply wellFormed_insert; [exact Hall|].
    unfold updateAccepted in Haccepted.
    apply andb_true_iff in Haccepted as [Haccepted Hprio].
    apply andb_true_iff in Haccepted as [_ Hstatus].
    apply negb_true_iff in Hstatus, Hprio.
    split; cbn [applyUpdate status priority].
    + by apply statusOrPending_valid.
    + destruct (b_priority (body req)) as [p|] eqn:Hp; cbn [default].
      * unfold invalidChoice in Hprio.
        destruct (JS.truthyStr p) eqn:Htruthy.
        -- cbn [andb] in Hprio. by apply negb_false_iff in Hprio.
        -- exfalso. apply Hpriority. f_equal.
           unfold JS.truthyStr in Htruthy. apply negb_false_iff in Htruthy.
           by apply String.eqb_eq in Htruthy.
      * apply (Hall oid t Hfound).
  - intros Hstatus.
    destruct (updateTaskStatus_cases req db) as [[e ->]|Hdone]; [exact Hall|].
    destruct Hdone as (who & oid & t & _ & _ & Hfound & _ & ->).
    apply wellFormed_insert; [exact Hall|].
    destruct (Hall oid t Hfound) as [Hs Hp].
    split; cbn [setStatus status priority]; [|exact Hp].
    destruct (b_status (body req)) as [s|]; cbn [default]; [by apply Hstatus|exact Hs].
Qed.

(** X4: an update by [_id] whose body passes the checks of the handler
    and carries no status, or an empty one, leaves the task [pending]
    whatever its status was, with the owner of the task as before, when
    the update document casts to the schema; when its [dueDate] does not
    cast, a [CastError] is thrown and the task is as it was. *)
Theorem updateTaskById_resets_status
    (req : Request) (db : Db) (who : PublicUser) (oid : ObjectId) (t : TaskDoc) :
  user req = Some who ->
  castObjectId (params_id req) = Some oid ->
  tasks db !! oid = Some t ->
  updateAccepted (body req) = true ->
  JS.falsy (b_status (body req)) = true ->
  if updateCasts dateAccepted (body req)
  then exists t',
         fst (updateTaskById dateAccepted req db)
         = inr (respond 200 (VTask (oid, t')) "Task updated successfully.")
         /\ tasks (snd (updateTaskById dateAccepted req db)) !! oid = Some t'
         /\ status t' = "pending"
         /\ userId t' = userId t
  else updateTaskById dateAccepted req db
       = (inl (JsError "CastError" "Cast to date failed"), db).
Proof.
  intros Huser Hcast Hfound Haccepted Hnostatus.
  assert (Hchecked : updateTaskById dateAccepted req db
            = let found := Task_findByIdAndUpdate dateAccepted (params_id req)
                             (body req) db in
              match fst found with
              | inl error => (inl error, snd found)
              | inr None => (inl (ApiError 404 "Task not found."), snd found)
              | inr (Some t') =>
                  (inr (respond 200 (VTask t') "Task updated successfully."), snd found)
              end).
  { unfold updateTaskById, updateAccepted in *.
    rewrite (user_given _ _ Huser), (castObjectId_truthy _ _ Hcast). cbn [negb].
    apply andb_true_iff in Haccepted as [Haccepted Hprio].
    apply andb_true_iff in Haccepted as [Hfields Hstatus].
    apply negb_true_iff in Hfields, Hstatus, Hprio.
    rewrite Hfields, Hstatus, Hprio. unfold bind at 1.
    destruct (Task_findByIdAndUpdate _ _ _ db) as [[error|[t'|]] db']; reflexivity. }
  rewrite Hchecked. cbv zeta.
  unfold Task_findByIdAndUpdate, castId, bind, gets, modify, ret, throw.
  rewrite Hcast. cbv beta iota zeta.
  destruct (updateCasts dateAccepted (body req)); cbn [negb]; [|reflexivity].
  unfold set_tasks. cbn [tasks users fst snd].
  rewrite (alter_found _ _ _ _ Hfound), lookup_insert_eq.
  cbn [fmap option_fmap option_map fst snd tasks].
  exists (applyUpdate (body req) t).
  split; [reflexivity|]. split; [apply lookup_insert_eq|]. split; [|reflexivity].
  cbn [applyUpdate status]. unfold statusOrPending, JS.falsy, JS.orStr in *.
  destruct (b_status (body req)) as [s|]; [|reflexivity].
  apply negb_true_iff in Hnostatus. by rewrite Hnostatus.
Qed.

(** X5: the handlers addressed by [_id] leave the users alone, never add a
    task, never change the owner of a task and never touch a task other
    than the addressed one; [updateTaskById] and [updateTaskStatus]
    remove none either. *)
Theorem by_id_handlers_frame (req : Request) (db : Db) :
  (forall handler,
     handler = updateTaskById dateAccepted \/ handler = updateTaskStatus
     \/ handler = deleteTaskById \/ handler = getTaskById ->
     users (snd (handler req db)) = users db
     /\ (forall id t',
           tasks (snd (handler req db)) !! id = Some t' ->
           exists t, tasks db !! id = Some t
                     /\ userId t' = userId t
                     /\ (castObjectId (params_id req) <> Some id -> t' = t)))
  /\ dom (tasks (snd (updateTaskById dateAccepted req db))) = dom (tasks db)
  /\ dom (tasks (snd (updateTaskStatus req db))) = dom (tasks db).
Proof.
  assert (Hsame : forall out : Db, out = db ->
            users out = users db
            /\ (forall id t', tasks out !! id = Some t' ->
                  exists t, tasks db !! id = Some t /\ userId t' = userId t
                            /\ (castObjectId (params_id req) <> Some id -> t' = t)))
    by (intros out ->; split; [reflexivity|]; intros id t' Hid; exists t'; auto).
  assert (Hrewritten : forall oid t t1,
            castObjectId (params_id req) = Some oid ->
            tasks db !! oid = Some t -> userId t1 = userId t ->
            users (set_tasks (insert oid t1) db) = users db
            /\ (forall id t', tasks (set_tasks (insert oid t1) db) !! id = Some t' ->
                  exists t0, tasks db !! id = Some t0 /\ userId t' = userId t0
                             /\ (castObjectId (params_id req) <> Some id -> t' = t0))).
  { intros oid t t1 Hcast Hfound Howner. split; [reflexivity|].
    intros id t'. cbn [set_tasks tasks]. rewrite lookup_insert.
    case_decide as Hsame'; [subst id|].
    - intros Heq. injection Heq as Heq. subst t'.
      exists t. split; [exact Hfound|]. split; [exact Howner|].
      intros Hother. by destruct Hother.
    - intros Hid. exists t'. auto. }
  split; [|split].
  - intros handler [-> | [-> | [-> | ->]]].
    + destruct (updateTaskById_cases req db) as [[e ->]|Hdone]; [by apply Hsame|].
      destruct Hdone as (oid & t & Hcast & Hfound & _ & _ & ->).
      by apply (Hrewritten oid t).
    + destruct (updateTaskStatus_cases req db) as [[e ->]|Hdone]; [by apply Hsame|].
      destruct Hdone as (who & oid & t & _ & Hcast & Hfound & _ & ->).
      by apply (Hrewritten oid t).
    + destruct (deleteTaskById_cases req db) as [[e ->]|(oid & Hcast & _ & ->)];
        [by apply Hsame|].
      split; [reflexivity|]. intros id t'. cbn [snd set_tasks tasks].
      rewrite lookup_delete. case_decide; [discriminate|].
      intros Hid. exists t'. auto.
    + rewrite getTaskById_reads. by apply Hsame.
  - destruct (updateTaskById_cases req db) as [[e ->]|Hdone]; [reflexivity|].
    destruct Hdone as (oid & t & _ & Hfound & _ & _ & ->).
    cbn [snd set_tasks tasks]. apply dom_insert_lookup_L. eauto.
  - destruct (updateTaskStatus_cases req db) as [[e ->]|Hdone]; [reflexivity|].
    destruct Hdone as (who & oid & t & _ & _ & Hfound & _ & ->).
    cbn [snd set_tasks tasks]. apply dom_insert_lookup_L. eauto.
Qed.

(** X6: for an authenticated caller and an [_id] that casts,
    [deleteTaskById] answers 200 whether or not the task exists; after it
    [getTaskById] answers 404 for that [_id], and deleting again changes
    nothing more. *)
Theorem deleteTaskById_removes (req : Request) (db : Db) (who : PublicUser) (oid : ObjectId) :
  user req = Some who ->
  castObjectId (params_id req) = Some oid ->
  let out := deleteTaskById req db in
  out = (inr (respond 200 (VObject []) "Task deleted successfully."),
         set_tasks (delete oid) db)
  /\ getTaskById req (snd out) = (inl (ApiError 404 "Task not found."), snd out)
  /\ deleteTaskById req (snd out) = (fst out, snd out).
Proof.
  intros Huser Hcast.
  assert (Hrun : forall d, deleteTaskById req d
            = (inr (respond 200 (VObject []) "Task deleted successfully."),
               set_tasks (delete oid) d)).
  { intros d. unfold deleteTaskById.
    rewrite (user_given _ _ Huser), (castObjectId_truthy _ _ Hcast). cbn [negb].
    unfold Task_findByIdAndDelete, castId, bind, gets, modify, ret.
    by rewrite Hcast. }
  cbv zeta. rewrite !Hrun. cbn [fst snd]. split; [reflexivity|]. split.
  - apply (getTaskById_missing req _ who oid Huser Hcast).
    cbn [set_tasks tasks]. apply lookup_delete_eq.
  - f_equal. unfold set_tasks. cbn [tasks users]. f_equal.
    apply delete_delete_eq.
Qed.

End TaskFrameProperties.

Section TaskFrameExamples.
#[local] Existing Instance Demo.platform.
Import TaskController TaskCreation.

Lemma twoTasks_wellFormed : wellFormedTasks Samples.twoTasks.
Proof.
  intros id t. unfold Samples.twoTasks. cbn [tasks].
  rewrite lookup_insert. case_decide; [intros [= <-]; by split|].
  rewrite lookup_insert. case_decide; [intros [= <-]; by split|].
  by rewrite lookup_empty.
Qed.

(** Bob marks his task 10 as pending through the status route, and Alice
    retitles it by [_id]: the collection stays well formed. *)
Lemma tasks_stay_well_formed_witness :
  let bobSets := calledBy (Demo.asUser 2 Demo.bob)
                   (mkRequest (mkBody None None None None None None None None
                                      None None (Some "pending") None None)
                              None None "10" None) in
  let aliceRetitles := calledBy (Demo.asUser 1 Demo.alice) Demo.aboutTask10 in
  wellFormedTasks (snd (updateTaskStatus bobSets Samples.twoTasks))
  /\ wellFormedTasks (snd (updateTaskById Samples.always aliceRetitles Samples.twoTasks)).
Proof.
  intros bobSets aliceRetitles. split.
  - apply (tasks_stay_well_formed Samples.always bobSets Samples.twoTasks
             twoTasks_wellFormed).
    intros s [= <-]. reflexivity.
  - apply (tasks_stay_well_formed Samples.always aliceRetitles Samples.twoTasks
             twoTasks_wellFormed).
    discriminate.
Defined.

(** The two conditions of X3 cannot be dropped: a status outside the
    schema sent to the status route, and an empty priority sent with a
    title to the update route, are both stored. *)
Lemma tasks_lose_well_formedness :
  let bobArchives := calledBy (Demo.asUser 2 Demo.bob)
                       (mkRequest Samples.strangeStatus None None "10" None) in
  let emptyPriority := calledBy (Demo.asUser 1 Demo.alice)
                         (mkRequest (mkBody None None None None None None None None
                                            (Some "Pay rent") None None None (Some ""))
                                    None None "10" None) in
  (status <$> tasks (snd (updateTaskStatus bobArchives Samples.twoTasks)) !! 10)
  = Some "archived"
  /\ (priority <$> tasks (snd (updateTaskById Samples.always emptyPriority
                                   Samples.twoTasks)) !! 10)
     = Some "".
Proof. vm_compute. auto. Qed.

(** Alice changes only the title of Bob's completed task 10: it is
    pending afterwards, and still Bob's.  When she also sends a due date
    that is no date, the task stays completed. *)
Lemma updateTaskById_resets_status_witness :
  let alice := Demo.asUser 1 Demo.alice in
  let req := calledBy alice (mkRequest Samples.onlyTitle None None "10" None) in
  let req' := calledBy alice (mkRequest Samples.noDate None None "10" None) in
  status Samples.bobsDoneTask = "completed"
  /\ (exists t', tasks (snd (updateTaskById Samples.startsWithDigit req
                               Samples.twoTasks)) !! 10 = Some t'
                 /\ status t' = "pending" /\ userId t' = 2)
  /\ updateTaskById Samples.startsWithDigit req' Samples.twoTasks
     = (inl (JsError "CastError" "Cast to date failed"), Samples.twoTasks).
Proof.
  intros alice req req'. split; [reflexivity|].
  assert (Hcast : castObjectId "10" = Some 10) by reflexivity.
  assert (Hfound : tasks Samples.twoTasks !! 10 = Some Samples.bobsDoneTask)
    by (vm_compute; reflexivity).
  split.
  - destruct (updateTaskById_resets_status Samples.startsWithDigit req Samples.twoTasks
                alice 10 Samples.bobsDoneTask eq_refl Hcast Hfound eq_refl eq_refl)
      as (t' & _ & Hstored & Hstatus & Howner).
    exists t'. auto.
  - exact (updateTaskById_resets_status Samples.startsWithDigit req' Samples.twoTasks
             alice 10 Samples.bobsDoneTask eq_refl Hcast Hfound eq_refl eq_refl).
Defined.

(** Task 11 is untouched when Alice deletes task 10. *)
Lemma by_id_handlers_frame_witness :
  let req := calledBy (Demo.asUser 1 Demo.alice) Demo.aboutTask10 in
  users (snd (deleteTaskById req Samples.twoTasks)) = users Samples.twoTasks
  /\ tasks (snd (deleteTaskById req Samples.twoTasks)) !! 11 = Some Samples.alicesTask.
Proof.
  intros req.
  destruct (by_id_handlers_frame Samples.always req Samples.twoTasks) as (Hframe & _).
  destruct (Hframe deleteTaskById) as (Husers & Htasks); [auto|].
  split; [exact Husers|].
  assert (Hstill : exists t', tasks (snd (deleteTaskById req Samples.twoTasks)) !! 11 = Some t')
    by (vm_compute; eauto).
  destruct Hstill as (t' & Ht'). rewrite Ht'.
  destruct (Htasks 11 t' Ht') as (t & Hbefore & _ & Hsame).
  rewrite Hsame by (vm_compute; discriminate).
  rewrite <- Hbefore. vm_compute. reflexivity.
Defined.

(** Alice deletes task 10, reads it and deletes it again. *)
Lemma deleteTaskById_removes_witness :
  let req := calledBy (Demo.asUser 1 Demo.alice) Demo.aboutTask10 in
  let out := deleteTaskById req Samples.twoTasks in
  getTaskById req (snd out) = (inl (ApiError 404 "Task not found."), snd out)
  /\ deleteTaskById req (snd out) = (fst out, snd out).
Proof.
  intros req out.
  assert (Hcast : castObjectId (params_id req) = Some 10) by reflexivity.
  destruct (deleteTaskById_removes req Samples.twoTasks (Demo.asUser 1 Demo.alice) 10
              eq_refl Hcast) as (_ & Hgone & Hagain).
  split; [exact Hgone|exact Hagain].
Defined.

End TaskFrameExamples.

(** ** Listing tasks *)

Section TaskListingProperties.
Context `{!Platform}.

Import TaskController TaskListing.

Lemma owned_listed (owner : ObjectId) (db : Db) (id : ObjectId) (t : TaskDoc) :
  In (id, t) (List.filter (fun d => bool_decide (userId (snd d) = owner))
                          (map_to_list (tasks db)))
  <-> tasks db !! id = Some t /\ userId t = owner.
Proof.
  rewrite filter_In, <- list_elem_of_In, elem_of_map_to_list. cbn [snd].
  rewrite bool_decide_eq_true. reflexivity.
Qed.

(** X7: the first revision of [getAllTasks] leaves the database as it is;
    it answers 404 exactly when the caller owns no task, and otherwise
    lists each task of the caller once and no task of anybody else. *)
Theorem getAllTasks_lists_own (req : Request) (db : Db) (who : PublicUser) :
  user req = Some who ->
  let out := getAllTasks req db in
  snd out = db
  /\ (fst out = inl (ApiError 404 "No tasks found.")
      <-> forall id t, tasks db !! id = Some t -> userId t <> pub_id who)
  /\ (forall listing,
        fst out = inr listing ->
        listing_status listing = 200
        /\ NoDup (listing_tasks listing)
        /\ forall id t, In (id, t) (listing_tasks listing)
                        <-> tasks db !! id = Some t /\ userId t = pub_id who).
Proof.
  intros Huser. cbv zeta. unfold getAllTasks. rewrite Huser.
  unfold bind, Task_findByOwner, gets, ret, throw.
  pose proof (owned_listed (pub_id who) db) as Hlisted.
  assert (Hnodup : NoDup (List.filter (fun d => bool_decide (userId (snd d) = pub_id who))
                                      (map_to_list (tasks db)))).
  { apply NoDup_ListNoDup, List.NoDup_filter, NoDup_ListNoDup, NoDup_map_to_list. }
  destruct (List.filter _ _) as [|[id0 t0] rest] eqn:Hfound; cbn [length Nat.eqb fst snd].
  - split; [reflexivity|]. split.
    + split; [|reflexivity]. intros _ id t Hid Howner.
      destruct (proj2 (Hlisted id t) (conj Hid Howner)).
    + intros listing [=].
  - split; [reflexivity|]. split.
    + split; [discriminate|]. intros Hnone. exfalso.
      destruct (proj1 (Hlisted id0 t0) (or_introl eq_refl)) as [Hid Howner].
      by apply (Hnone id0 t0).
    + intros listing [= <-]. cbn [listing_status listing_tasks].
      split; [reflexivity|]. split; [exact Hnodup|exact Hlisted].
Qed.

End TaskListingProperties.

Section TaskListingExamples.
#[local] Existing Instance Demo.platform.
Import TaskController TaskListing.

(** Alice is shown her task 11 and not Bob's task 10. *)
Lemma getAllTasks_lists_own_witness :
  let req := calledBy (Demo.asUser 1 Demo.alice) emptyRequest in
  getAllTasks req Samples.twoTasks
  = (inr {| listing_status := 200;
            listing_tasks := [(11, Samples.alicesTask)];
            listing_message := "Tasks retrieved successfully." |},
     Samples.twoTasks)
  /\ ~ In (10, Samples.bobsDoneTask)
          [(11, Samples.alicesTask)].
Proof.
  intros req.
  assert (Hout : getAllTasks req Samples.twoTasks
                 = (inr {| listing_status := 200;
                           listing_tasks := [(11, Samples.alicesTask)];
                           listing_message := "Tasks retrieved successfully." |},
                    Samples.twoTasks)) by (vm_compute; reflexivity).
  split; [exact Hout|].
  destruct (getAllTasks_lists_own req Samples.twoTasks (Demo.asUser 1 Demo.alice) eq_refl)
    as (_ & _ & Hlisting).
  rewrite Hout in Hlisting.
  destruct (Hlisting _ eq_refl) as (_ & _ & Hown).
  intros Hbob. apply Hown in Hbob as [_ Howner]. vm_compute in Howner. discriminate.
Defined.

End TaskListingExamples.

(** ** The aggregating revision of the listing *)

Section TaskAggregationProperties.
Variable placeOf : string -> ObjectId * TaskDoc -> Z.

Import TaskAggregation.

(** X8: when the aggregating [getAllTasks] reaches [Task.aggregatePaginate],
    the page and the limit are at least 1, the caller is authenticated, the
    pipeline starts with the [$match] on the caller's [_id] and ends with a
    [$sort] whose criteria are not empty, with at most one [$addFields]
    between them; the sort is by [createdAt] descending exactly when no
    sort parameter is given. *)
Theorem getAllTasks_plan (q : TaskQuery) (caller : option PublicUser) (plan : Plan) :
  getAllTasks q caller = inr plan ->
  exists who computed criteria,
    caller = Some who
    /\ (1 <= plan_page plan)%Z /\ (1 <= plan_limit plan)%Z
    /\ pipeline plan
       = StageMatch {| match_userId := pub_id who;
                       match_regex := if given (q_query q) then q_query q else None |}
         :: computed ++ [StageSort criteria]
    /\ criteria <> []
    /\ (computed = [] \/ exists fields, fields <> [] /\ computed = [StageAddFields fields])
    /\ (criteria = [("createdAt", (-1)%Z)]
        <-> given (q_sortByPriority q) = false /\ given (q_sortByStatus q) = false
            /\ given (q_sortByDueDate q) = false).
Proof.
  unfold getAllTasks.
  destruct (match q_page q with Some s => parseInt s | None => Some 1%Z end)
    as [page|]; cbn [belowOne]; [|discriminate].
  destruct (Z.ltb_spec page 1); [discriminate|].
  destruct (match q_limit q with Some s => parseInt s | None => Some 10%Z end)
    as [limit|]; cbn [belowOne]; [|discriminate].
  destruct (Z.ltb_spec limit 1); [discriminate|].
  destruct caller as [who|]; [|discriminate].
  intros [= <-]. cbn [pipeline plan_page plan_limit default].
  exists who, (pushIfAny (addFields q) StageAddFields), (sortCriteria q).
  split; [reflexivity|]. split; [assumption|]. split; [assumption|].
  unfold addFields, sortCriteria, direction.
  destruct (given (q_sortByPriority q)), (given (q_sortByStatus q)),
    (given (q_sortByDueDate q)); cbn [negb andb app pushIfAny];
    (split; [reflexivity|]); (split; [discriminate|]);
    (split; [first [by left | right; eexists; split; [|reflexivity]; discriminate]|]);
    split; try (intros (? & ? & ?); discriminate); try discriminate; auto;
    try (destruct (descending _); discriminate).
Qed.

Lemma priority_key (p : option string) (t : TaskDoc) :
  evaluate (prioritySort p) t
  = if bool_decide (priority t = "High") then (if descending p then 3 else 1)%Z
    else if bool_decide (priority t = "Medium") then 2%Z
    else (if descending p then 1 else 3)%Z.
Proof.
  unfold prioritySort. cbn.
  repeat case_bool_decide; try reflexivity; congruence.
Qed.

Lemma status_key (p : option string) (t : TaskDoc) :
  evaluate (statusSort p) t
  = if bool_decide (status t = "pending") then (if descending p then 3 else 1)%Z
    else if bool_decide (status t = "in-progress") then 2%Z
    else (if descending p then 1 else 3)%Z.
Proof.
  unfold statusSort. cbn.
  repeat case_bool_decide; try reflexivity; congruence.
Qed.

(** The pipeline the handler builds. *)
Lemma getAllTasks_pipeline (q : TaskQuery) (caller : option PublicUser) (plan : Plan) :
  getAllTasks q caller = inr plan ->
  exists matchQuery,
    pipeline plan
    = StageMatch matchQuery
      :: pushIfAny (addFields q) StageAddFields ++ pushIfAny (sortCriteria q) StageSort.
Proof.
  unfold getAllTasks.
  destruct (belowOne _); [discriminate|]. destruct (belowOne _); [discriminate|].
  destruct caller as [who|]; [|discriminate].
  intros [= <-]. cbn [pipeline]. eauto.
Qed.

(** Ranks and direction are reversed together. *)
Lemma priority_oriented (p : option string) (a b : TaskDoc) :
  oriented (direction p) (evaluate (prioritySort p) a ?= evaluate (prioritySort p) b)%Z
  = (evaluate (prioritySort None) a ?= evaluate (prioritySort None) b)%Z.
Proof.
  rewrite !priority_key. unfold oriented, direction. cbn [descending].
  destruct (descending p); repeat case_bool_decide; reflexivity.
Qed.

Lemma status_oriented (p : option string) (a b : TaskDoc) :
  oriented (direction p) (evaluate (statusSort p) a ?= evaluate (statusSort p) b)%Z
  = (evaluate (statusSort None) a ?= evaluate (statusSort None) b)%Z.
Proof.
  rewrite !status_key. unfold oriented, direction. cbn [descending].
  destruct (descending p); repeat case_bool_decide; reflexivity.
Qed.

(** The order of a plan, whatever the directions asked for: by priority
    with [High] first, then by status with [pending] first, then by due
    date in the direction asked for; by [createdAt], latest first, when no
    sort parameter is given. *)
Lemma orderOf_plan (q : TaskQuery) (caller : option PublicUser) (plan : Plan)
    (a b : ObjectId * TaskDoc) :
  getAllTasks q caller = inr plan ->
  orderOf placeOf (pipeline plan) a b
  = let byPriority :=
      if given (q_sortByPriority q)
      then (evaluate (prioritySort None) (snd a) ?= evaluate (prioritySort None) (snd b))%Z
      else Eq in
    let byStatus :=
      if given (q_sortByStatus q)
      then (evaluate (statusSort None) (snd a) ?= evaluate (statusSort None) (snd b))%Z
      else Eq in
    let byDueDate :=
      if given (q_sortByDueDate q)
      then oriented (direction (q_sortByDueDate q))
             (placeOf "dueDate" a ?= placeOf "dueDate" b)%Z
      else Eq in
    let byCreation :=
      if negb (given (q_sortByPriority q)) && negb (given (q_sortByStatus q))
         && negb (given (q_sortByDueDate q))
      then CompOpp (placeOf "createdAt" a ?= placeOf "createdAt" b)%Z
      else Eq in
    match byPriority with
    | Eq => match byStatus with
            | Eq => match byDueDate with
                    | Eq => byCreation
                    | Lt => Lt
                    | Gt => Gt
                    end
            | Lt => Lt
            | Gt => Gt
            end
    | Lt => Lt
    | Gt => Gt
    end.
Proof.
  intros Hplan. destruct (getAllTasks_pipeline _ _ _ Hplan) as (matchQuery & ->).
  cbv zeta. unfold orderOf, addFields, sortCriteria.
  rewrite <- (priority_oriented (q_sortByPriority q)).
  rewrite <- (status_oriented (q_sortByStatus q)).
  destruct (given (q_sortByPriority q)), (given (q_sortByStatus q)),
    (given (q_sortByDueDate q)); try reflexivity.
  cbn. by destruct (placeOf "createdAt" a ?= placeOf "createdAt" b)%Z.
Qed.

(** X9: in the pipeline the aggregating [getAllTasks] builds, the
    direction asked for has no effect on the order by priority or by
    status: two queries that differ only in the values of [sortByPriority]
    and [sortByStatus], each given in both or in neither, order any two
    tasks alike; and when [sortByPriority] is given, whatever its value, a
    [High] task comes before a [Low] one. *)
Theorem sort_direction_has_no_effect
    (q q' : TaskQuery) (caller : option PublicUser) (plan plan' : Plan) :
  getAllTasks q caller = inr plan ->
  getAllTasks q' caller = inr plan' ->
  given (q_sortByPriority q') = given (q_sortByPriority q) ->
  given (q_sortByStatus q') = given (q_sortByStatus q) ->
  q_sortByDueDate q' = q_sortByDueDate q ->
  (forall a b, orderOf placeOf (pipeline plan') a b = orderOf placeOf (pipeline plan) a b)
  /\ (given (q_sortByPriority q) = true ->
      forall a b,
        priority (snd a) = "High" -> priority (snd b) = "Low" ->
        orderOf placeOf (pipeline plan) a b = Lt
        /\ orderOf placeOf (pipeline plan) b a = Gt).
Proof.
  intros Hplan Hplan' Hpriority Hstatus Hdue. split.
  - intros a b. rewrite (orderOf_plan _ _ _ _ _ Hplan), (orderOf_plan _ _ _ _ _ Hplan').
    by rewrite Hpriority, Hstatus, Hdue.
  - intros Hgiven a b Ha Hb. rewrite !(orderOf_plan _ _ _ _ _ Hplan). cbv zeta.
    rewrite Hgiven, !priority_key, Ha, Hb. by split.
Qed.

End TaskAggregationProperties.

Section TaskAggregationExamples.

Import TaskAggregation.

(** [?page=2abc&sortByPriority=DESC] from Alice. *)
Lemma getAllTasks_plan_witness :
  let q := mkTaskQuery (Some "2abc") None None (Some "DESC") None None in
  exists plan,
    getAllTasks q (Some (Demo.asUser 1 Demo.alice)) = inr plan
    /\ plan_page plan = 2%Z /\ plan_limit plan = 10%Z
    /\ exists computed criteria,
         pipeline plan = StageMatch (mkMatch 1 None) :: computed ++ [StageSort criteria]
         /\ criteria <> [].
Proof.
  intros q. eexists. split; [reflexivity|].
  split; [reflexivity|]. split; [reflexivity|].
  destruct (getAllTasks_plan q (Some (Demo.asUser 1 Demo.alice)) _ eq_refl)
    as (who & computed & criteria & Hwho & _ & _ & Hpipe & Hsome & _).
  injection Hwho as <-.
  exists computed, criteria. split; [exact Hpipe|exact Hsome].
Defined.

(** Bob's [High] task comes before Alice's [Low] one, whether the query
    says [asc] or [desc]. *)
Lemma sort_direction_has_no_effect_witness :
  let caller := Some (Demo.asUser 1 Demo.alice) in
  let ascending := mkTaskQuery None None None (Some "asc") None None in
  let descending := mkTaskQuery None None None (Some "desc") None None in
  exists plan plan',
    getAllTasks ascending caller = inr plan
    /\ getAllTasks descending caller = inr plan'
    /\ orderOf Samples.byId (pipeline plan) (10, Samples.bobsDoneTask) (11, Samples.alicesTask)
       = Lt
    /\ orderOf Samples.byId (pipeline plan') (10, Samples.bobsDoneTask) (11, Samples.alicesTask)
       = Lt.
Proof.
  intros caller ascending descending. eexists. eexists.
  split; [reflexivity|]. split; [reflexivity|].
  destruct (sort_direction_has_no_effect Samples.byId ascending descending caller _ _
              eq_refl eq_refl eq_refl eq_refl eq_refl) as (Hsame & Hhigh).
  destruct (Hhigh eq_refl (10, Samples.bobsDoneTask) (11, Samples.alicesTask)
              eq_refl eq_refl) as (Hfirst & _).
  split; [exact Hfirst|].
  rewrite Hsame. exact Hfirst.
Defined.

End TaskAggregationExamples.

(** ** Sessions from login to logout *)

Section SessionLifeProperties.
Context `{!Platform}.
Variable cfg : Config.

Import UserController.


(** X10: a login whose credentials select an account and verify against
    it is answered; it sets the access and the refresh token it minted for
    that account as cookies and stores the refresh token for the account,
    and that token is accepted by a refresh at every time before its expiry
    and at no time after it. *)
Theorem loginUser_opens_session
    (v : Variant) (now : Time) (req : Request) (db : Db)
    (u : ObjectId * UserDoc) (p : string) :
  credentialsGiven v req ->
  accountOf v req db = Some u ->
  b_password (body req) = Some p ->
  comparePassword (password (snd u)) p = true ->
  let out := loginUser cfg v now req db in
  let access := TokenCodec.mint cfg (_id u) Access now in
  let refresh := TokenCodec.mint cfg (_id u) Refresh now in
  (exists res,
     fst out = inr res
     /\ res_cookies res
        = [ mkCookie "accessToken" (VToken access) (sessionCookieOptions cfg v);
            mkCookie "refreshToken" (VToken refresh) (sessionCookieOptions cfg v) ])
  /\ Session.storedToken (snd out) (_id u) = Some (Encoded refresh)
  /\ (forall v' later,
        later < now + refresh_ttl cfg ->
        Session.accepts cfg v' later (snd out) (Encoded refresh) = true)
  /\ (forall v' later,
        now + refresh_ttl cfg < later ->
        Session.accepts cfg v' later (snd out) (Encoded refresh) = false).
Proof.
  destruct u as [who doc]. intros Hgiven Haccount Hp Hverify. cbv zeta.
  rewrite (login_runs cfg v now req db who doc p Hgiven Haccount Hp Hverify).
  cbn [fst snd _id].
  split; [eexists; split; reflexivity|].
  split; [apply storedToken_rotated|]. split.
  - intros v' later Hbefore.
    apply accepts_iff. exists (TokenCodec.mint cfg who Refresh now).
    split; [reflexivity|]. split; [|apply storedToken_rotated].
    apply validate_mint. cbn [TokenCodec.ttl]. lia.
  - intros v' later Hlate. apply not_true_is_false. intros Hacc.
    apply accepts_iff in Hacc as (t & [= <-] & Hok & _).
    apply validate_inr in Hok as (_ & _ & Hexp & _). cbn in Hexp. lia.
Qed.

(** X11: after an answered logout no refresh token that names the
    identity is accepted, at any time, and the tokens of the other
    identities are accepted as before. *)
Theorem logoutUser_revokes (req : Request) (db : Db) :
  succeeded (logoutUser req db) = true ->
  exists reqUser,
    user req = Some reqUser
    /\ forall v now tok,
         Session.accepts cfg v now (snd (logoutUser req db)) tok
         = if bool_decide (Session.identityOf tok = Some (pub_id reqUser))
           then false
           else Session.accepts cfg v now db tok.
Proof.
  intros Hout. unfold succeeded in Hout.
  destruct (user req) as [reqUser|] eqn:Huser;
    [|unfold logoutUser in Hout; rewrite Huser in Hout; discriminate].
  exists reqUser. split; [reflexivity|].
  destruct (users db !! pub_id reqUser) as [doc|] eqn:Hdoc;
    [|rewrite (logoutUser_missing _ _ _ Huser Hdoc) in Hout; discriminate].
  rewrite (logoutUser_found _ _ _ _ Huser Hdoc). cbn [snd].
  intros v now tok. case_bool_decide as Hwho.
  - apply not_true_is_false. intros Hacc.
    apply accepts_iff in Hacc as (t & -> & _ & Hstored).
    injection Hwho as Hwho. rewrite Hwho in Hstored.
    unfold Session.storedToken in Hstored. cbn in Hstored.
    rewrite lookup_insert_eq in Hstored. discriminate.
  - apply eq_true_iff_eq. rewrite !accepts_iff.
    assert (Hother : forall t, tok = Encoded t ->
              Session.storedToken
                (set_users (insert (pub_id reqUser) (withRefreshToken None doc)) db)
                (subject (payload t))
              = Session.storedToken db (subject (payload t))).
    { intros t ->. unfold Session.storedToken. cbn [set_users users].
      rewrite lookup_insert_ne; [reflexivity|].
      intros Heq. apply Hwho. cbn. by rewrite Heq. }
    split; intros (t & Htok & Hvalid & Hstored); exists t;
      (split; [exact Htok|]); (split; [exact Hvalid|]);
      [rewrite <- (Hother t Htok)|rewrite (Hother t Htok)]; exact Hstored.
Qed.

(** X12: a password change with a verifying old password and a different
    new one stores the hash of the new password and nothing else: every
    refresh token is accepted afterwards exactly as before. *)
Theorem changeUserPassword_keeps_sessions
    (salt : N) (req : Request) (db : Db) (reqUser : PublicUser) (doc : UserDoc)
    (old new : string) :
  user req = Some reqUser ->
  users db !! pub_id reqUser = Some doc ->
  b_oldPassword (body req) = Some old ->
  b_newPassword (body req) = Some new ->
  comparePassword (password doc) old = true ->
  old <> new ->
  let out := changeUserPassword salt req db in
  snd out = set_users (insert (pub_id reqUser)
                         (withPassword (hashPassword salt new) doc)) db
  /\ succeeded out = true
  /\ forall v now tok,
       Session.accepts cfg v now (snd out) tok = Session.accepts cfg v now db tok.
Proof.
  intros Huser Hdoc Hold Hnew Hverify Hdiffer. cbv zeta.
  assert (Hrun : changeUserPassword salt req db
            = (inr {| res_status := 200; res_cookies := [];
                      res_json := mkApiResponse 200 (VObject [])
                                    "Password changed successfully" |},
               set_users (insert (pub_id reqUser)
                            (withPassword (hashPassword salt new) doc)) db)).
  { unfold changeUserPassword. rewrite Huser, Hold, Hnew.
    unfold bind at 1. rewrite (findById_found _ _ _ Hdoc).
    unfold bind, isPasswordCorrect, save_password, modify, ret, throw, _id.
    cbn [fst snd]. rewrite Hverify. cbn [negb].
    rewrite bool_decide_eq_false_2 by congruence.
    unfold set_users. cbn [users tasks]. by rewrite (alter_found _ _ _ _ Hdoc). }
  split; [by rewrite Hrun|]. split; [by rewrite Hrun|].
  intros v now tok. apply accepts_same_tokens.
  intros who. apply changeUserPassword_keeps_token.
Qed.

End SessionLifeProperties.

Section SessionLifeExamples.
#[local] Existing Instance Demo.platform.
Import UserController.

(** Alice logs in at time 100: her refresh token is stored for her,
    accepted at time 86499, just before its expiry, and refused at 86501. *)
Lemma loginUser_opens_session_witness :
  let out := loginUser Demo.config V1 100 Samples.aliceCredentials Demo.twoUsers in
  Session.storedToken (snd out) 1 = Some (Encoded Demo.aliceToken)
  /\ Session.accepts Demo.config V1 86499 (snd out) (Encoded Demo.aliceToken) = true
  /\ Session.accepts Demo.config V2 86501 (snd out) (Encoded Demo.aliceToken) = false.
Proof.
  intros out.
  assert (Haccount : accountOf V1 Samples.aliceCredentials Demo.twoUsers
                     = Some (1, Demo.alice)) by (vm_compute; reflexivity).
  assert (Hgiven : credentialsGiven V1 Samples.aliceCredentials) by (split; reflexivity).
  destruct (loginUser_opens_session Demo.config V1 100 Samples.aliceCredentials
              Demo.twoUsers (1, Demo.alice) "secret123" Hgiven Haccount eq_refl eq_refl)
    as (_ & Hstored & Hbefore & Hafter).
  split; [exact Hstored|]. split.
  - apply (Hbefore V1 86499). vm_compute. reflexivity.
  - apply (Hafter V2 86501). vm_compute. reflexivity.
Defined.

(** Alice logs out: her token is no longer accepted. *)
Lemma logoutUser_revokes_witness :
  let req := Demo.authenticated (Demo.asUser 1 Demo.alice) emptyBody in
  Session.accepts Demo.config V1 200 Demo.aliceLoggedIn (Encoded Demo.aliceToken) = true
  /\ Session.accepts Demo.config V1 200 (snd (logoutUser req Demo.aliceLoggedIn))
       (Encoded Demo.aliceToken) = false.
Proof.
  intros req. split; [vm_compute; reflexivity|].
  destruct (logoutUser_revokes Demo.config req Demo.aliceLoggedIn)
    as (reqUser & Huser & Hrevoked); [vm_compute; reflexivity|].
  injection Huser as <-.
  exact (eq_trans (Hrevoked V1 200 (Encoded Demo.aliceToken)) eq_refl).
Defined.

(** Alice changes her password while logged in: the hash changes and her
    refresh token is still accepted. *)
Lemma changeUserPassword_keeps_sessions_witness :
  let req := Demo.authenticated (Demo.asUser 1 Demo.alice)
               (Demo.passwords (Some "secret123") (Some "n3w-secret")) in
  let out := changeUserPassword 7 req Demo.aliceLoggedIn in
  (password <$> users (snd out) !! 1) = Some "$7$n3w-secret"
  /\ Session.accepts Demo.config V1 200 (snd out) (Encoded Demo.aliceToken) = true.
Proof.
  intros req out.
  destruct (changeUserPassword_keeps_sessions Demo.config 7 req Demo.aliceLoggedIn
              (Demo.asUser 1 Demo.alice)
              (withRefreshToken (Some (Encoded Demo.aliceToken)) Demo.alice)
              "secret123" "n3w-secret")
    as (Hdb & _ & Hsessions);
    try (vm_compute; reflexivity); [discriminate|].
  split.
  - change (snd out) with (snd (changeUserPassword 7 req Demo.aliceLoggedIn)).
    rewrite Hdb. vm_compute. reflexivity.
  - refine (eq_trans (Hsessions V1 200 (Encoded Demo.aliceToken)) _).
    vm_compute. reflexivity.
Defined.

End SessionLifeExamples.

(** ** From registration to login *)

Section RegisterLoginProperties.
Context `{!Platform}.
Variable cfg : Config.

Import UserController.

Lemma find_only {A} (P : A -> bool) (l : list A) (a : A) :
  In a l -> P a = true ->
  (forall x, In x l -> P x = true -> x = a) ->
  find P l = Some a.
Proof.
  intros Hin Ha Honly. destruct (find P l) as [x|] eqn:Hfind.
  - apply find_some in Hfind as [Hx HPx]. f_equal. by apply Honly.
  - pose proof (find_none P l Hfind a Hin). congruence.
Qed.

Lemma notBlank_truthy (s : string) :
  JS.trimsToEmpty (Some s) = false -> JS.falsy (Some s) = false.
Proof.
  destruct s; [discriminate|reflexivity].
Qed.


(** X13: in the second revision, after a registration that went through,
    a login with the same email and password is answered, provided the
    hash of a password verifies against that password; the refresh token
    of the login is stored for the new account, which had none. *)
Theorem register_then_login
    (salt : N) (now : Time) (req : Request) (db : Db) (e u f p : string) :
  let b := body req in
  b_email b = Some e -> b_username b = Some u ->
  b_fullName b = Some f -> b_password b = Some p ->
  fillAllFields (registrationFields b) = false ->
  existingUser b db = None ->
  schemaRejects (users db) (withPassword p (newUser salt e u f p)) = None ->
  comparePassword (hashPassword salt p) p = true ->
  let registered := snd (registerUser V2 salt req db) in
  let id := fresh (dom (users db)) in
  Session.storedToken registered id = None
  /\ succeeded (loginUser cfg V2 now req registered) = true
  /\ Session.storedToken (snd (loginUser cfg V2 now req registered)) id
     = Some (Encoded (TokenCodec.mint cfg id Refresh now)).
Proof.
  cbv zeta. intros He Hu Hf Hp Hvalid Hnew Haccepted Hverify.
  rewrite (registerUser_validated _ _ _ _ Hvalid), Hnew, Hu.
  rewrite (createAndRespond_created V2 salt _ e u f p db He Hf Hp Haccepted).
  cbn [snd].
  set (id := fresh (dom (users db))). set (doc := newUser salt e u f p).
  set (registered := set_users (insert id doc) db).
  assert (Hfree : users db !! id = None) by apply not_elem_of_dom, is_fresh.
  assert (Hdoc : users registered !! id = Some doc) by apply lookup_insert_eq.
  assert (Hblank : JS.trimsToEmpty (Some e) = false /\ JS.trimsToEmpty (Some p) = false).
  { unfold fillAllFields, registrationFields in Hvalid. rewrite He, Hp in Hvalid.
    cbn [existsb] in Hvalid.
    apply orb_false_iff in Hvalid as [He' Hvalid].
    apply orb_false_iff in Hvalid as [_ Hvalid].
    apply orb_false_iff in Hvalid as [_ Hvalid].
    apply orb_false_iff in Hvalid as [Hp' _]. by split. }
  destruct Hblank as [Heblank Hpblank].
  assert (Hgiven : credentialsGiven V2 req).
  { unfold credentialsGiven, loginIdentifier, fillAllFields. rewrite He, Hp.
    rewrite (notBlank_truthy _ Heblank), (notBlank_truthy _ Hpblank).
    cbn [existsb orb]. by rewrite Heblank, Hpblank. }
  assert (Haccount : accountOf V2 req registered = Some (id, doc)).
  { unfold accountOf, loginIdentifier, loginPath. rewrite He.
    apply find_only.
    - apply list_elem_of_In, elem_of_map_to_list. exact Hdoc.
    - unfold pathIs. cbn [snd email doc newUser]. apply String.eqb_refl.
    - intros [k d] Hin Hselected.
      apply list_elem_of_In, elem_of_map_to_list in Hin.
      unfold registered in Hin. cbn [set_users users] in Hin.
      rewrite lookup_insert in Hin. case_decide as Hk.
      + injection Hin as <-. by subst k.
      + exfalso. unfold existingUser in Hnew.
        apply elem_of_map_to_list, list_elem_of_In in Hin.
        pose proof (find_none _ _ Hnew (k, d) Hin) as Hnone.
        unfold emailOrUsername in Hnone. rewrite He in Hnone.
        apply orb_false_iff in Hnone as [Hnone _]. congruence. }
  assert (Hverify' : comparePassword (password doc) p = true) by exact Hverify.
  rewrite (login_runs cfg V2 now req registered id doc p Hgiven Haccount Hp Hverify').
  split; [|split; [reflexivity|apply storedToken_rotated]].
  unfold Session.storedToken. by rewrite Hdoc.
Qed.

End RegisterLoginProperties.

Section RegisterLoginExamples.
#[local] Existing Instance Demo.platform.
Import UserController.

(** Carol registers and logs in at time 500. *)
Lemma register_then_login_witness :
  let req := Demo.anonymous (Demo.profile (Some "carol@x.com") (Some " Carol ")
                               (Some "Carol") (Some "pw")) in
  let registered := snd (registerUser V2 3 req Demo.twoUsers) in
  succeeded (loginUser Demo.config V2 500 req registered) = true
  /\ Session.storedToken (snd (loginUser Demo.config V2 500 req registered)) 3
     = Some (Encoded (TokenCodec.mint Demo.config 3 Refresh 500)).
Proof.
  intros req registered.
  assert (Hfree : existingUser (body req) Demo.twoUsers = None)
    by (vm_compute; reflexivity).
  destruct (register_then_login Demo.config 3 500 req Demo.twoUsers
              "carol@x.com" " Carol " "Carol" "pw"
              eq_refl eq_refl eq_refl eq_refl eq_refl Hfree eq_refl eq_refl)
    as (_ & Hlogin & Hstored).
  split; [exact Hlogin|exact Hstored].
Defined.

End RegisterLoginExamples.

(** ** What the session handlers leave alone *)

Section FrameProperties.
Context `{!Platform}.
Variable cfg : Config.

Import UserController Overlap Frame.

Lemma sameButTokens_refl db : sameButTokens db db.
Proof. by split. Qed.

Lemma sameButTokens_trans db1 db2 db3 :
  sameButTokens db1 db2 -> sameButTokens db2 db3 -> sameButTokens db1 db3.
Proof.
  intros [Ht1 Hu1] [Ht2 Hu2]. split; [congruence|].
  intros id. by rewrite Hu2, Hu1.
Qed.

Lemma sameButTokens_alter db who tok :
  sameButTokens db (set_users (alter (withRefreshToken tok) who) db).
Proof.
  split; [reflexivity|]. intros id. cbn [set_users users].
  rewrite lookup_alter. case_decide as Hid; [subst id|reflexivity].
  by destruct (users db !! who).
Qed.

Lemma sameButTokens_insert db who doc tok :
  users db !! who = Some doc ->
  sameButTokens db (set_users (insert who (withRefreshToken tok doc)) db).
Proof.
  intros Hdoc. split; [reflexivity|]. intros id. cbn [set_users users].
  rewrite lookup_insert. case_decide as Hid; [subst id|reflexivity].
  by rewrite Hdoc.
Qed.

(** A refresh either leaves the database as it is or rotates the token of
    one user. *)
Lemma refresh_writes v now req db :
  snd (refreshAccessToken cfg v now req db) = db
  \/ exists who doc,
       users db !! who = Some doc
       /\ snd (refreshAccessToken cfg v now req db)
          = set_users (insert who (rotated cfg now who doc)) db.
Proof.
  destruct (succeeded (refreshAccessToken cfg v now req db)) eqn:Hout.
  - right. destruct (refresh_answers_inv _ _ _ _ _ Hout)
      as (t & doc & Hinc & Hvalid & Hdoc & Hcur).
    rewrite (refresh_success _ _ _ _ _ _ _ Hinc Hvalid Hdoc Hcur). eauto.
  - left. by destruct (refresh_refuses _ _ _ _ _ Hout) as (msg & ->).
Qed.

(** X14: login, refresh and logout change nothing but the [refreshToken]
    path of user documents: the tasks, the set of users and every email,
    username, full name and password hash are as before. *)
Theorem session_handlers_frame (v : Variant) (now : Time) (req : Request) (db : Db) :
  sameButTokens db (snd (loginUser cfg v now req db))
  /\ sameButTokens db (snd (refreshAccessToken cfg v now req db))
  /\ sameButTokens db (snd (logoutUser req db)).
Proof.
  split; [|split].
  - destruct (succeeded (loginUser cfg v now req db)) eqn:Hout.
    + destruct (login_answered _ _ _ _ _ Hout) as (who & doc & _ & Hdoc & ->).
      by apply sameButTokens_insert.
    + rewrite (login_refused _ _ _ _ _ Hout). apply sameButTokens_refl.
  - destruct (refresh_writes v now req db) as [->|(who & doc & Hdoc & ->)].
    + apply sameButTokens_refl.
    + by apply sameButTokens_insert.
  - unfold logoutUser. destruct (user req) as [reqUser|];
      [|apply sameButTokens_refl].
    unfold bind, User_findById, gets, save_refreshToken, modify, ret, throw.
    destruct (users db !! pub_id reqUser); cbn [fmap option_fmap option_map snd];
      [apply sameButTokens_alter|apply sameButTokens_refl].
Qed.

(** One step of a refresh request writes nothing or the token it mints. *)
Lemma step_writes v now req at_ db :
  snd (step cfg v now req at_ db) = db
  \/ exists who,
       snd (step cfg v now req at_ db)
       = set_users (alter (withRefreshToken
                             (Some (Encoded (TokenCodec.mint cfg who Refresh now)))) who) db.
Proof.
  destruct at_ as [| who | who | outcome]; cbn [step].
  - left. destruct (truthyTok _); cbn [negb]; [|reflexivity].
    destruct (jwt_verify cfg now _ db) as [[error|decoded] db']; [reflexivity|].
    destruct (users db !! _) as [doc|]; [|reflexivity].
    by destruct (bool_decide _).
  - left. by destruct (users db !! who).
  - right. exists who. reflexivity.
  - by left.
Qed.

Lemma storedToken_alter db who tok id :
  Session.storedToken (set_users (alter (withRefreshToken (Some tok)) who) db) id
  = Session.storedToken db id
  \/ (id = who
      /\ Session.storedToken (set_users (alter (withRefreshToken (Some tok)) who) db) id
         = Some tok).
Proof.
  unfold Session.storedToken. cbn [set_users users]. rewrite lookup_alter.
  case_decide as Hid; [subst id|by left].
  destruct (users db !! who); [right|left]; auto.
Qed.

(** X15: however the steps of two refresh requests are interleaved, and
    wherever the two requests stand at the start, the run changes nothing
    but [refreshToken] paths, and the token stored for a user at the end is
    the one stored at the start or the refresh token one of the two
    requests minted for that user. *)
Theorem overlap_frame
    (v : Variant) (now1 now2 : Time) (req1 req2 : Request)
    (turns : list Turn) (f : Flight) :
  let f' := schedule cfg v now1 now2 req1 req2 turns f in
  sameButTokens (shared f) (shared f')
  /\ forall id,
       Session.storedToken (shared f') id = Session.storedToken (shared f) id
       \/ Session.storedToken (shared f') id
          = Some (Encoded (TokenCodec.mint cfg id Refresh now1))
       \/ Session.storedToken (shared f') id
          = Some (Encoded (TokenCodec.mint cfg id Refresh now2)).
Proof.
  cbv zeta. revert f. induction turns as [|turn turns IH]; intros f; cbn [schedule].
  - split; [apply sameButTokens_refl|]. intros id. by left.
  - destruct (IH (advance cfg v now1 now2 req1 req2 turn f)) as [Hframe Htokens].
    assert (Hstep :
      sameButTokens (shared f) (shared (advance cfg v now1 now2 req1 req2 turn f))
      /\ forall id,
           Session.storedToken (shared (advance cfg v now1 now2 req1 req2 turn f)) id
           = Session.storedToken (shared f) id
           \/ Session.storedToken (shared (advance cfg v now1 now2 req1 req2 turn f)) id
              = Some (Encoded (TokenCodec.mint cfg id Refresh now1))
           \/ Session.storedToken (shared (advance cfg v now1 now2 req1 req2 turn f)) id
              = Some (Encoded (TokenCodec.mint cfg id Refresh now2))).
    { destruct turn; cbn [advance shared].
      - destruct (step_writes v now1 req1 (first f) (shared f)) as [->|(who & ->)].
        + split; [apply sameButTokens_refl|]. intros id. by left.
        + split; [apply sameButTokens_alter|]. intros id.
          destruct (storedToken_alter (shared f) who
                      (Encoded (TokenCodec.mint cfg who Refresh now1)) id)
            as [Hsame|[-> Hnew]]; auto.
      - destruct (step_writes v now2 req2 (second f) (shared f)) as [->|(who & ->)].
        + split; [apply sameButTokens_refl|]. intros id. by left.
        + split; [apply sameButTokens_alter|]. intros id.
          destruct (storedToken_alter (shared f) who
                      (Encoded (TokenCodec.mint cfg who Refresh now2)) id)
            as [Hsame|[-> Hnew]]; auto. }
    destruct Hstep as [Hframe0 Htokens0].
    split; [by apply (sameButTokens_trans _ _ _ Hframe0)|].
    intros id. destruct (Htokens id) as [Hsame|Hminted]; [|by right].
    rewrite Hsame. apply Htokens0.
Qed.

End FrameProperties.

(** ** Profile updates *)

Section ProfileProperties.
Context `{!Platform}.
Variable indexRejects : gmap N UserDoc -> ObjectId -> UserDoc -> option string.

Import UserController UserProfile.

(** The two ways [updateUserProfile] can end. *)
Lemma updateUserProfile_cases v req db :
  (exists outcome, updateUserProfile indexRejects v req db = (outcome, db))
  \/ (exists who doc e u f res,
        user req = Some who
        /\ users db !! pub_id who = Some doc
        /\ updateUserProfile indexRejects v req db
           = (inr res, set_users (insert (pub_id who) (setProfile e u f doc)) db)).
Proof.
  unfold updateUserProfile.
  destruct (user req) as [who|]; [|left; by eexists].
  destruct (fillAllFields _); [left; by eexists|].
  destruct v.
  - unfold bind, User_findOneAndUpdate, ret.
    destruct (users db !! pub_id who) as [doc|] eqn:Hdoc; [|left; by eexists].
    destruct (indexRejects _ _ _); [left; by eexists|].
    right. by exists who, doc, (b_email (body req)), (b_username (body req)),
      (b_fullName (body req)); eexists.
  - destruct (b_username (body req)) as [u|]; [|left; by eexists].
    unfold bind, User_findOneAndUpdate, ret.
    destruct (users db !! pub_id who) as [doc|] eqn:Hdoc; [|left; by eexists].
    destruct (indexRejects _ _ _); [left; by eexists|].
    right. by exists who, doc, (b_email (body req)),
      (Some (JS.toLowerCase (JS.trim u))), (b_fullName (body req)); eexists.
Qed.

(** X16: [updateUserProfile] touches no task and no user but the caller,
    adds and removes no user, and leaves the caller's password hash and
    stored refresh token as they are. *)
Theorem updateUserProfile_frame (v : Variant) (req : Request) (db : Db) :
  let out := updateUserProfile indexRejects v req db in
  tasks (snd out) = tasks db
  /\ dom (users (snd out)) = dom (users db)
  /\ forall id doc',
       users (snd out) !! id = Some doc' ->
       exists doc,
         users db !! id = Some doc
         /\ password doc' = password doc
         /\ refreshToken doc' = refreshToken doc
         /\ (pub_id <$> user req <> Some id -> doc' = doc).
Proof.
  cbv zeta.
  destruct (updateUserProfile_cases v req db) as [[outcome ->]|Hdone].
  - split; [reflexivity|]. split; [reflexivity|].
    intros id doc' Hid. exists doc'. auto.
  - destruct Hdone as (who & doc & e & u & f & res & Huser & Hdoc & ->).
    cbn [snd set_users users tasks].
    split; [reflexivity|]. split; [apply dom_insert_lookup_L; eauto|].
    intros id doc'. rewrite lookup_insert. case_decide as Hid; [subst id|].
    + intros Heq. injection Heq as <-. exists doc.
      split; [exact Hdoc|]. split; [reflexivity|]. split; [reflexivity|].
      intros Hother. exfalso. apply Hother. by rewrite Huser.
    + intros Hsame. exists doc'. auto.
Qed.

(** X17: with no username in the body, the second revision throws a
    [TypeError] on [username.trim()] and writes nothing, while the first
    revision updates the other fields and keeps the username. *)
Theorem updateUserProfile_absent_username
    (req : Request) (db : Db) (who : PublicUser) (doc : UserDoc) :
  user req = Some who ->
  users db !! pub_id who = Some doc ->
  b_username (body req) = None ->
  fillAllFields [b_email (body req); b_username (body req); b_fullName (body req)] = false ->
  indexRejects (users db) (pub_id who)
    (setProfile (b_email (body req)) None (b_fullName (body req)) doc) = None ->
  let updated := setProfile (b_email (body req)) None (b_fullName (body req)) doc in
  updateUserProfile indexRejects V2 req db = (inl usernameMissing, db)
  /\ updateUserProfile indexRejects V1 req db
     = (inr {| res_status := 200; res_cookies := [];
               res_json := mkApiResponse 200 (VUser (select (pub_id who, updated)))
                             "User profile updated successfully" |},
        set_users (insert (pub_id who) updated) db)
  /\ username updated = username doc.
Proof.
  intros Huser Hdoc Hnone Hvalid Hindex. cbv zeta.
  unfold updateUserProfile. rewrite Huser, Hvalid, Hnone.
  split; [reflexivity|]. split; [|reflexivity].
  unfold bind, User_findOneAndUpdate, ret. by rewrite Hdoc, Hindex.
Qed.

End ProfileProperties.

Section ProfileExamples.
#[local] Existing Instance Demo.platform.
Import UserController UserProfile.

(** Alice changes her email and full name while logged in. *)
Lemma updateUserProfile_frame_witness :
  let req := Demo.authenticated (Demo.asUser 1 Demo.alice) Samples.rename in
  let out := updateUserProfile Samples.noIndex V1 req Demo.aliceLoggedIn in
  (email <$> users (snd out) !! 1) = Some "alice@y.com"
  /\ (password <$> users (snd out) !! 1) = Some "$1$secret123"
  /\ (refreshToken <$> users (snd out) !! 1) = Some (Some (Encoded Demo.aliceToken))
  /\ users (snd out) !! 2 = Some Demo.bob.
Proof.
  intros req out.
  destruct (updateUserProfile_frame Samples.noIndex V1 req Demo.aliceLoggedIn)
    as (_ & _ & Hframe).
  assert (Halice : exists doc', users (snd out) !! 1 = Some doc') by (vm_compute; eauto).
  assert (Hbob : exists doc', users (snd out) !! 2 = Some doc') by (vm_compute; eauto).
  destruct Halice as (alice' & Halice). destruct Hbob as (bob' & Hbob).
  destruct (Hframe 1 alice' Halice) as (alice0 & Hbefore & Hpw & Htok & _).
  destruct (Hframe 2 bob' Hbob) as (bob0 & Hbefore2 & _ & _ & Hsame).
  assert (Hwas : Some alice0
                 = Some (withRefreshToken (Some (Encoded Demo.aliceToken)) Demo.alice))
    by (rewrite <- Hbefore; vm_compute; reflexivity).
  assert (Hwas2 : Some bob0 = Some Demo.bob)
    by (rewrite <- Hbefore2; vm_compute; reflexivity).
  injection Hwas as ->. injection Hwas2 as ->.
  split; [vm_compute; reflexivity|].
  rewrite Halice, Hbob. cbn [fmap option_fmap option_map].
  rewrite Hpw, Htok, Hsame; [auto|]; vm_compute; discriminate.
Defined.

(** Alice sends no username: the second revision throws, the first
    answers. *)
Lemma updateUserProfile_absent_username_witness :
  let req := Demo.authenticated (Demo.asUser 1 Demo.alice) Samples.rename in
  updateUserProfile Samples.noIndex V2 req Demo.aliceLoggedIn
  = (inl usernameMissing, Demo.aliceLoggedIn)
  /\ succeeded (updateUserProfile Samples.noIndex V1 req Demo.aliceLoggedIn) = true.
Proof.
  intros req.
  destruct (updateUserProfile_absent_username Samples.noIndex req Demo.aliceLoggedIn
              (Demo.asUser 1 Demo.alice)
              (withRefreshToken (Some (Encoded Demo.aliceToken)) Demo.alice))
    as (Hsecond & Hfirst & _); try (vm_compute; reflexivity).
  split; [exact Hsecond|]. by rewrite Hfirst.
Defined.

End ProfileExamples.

(** ** A title of spaces *)

Section BlankTitleProperties.
Context `{!Platform}.
Variable dateAccepted : string -> bool.

Import TaskController TaskCreation.

(** X18: a title that is not empty but trims to the empty string passes
    the check of [createTask] for required fields and is only stopped by
    the schema: the handler throws the validation error of the model, not
    its own 400, and stores nothing. *)
Theorem createTask_blank_title
    (req : Request) (db : Db) (who : PublicUser) (t due p : string) :
  user req = Some who ->
  b_title (body req) = Some t -> t <> "" -> JS.trim t = "" ->
  b_dueDate (body req) = Some due -> due <> "" ->
  b_priority (body req) = Some p -> includes priorityValues p = true ->
  invalidChoice statusValues (b_status (body req)) = false ->
  createTask dateAccepted req db = (inl validationFailed, db)
  /\ validationFailed <> requiredMissing.
Proof.
  intros Huser Ht Hsome Hblank Hdue Hdate Hp Hvalid Hstatus.
  split; [|discriminate].
  assert (Htruthy : forall s, s <> "" -> JS.falsy (Some s) = false).
  { intros s Hs. unfold JS.falsy, JS.truthyStr. rewrite negb_involutive.
    by apply String.eqb_neq. }
  unfold createTask. rewrite Ht, Hdue, Hp, Huser, Hstatus.
  rewrite !Htruthy by (try assumption; intros ->; discriminate).
  cbn [orb]. unfold invalidChoice. rewrite Hvalid, andb_false_r.
  unfold bind, Task_create. cbn [default title from_option id].
  by rewrite Hblank.
Qed.

End BlankTitleProperties.

Section BlankTitleExamples.
#[local] Existing Instance Demo.platform.
Import TaskController TaskCreation.

Lemma createTask_blank_title_witness :
  let req := calledBy (Demo.asUser 1 Demo.alice)
               (mkRequest Samples.blankTitle None None "" None) in
  createTask Samples.always req Samples.twoTasks
  = (inl validationFailed, Samples.twoTasks).
Proof.
  intros req.
  apply (createTask_blank_title Samples.always req Samples.twoTasks
           (Demo.asUser 1 Demo.alice) "   " "2026-02-01" "Low");
    try reflexivity; discriminate.
Defined.

End BlankTitleExamples.

(** ** Refresh requests come to an end *)

Section ProgressProperties.
Context `{!Platform}.
Variable cfg : Config.

Import UserController Overlap Progressing.

Lemma step_advances v now req at_ db :
  (stepsLeft (fst (step cfg v now req at_ db)) <= pred (stepsLeft at_))%nat.
Proof.
  destruct at_ as [| who | who | outcome]; cbn [step].
  - destruct (truthyTok _); cbn [negb fst stepsLeft]; [|lia].
    destruct (jwt_verify cfg now _ db) as [[error|decoded] db']; cbn [fst stepsLeft]; [lia|].
    destruct (users db !! _) as [doc|]; cbn [fst stepsLeft]; [|lia].
    destruct (bool_decide _); cbn [negb fst stepsLeft]; lia.
  - destruct (users db !! who); cbn [fst stepsLeft]; lia.
  - cbn [fst stepsLeft]. lia.
  - cbn [fst stepsLeft]. lia.
Qed.

Lemma step_keeps_outcome v now req outcome db :
  step cfg v now req (Finished outcome) db = (Finished outcome, db).
Proof. reflexivity. Qed.

Lemma schedule_advances v now1 now2 req1 req2 turns f :
  (stepsLeft (first (schedule cfg v now1 now2 req1 req2 turns f))
   <= stepsLeft (first f) - turnsOfFirst turns)%nat
  /\ (stepsLeft (second (schedule cfg v now1 now2 req1 req2 turns f))
      <= stepsLeft (second f) - turnsOfSecond turns)%nat.
Proof.
  revert f. induction turns as [|turn turns IH]; intros f; cbn [schedule].
  - unfold turnsOfFirst, turnsOfSecond. cbn. lia.
  - destruct (IH (advance cfg v now1 now2 req1 req2 turn f)) as [Hfirst Hsecond].
    unfold turnsOfFirst, turnsOfSecond in *.
    destruct turn; cbn [advance first second shared List.filter runsFirst negb length] in *.
    + pose proof (step_advances v now1 req1 (first f) (shared f)). lia.
    + pose proof (step_advances v now2 req2 (second f) (shared f)). lia.
Qed.

(** X19: whatever the interleaving, a refresh request has its outcome
    once it has been given three turns: each of its three awaited
    operations is one step, and no step waits for the other request. *)
Theorem refresh_requests_finish
    (v : Variant) (now1 now2 : Time) (req1 req2 : Request) (turns : list Turn) (db : Db) :
  let f := schedule cfg v now1 now2 req1 req2 turns (arrival db) in
  ((3 <= turnsOfFirst turns)%nat -> exists outcome, first f = Finished outcome)
  /\ ((3 <= turnsOfSecond turns)%nat -> exists outcome, second f = Finished outcome).
Proof.
  cbv zeta.
  destruct (schedule_advances v now1 now2 req1 req2 turns (arrival db)) as [Hfirst Hsecond].
  cbn [arrival first second stepsLeft] in *.
  split; intros Hturns.
  - destruct (first (schedule cfg v now1 now2 req1 req2 turns (arrival db)));
      cbn [stepsLeft] in Hfirst; try lia. eauto.
  - destruct (second (schedule cfg v now1 now2 req1 req2 turns (arrival db)));
      cbn [stepsLeft] in Hsecond; try lia. eauto.
Qed.

End ProgressProperties.

Section ProgressExamples.
#[local] Existing Instance Demo.platform.
Import UserController Overlap Progressing.

Lemma refresh_requests_finish_witness :
  let req := Session.presenting (Encoded Demo.aliceToken) in
  let f := schedule Demo.config V1 200 300 req req
             [SecondRuns; FirstRuns; FirstRuns; SecondRuns; FirstRuns]
             (arrival Demo.aliceLoggedIn) in
  (exists outcome, first f = Finished outcome)
  /\ second f = Loaded 1.
Proof.
  intros req f. split; [|vm_compute; reflexivity].
  refine (proj1 (refresh_requests_finish Demo.config V1 200 300 req req
                   [SecondRuns; FirstRuns; FirstRuns; SecondRuns; FirstRuns]
                   Demo.aliceLoggedIn) _).
  vm_compute. lia.
Defined.

End ProgressExamples.
